(** * Voucher workflow of the ZoomPay mobile application

    A shallow embedding of the screens that move a payment voucher through
    its approval path (the voucher-creator screen, the publisher screen, the
    super-user screen) and of the sign-in gate, over a model of the three
    Firebase services they call: the Firestore document store, the Storage
    attachment store and the authentication service.

    Documents are JavaScript objects and are modelled as finite maps from
    field names to values; a collection maps document ids to documents; the
    database maps collection names to collections.  Handlers are functions
    from the world before the call to an outcome and the world after it. *)

From stdpp Require Import gmap strings list fin_maps sorting pretty.
From Stdlib Require Import ZArith Lia Ascii.

Local Open Scope string_scope.

(** ** Field values *)

(** [interface Comment] of the voucher screen. *)
Record Comment := mkComment {
  text : string;
  createdAt : string;
  createdBy : string;
  createdByName : string;
  role : string
}.

Global Instance Comment_eq_dec : EqDecision Comment.
Proof. solve_decision. Defined.

(** The values a document field holds in the modelled screens. *)
Inductive Value :=
  | VNull
  | VBool (b : bool)
  | VNum (n : Z)
  | VStr (s : string)
  | VComments (l : list Comment).

Global Instance Value_eq_dec : EqDecision Value.
Proof. solve_decision. Defined.

Abbreviation Doc := (gmap string Value).
Abbreviation Collection := (gmap string (gmap string Value)).
Abbreviation Database := (gmap string (gmap string (gmap string Value))).

(** JavaScript truthiness of a field read: a missing field is [undefined]. *)
Definition truthy (v : option Value) : bool :=
  match v with
  | None | Some VNull => false
  | Some (VBool b) => b
  | Some (VNum n) => negb (n =? 0)%Z
  | Some (VStr s) => negb (bool_decide (s = ""))
  | Some (VComments _) => true
  end.

(** [x || dflt] for a field declared as a string. *)
Definition str_or (v : option Value) (dflt : string) : string :=
  match v with
  | Some (VStr s) => if bool_decide (s = "") then dflt else s
  | _ => dflt
  end.

(** [x.comments || []]. *)
Definition comments_of (d : Doc) : list Comment :=
  match d !! "comments" with
  | Some (VComments l) => l
  | _ => []
  end.

(** [x.id] of a list row, when it is a string. *)
Definition id_of (d : Doc) : option string :=
  match d !! "id" with
  | Some (VStr s) => Some s
  | _ => None
  end.

(** ** String helpers *)

(** Strings are held in UTF-8, as the string literals of this file are: a
    character outside ASCII is the two or three bytes of its encoding.

    The white space [String.prototype.trim] strips is the white space and
    the line terminators of ECMAScript.  In one byte: tab, line feed,
    vertical tab, form feed, carriage return and space; the byte 0xA0,
    which no UTF-8 text has at the start of a character, is the no-break
    space of a text held in Latin-1 and is taken as white space too. *)
Definition is_space (c : Ascii.ascii) : bool :=
  bool_decide (c ∈ ["009"; "010"; "011"; "012"; "013"; " "; "160"]%char).

(** In two bytes: U+00A0, the no-break space. *)
Definition is_space2 (c1 c2 : Ascii.ascii) : bool :=
  bool_decide ((N_of_ascii c1, N_of_ascii c2) = (0xC2, 0xA0)%N).

(** In three bytes: U+1680, U+2000 to U+200A, the line and paragraph
    separators U+2028 and U+2029, U+202F, U+205F, U+3000 and the byte
    order mark U+FEFF. *)
Definition is_space3 (c1 c2 c3 : Ascii.ascii) : bool :=
  let b := (N_of_ascii c1, N_of_ascii c2, N_of_ascii c3) in
  bool_decide (b ∈ [ (0xE1, 0x9A, 0x80); (0xE2, 0x80, 0xA8);
                     (0xE2, 0x80, 0xA9); (0xE2, 0x80, 0xAF);
                     (0xE2, 0x81, 0x9F); (0xE3, 0x80, 0x80);
                     (0xEF, 0xBB, 0xBF) ]%N)
  || (bool_decide (b.1 = (0xE2, 0x80)%N)
      && (0x80 <=? b.2)%N && (b.2 <=? 0x8A)%N).

(** [!s.trim()]: the string has no character besides white space. *)
Fixpoint blank (s : string) : bool :=
  match s with
  | EmptyString => true
  | String c1 s1 =>
      if is_space c1 then blank s1
      else
        match s1 with
        | EmptyString => false
        | String c2 s2 =>
            if is_space2 c1 c2 then blank s2
            else
              match s2 with
              | EmptyString => false
              | String c3 s3 => is_space3 c1 c2 c3 && blank s3
              end
        end
  end.

(** [s.slice(-n)]: the last [n] characters, the whole string when it is
    shorter. *)
Definition slice_last (n : nat) (s : string) : string :=
  String.substring (String.length s - n) n s.

(** [s.split('.').pop()]: what follows the last dot, the whole string when
    there is none. *)
Fixpoint split_pop (s cur : string) : string :=
  match s with
  | EmptyString => cur
  | String c s' =>
      if bool_decide (c = "."%char) then split_pop s' ""
      else split_pop s' (cur +:+ String c "")
  end.

(** The decimal digit of [n] of weight [10 ^ i], and its last six digits. *)
Definition digit (n : N) (i : N) : Ascii.ascii :=
  pretty_N_char ((n / 10 ^ i) mod 10).

Definition digits6 (n : N) : string :=
  String (digit n 5) (String (digit n 4) (String (digit n 3)
    (String (digit n 2) (String (digit n 1) (String (digit n 0) ""))))).

(** Decimal rendering padded with zeros on the left to [w] characters. *)
Fixpoint zeros (n : nat) : string :=
  match n with
  | O => ""
  | S n' => String "0"%char (zeros n')
  end.

Definition pad (w : nat) (n : N) : string :=
  let s := pretty n in zeros (w - String.length s) +:+ s.

(** [new Date(ms).toISOString()] for years 1970 to 9999: the proleptic
    Gregorian date of the day count, then the time of day. *)
Definition toISOString (ms : N) : string :=
  (let days := ms / 86400000 in
   let rem := ms mod 86400000 in
   let z := days + 719468 in
   let era := z / 146097 in
   let doe := z mod 146097 in
   let yoe := (doe - doe / 1460 + doe / 36524 - doe / 146096) / 365 in
   let doy := doe - (365 * yoe + yoe / 4 - yoe / 100) in
   let mp := (5 * doy + 2) / 153 in
   let d := doy - (153 * mp + 2) / 5 + 1 in
   let m := if mp <? 10 then mp + 3 else mp - 9 in
   let y := yoe + era * 400 + (if m <=? 2 then 1 else 0) in
   pad 4 y +:+ "-" +:+ pad 2 m +:+ "-" +:+ pad 2 d +:+ "T"
     +:+ pad 2 (rem / 3600000) +:+ ":" +:+ pad 2 (rem / 60000 mod 60)
     +:+ ":" +:+ pad 2 (rem / 1000 mod 60) +:+ "." +:+ pad 3 (rem mod 1000)
     +:+ "Z")%N.

(** ** The Firestore document store *)

Module Firestore.

(** [collection(db, name)]: a collection that was never written is empty. *)
Definition collection (db : Database) (name : string) : Collection :=
  default ∅ (db !! name).

(** [updateDoc(doc(db, c, id), fields)]: the fields are written over the
    stored document, the other fields stay; Firestore rejects the update
    of a document that does not exist. *)
Definition updateDoc (c id : string) (fields : Doc) (db : Database)
    : option Database :=
  match collection db c !! id with
  | Some d => Some (<[c := <[id := fields ∪ d]> (collection db c)]> db)
  | None => None
  end.

(** The message of the error Firestore throws for such an update: it names
    the document by its path. *)
Definition notFound (c id : string) : string :=
  "No document to update: " +:+ c +:+ "/" +:+ id.

(** [deleteDoc(doc(db, c, id))]. *)
Definition deleteDoc (c id : string) (db : Database) : Database :=
  <[c := delete id (collection db c)]> db.

(** A [writeBatch]: the updates are committed together or not at all. *)
Fixpoint commit (c : string) (batch : list (string * Doc)) (db : Database)
    : option Database :=
  match batch with
  | [] => Some db
  | (id, fields) :: rest =>
      match updateDoc c id fields db with
      | Some db' => commit c rest db'
      | None => None
      end
  end.

(** *** Ordering of values

    Firestore orders values of different types by type (null, boolean,
    number, string, array) and values of one type by their natural order;
    strings by their characters.  [orderBy] is never applied to an array
    in the modelled screens, arrays are left unordered among themselves. *)
Definition rank (v : Value) : nat :=
  match v with
  | VNull => 0
  | VBool _ => 1
  | VNum _ => 2
  | VStr _ => 3
  | VComments _ => 4
  end.

Definition value_le (v1 v2 : Value) : Prop :=
  match v1, v2 with
  | VBool b1, VBool b2 => implb b1 b2
  | VNum n1, VNum n2 => (n1 ≤ n2)%Z
  | VStr s1, VStr s2 => String.le s1 s2
  | _, _ => (rank v1 ≤ rank v2)%nat
  end.

Global Instance value_le_dec : RelDecision value_le.
Proof. intros [] []; simpl; apply _. Defined.

(** Lexicographic combination of an order on keys with one on ids. *)
Definition lex {A B} (RA : relation A) (RB : relation B)
    : relation (B * A) :=
  λ x y, RA x.2 y.2 ∧ (RA y.2 x.2 → RB x.1 y.1).

Global Instance lex_dec {A B} (RA : relation A) (RB : relation B)
  `{!RelDecision RA, !RelDecision RB} : RelDecision (lex RA RB).
Proof. intros x y. unfold lex. apply _. Defined.

(** The field a query is ordered by, read from a document. *)
Definition key (f : string) (d : Doc) : Value := default VNull (d !! f).

(** Ascending order of [(id, document)] pairs on field [f], ties broken
    by document id. *)
Definition asc (f : string) : relation (string * Doc) :=
  lex (λ d1 d2, value_le (key f d1) (key f d2)) String.le.

Global Instance asc_dec f : RelDecision (asc f).
Proof. intros x y. unfold asc, lex. apply _. Defined.

(** Descending order: Firestore breaks ties by id in the direction of the
    ordering. *)
Definition desc (f : string) : relation (string * Doc) := flip (asc f).

Global Instance desc_dec f : RelDecision (desc f).
Proof. intros x y. unfold desc, flip. apply _. Defined.

(** Order by document id, the order of a query with no [orderBy]. *)
Definition by_id : relation (string * Doc) := λ x y, String.le x.1 y.1.

Global Instance by_id_dec : RelDecision by_id.
Proof. intros x y. unfold by_id. apply _. Defined.

(** [where(f, '==', v)]. *)
Definition whereEq (f : string) (v : Value) (x : string * Doc) : Prop :=
  x.2 !! f = Some v.

Global Instance whereEq_dec f v x : Decision (whereEq f v x).
Proof. unfold whereEq. apply _. Defined.

(** An [orderBy(f)] clause only returns documents that have field [f]. *)
Definition hasField (f : string) (x : string * Doc) : Prop :=
  is_Some (x.2 !! f).

Global Instance hasField_dec f x : Decision (hasField f x).
Proof. unfold hasField. apply _. Defined.

(** [getDocs(query(c, where(f, '==', v)))]. *)
Definition getDocs_where (c : Collection) (f : string) (v : Value)
    : list (string * Doc) :=
  merge_sort by_id (filter (whereEq f v) (map_to_list c)).

(** [getDocs(query(c, where(f, '==', v), orderBy(o, 'desc')))]. *)
Definition getDocs_where_desc (c : Collection) (f : string) (v : Value)
    (o : string) : list (string * Doc) :=
  merge_sort (desc o)
    (filter (hasField o) (filter (whereEq f v) (map_to_list c))).

(** [{ id: docSnap.id, ...docSnap.data() }]: the row a screen keeps for a
    document; a stored field named [id] wins over the document id. *)
Definition row (x : string * Doc) : Doc := x.2 ∪ {[ "id" := VStr x.1 ]}.

End Firestore.

Global Arguments Firestore.updateDoc : simpl never.
Global Arguments Firestore.collection : simpl never.

(** ** The world the handlers run in *)

(** [auth.currentUser]. *)
Record AuthUser := mkAuthUser {
  uid : string;
  email : option string
}.

Record World := mkWorld {
  db : Database;                              (* Firestore *)
  storage : gmap string string;               (* Storage: object path to bytes *)
  files : gmap string string;                 (* what [fetch(uri)] can read *)
  online : bool;                              (* Storage reachable *)
  accounts : gmap string (string * AuthUser); (* e-mail to password, user *)
  authUser : option AuthUser                  (* the signed-in user *)
}.

Definition set_db (d : Database) (w : World) : World :=
  mkWorld d (storage w) (files w) (online w) (accounts w) (authUser w).

Definition set_storage (s : gmap string string) (w : World) : World :=
  mkWorld (db w) s (files w) (online w) (accounts w) (authUser w).

Definition set_authUser (u : option AuthUser) (w : World) : World :=
  mkWorld (db w) (storage w) (files w) (online w) (accounts w) u.

(** [auth.currentUser?.uid || dflt]. *)
Definition uid_or (w : World) (dflt : string) : string :=
  match authUser w with
  | Some u => if bool_decide (uid u = "") then dflt else uid u
  | None => dflt
  end.

(** A computation that reads and writes the world and may throw: what an
    [async] function body does between [try] and [catch]. *)
Inductive Result (A : Type) :=
  | Ok (a : A)
  | Throw (message : string).
Arguments Ok {A} a.
Arguments Throw {A} message.

Definition M (A : Type) : Type := World → Result A * World.

Definition ret {A} (a : A) : M A := λ w, (Ok a, w).

Definition throw {A} (message : string) : M A := λ w, (Throw message, w).

(** Reading the world, for [auth.currentUser] and the like. *)
Definition get : M World := λ w, (Ok w, w).

Definition bind {A B} (m : M A) (k : A → M B) : M B :=
  λ w, match m w with
       | (Ok a, w') => k a w'
       | (Throw e, w') => (Throw e, w')
       end.

(** [try { m } catch (e) { h(e.message) }]: what [m] wrote before it threw
    stays written. *)
Definition catch {A} (m : M A) (h : string → M A) : M A :=
  λ w, match m w with
       | (Ok a, w') => (Ok a, w')
       | (Throw e, w') => h e w'
       end.

Notation "x <~ m ;; k" := (bind m (λ x, k))
  (at level 100, m at next level, right associativity).
Notation "m ;;; k" := (bind m (λ _, k))
  (at level 100, right associativity).

(** The services as computations. *)
Definition updateDoc (c : string) (id : option string) (fields : Doc)
    : M unit :=
  λ w, match id with
       | None => (Throw "Invalid document reference", w)
       | Some i =>
           match Firestore.updateDoc c i fields (db w) with
           | Some d => (Ok (), set_db d w)
           | None => (Throw (Firestore.notFound c i), w)
           end
       end.

(** [fetch(uri)] followed by [response.blob()]. *)
Definition fetch (uri : option string) : M string :=
  λ w, match uri ≫= λ u, files w !! u with
       | Some bytes => (Ok bytes, w)
       | None => (Throw "Network request failed", w)
       end.

Definition uploadBytes (path bytes : string) : M unit :=
  λ w, if online w then (Ok (), set_storage (<[path := bytes]> (storage w)) w)
       else (Throw "storage/retry-limit-exceeded", w).

(** The reference Storage hands out for a stored object. *)
Definition downloadURL (path : string) : string :=
  "https://firebasestorage.googleapis.com/o/" +:+ path.

Definition getDownloadURL (path : string) : M string :=
  λ w, if online w then
         match storage w !! path with
         | Some _ => (Ok (downloadURL path), w)
         | None => (Throw "storage/object-not-found", w)
         end
       else (Throw "storage/retry-limit-exceeded", w).

(** What the user sees when a handler ends. *)
Inductive Outcome :=
  | Returned                                  (* plain [return] *)
  | FormErrors (errors : gmap string string)  (* errors shown on the form *)
  | Alert (title message : string).           (* [Alert.alert] *)

Global Instance Outcome_eq_dec : EqDecision Outcome.
Proof. solve_decision. Defined.

(** A handler body with its [catch] clause: the outcome is an [Alert] in
    both cases. *)
Definition handle (body : M Outcome) (onError : string → Outcome)
    : World → Outcome * World :=
  λ w, match body w with
       | (Ok o, w') => (o, w')
       | (Throw e, w') => (onError e, w')
       end.

(** ** The voucher-creator screen *)

Module VoucherScreen.

(** The file object kept in the form; the picker stores the [uri] only. *)
Record VoucherFile := mkVoucherFile {
  uri : option string;
  mimeType : option string;
  name : option string
}.

Record VoucherForm := mkVoucherForm {
  description : string;
  voucherFile : option VoucherFile
}.

(** The form errors of [submitVoucher]. *)
Definition formErrors (voucherForm : VoucherForm) : gmap string string :=
  (if blank (description voucherForm)
   then {[ "description" := "Description is required" ]} else ∅)
  ∪ (match voucherFile voucherForm with
     | Some _ => ∅
     | None => {[ "voucherFile" := "Voucher document is required" ]}
     end).

(** [`VOC${Date.now().toString().slice(-6)}`]. *)
Definition ticketNumber (now : N) : string :=
  "VOC" +:+ slice_last 6 (pretty now).

(** [name.split('.').pop() || 'pdf']. *)
Definition fileExtension (name : string) : string :=
  let e := split_pop name "" in if bool_decide (e = "") then "pdf" else e.

Definition storageFileName (w : World) (timestamp : N) (ext : string)
    : string :=
  "vouchers/" +:+ pretty timestamp +:+ "-" +:+ uid_or w "unknown"
    +:+ "." +:+ ext.

(** The fields [submitVoucher] writes in its one [updateDoc]. *)
Definition voucherFields (w : World) (userData : option Doc)
    (voucherUrl description : string) (tTicket tStamp : N) : Doc :=
  {[ "voucherUrl" := VStr voucherUrl;
     "status" := VStr "voucher_created";
     "processedBy" := VStr (uid_or w "");
     "processedByName" := VStr (str_or (userData ≫= (.!! "name")) "Unknown");
     "processedAt" := VStr (toISOString tStamp);
     "description" := VStr description;
     "ticketNumber" := VStr (ticketNumber tTicket) ]}.

(** The upload of the voucher file inside the inner [try]. *)
Definition uploadVoucherFile (file : VoucherFile) (storageFileName : string)
    : M string :=
  catch
    (blob <~ fetch (uri file) ;;
     uploadBytes storageFileName blob ;;;
     getDownloadURL storageFileName)
    (λ e, throw ("File upload failed: " +:+ e)).

(** [submitVoucher]; the three clock readings are those of the file name,
    of the ticket number and of [processedAt].  The refresh of the lists
    that follows the update only reads and is left out. *)
Definition submitVoucher (selectedReceipt : option Doc)
    (voucherForm : VoucherForm) (userData : option Doc)
    (tFile tTicket tStamp : N) : World → Outcome * World :=
  match selectedReceipt with
  | None => λ w, (Returned, w)
  | Some receipt =>
      if blank (description voucherForm)
         || negb (bool_decide (is_Some (voucherFile voucherForm)))
      then λ w, (FormErrors (formErrors voucherForm), w)
      else
        handle
          (voucherUrl <~
             match voucherFile voucherForm with
             | Some file =>
                 ext <~ match name file with
                        | Some n => ret (fileExtension n)
                        | None => throw "undefined is not an object (evaluating 'name.split')"
                        end ;;
                 w <~ get ;;
                 uploadVoucherFile file (storageFileName w tFile ext)
             | None => throw "No voucher file selected"
             end ;;
           w <~ get ;;
           updateDoc "vouchers" (id_of receipt)
             (voucherFields w userData voucherUrl
                (description voucherForm) tTicket tStamp) ;;;
           ret (Alert "Success" "Voucher created successfully!"))
          (λ e, Alert "Error"
                  ("Failed to create voucher: " +:+
                     (if bool_decide (e = "") then "Unknown error" else e)))
  end.

(** The [newComment] object of [addComment]. *)
Definition newComment (w : World) (userData : option Doc) (comment : string)
    (now : N) : Comment :=
  {| text := comment;
     createdAt := toISOString now;
     createdBy := uid_or w "";
     createdByName := str_or (userData ≫= (.!! "name")) "Unknown User";
     role := "voucher" |}.

(** [addComment]: the comments written are those of the selected row, not
    of the stored record, followed by the new one. *)
Definition addComment (selectedVoucher : option Doc) (comment : string)
    (userData : option Doc) (now : N) : World → Outcome * World :=
  match selectedVoucher with
  | None => λ w, (Returned, w)
  | Some voucher =>
      if blank comment
      then λ w, (Alert "Empty Comment" "Please enter a comment", w)
      else
        handle
          (w <~ get ;;
           updateDoc "vouchers" (id_of voucher)
             {[ "comments" :=
                  VComments (comments_of voucher
                               ++ [newComment w userData comment now]) ]} ;;;
           ret (Alert "Success" "Comment added successfully"))
          (λ _, Alert "Error" "Failed to add comment")
  end.

End VoucherScreen.

(** ** The publisher screen *)

Module PublisherScreen.

(** [fetchVouchers]: the rows the screen lists; the world is only read. *)
Definition fetchVouchers (w : World) : list Doc * World :=
  (Firestore.row <$>
     Firestore.getDocs_where_desc (Firestore.collection (db w) "receipts")
       "status" (VStr "payment_initiated") "createdAt",
   w).

(** What the image picker hands back. *)
Record Asset := mkAsset { uri : option string }.

Record PickerResult := mkPickerResult {
  didCancel : bool;
  errorCode : option string;
  assets : option (list Asset)
}.

(** [`paid_vouchers/${voucher.id}-${Date.now()}.pdf`]. *)
Definition fileName (voucher : Doc) (now : N) : string :=
  "paid_vouchers/" +:+ default "undefined" (id_of voucher) +:+ "-"
    +:+ pretty now +:+ ".pdf".

(** The picker callback uploads the picked file on its own; nothing waits
    for it and what it throws reaches nobody.  (As written the callback
    awaits outside an [async] function and lacks a closing brace; it is
    read as the upload it spells out, which touches the attachment store
    only.) *)
Definition pickerCallback (voucher : Doc) (response : PickerResult)
    (now : N) : M unit :=
  if negb (didCancel response)
     && negb (truthy (VStr <$> errorCode response))
  then
    match assets response ≫= head with
    | Some file =>
        catch (blob <~ fetch (uri file) ;;
               uploadBytes (fileName voucher now) blob)
              (λ _, ret ())
    | None => ret ()
    end
  else ret ().

(** The fields [uploadPaidPDF] writes in its one [updateDoc]. *)
Definition paidFields (w : World) (userData : option Doc)
    (paidPdfUrl : string) (tStamp : N) : Doc :=
  {[ "paidPdfUrl" := VStr paidPdfUrl;
     "status" := VStr "payment_done";
     "publishedBy" :=
       VStr (str_or (userData ≫= (.!! "name"))
               (default "Unknown User" (authUser w ≫= email)));
     "publishedAt" := VStr (toISOString tStamp) ]}.

(** [uploadPaidPDF]; the clock readings are those of the callback's file
    name, of the file name and of [publishedAt].  The picker result has no
    [canceled] field, so that test never fires. *)
Definition uploadPaidPDF (voucher : Doc) (result : PickerResult)
    (userData : option Doc) (tCallback tFile tStamp : N)
    : World → Outcome * World :=
  handle
    (pickerCallback voucher result tCallback ;;;
     match assets result with
     | None | Some [] => ret Returned
     | Some (first :: _) =>
         blob <~ fetch (uri first) ;;
         uploadBytes (fileName voucher tFile) blob ;;;
         paidPdfUrl <~ getDownloadURL (fileName voucher tFile) ;;
         w <~ get ;;
         updateDoc "receipts" (id_of voucher)
           (paidFields w userData paidPdfUrl tStamp) ;;;
         ret (Alert "Success" "Paid PDF uploaded and status updated!")
     end)
    (λ _, Alert "Error" "Failed to upload paid PDF").

End PublisherScreen.

(** ** Transition attempts *)

Module Transition.

(** An attempt to move a record on: the voucher creator submitting a
    voucher for a receipt row, or the publisher uploading the paid document
    for a row, with what the screen holds at that moment and the clock
    readings of the call. *)
Inductive Attempt :=
  | SubmitVoucher (receipt : Doc) (voucherForm : VoucherScreen.VoucherForm)
      (userData : option Doc) (tFile tTicket tStamp : N)
  | UploadPaidPDF (voucher : Doc) (result : PublisherScreen.PickerResult)
      (userData : option Doc) (tCallback tFile tStamp : N).


(** The collection the attempt updates and the row it is made from. *)
Definition collection (a : Attempt) : string :=
  match a with
  | SubmitVoucher _ _ _ _ _ _ => "vouchers"
  | UploadPaidPDF _ _ _ _ _ _ => "receipts"
  end.

Definition row (a : Attempt) : Doc :=
  match a with
  | SubmitVoucher receipt _ _ _ _ _ => receipt
  | UploadPaidPDF voucher _ _ _ _ _ => voucher
  end.


(** The fields the [updateDoc] of the attempt writes when it runs in
    [w]. *)
Definition fields (a : Attempt) (w : World) : Doc :=
  match a with
  | SubmitVoucher _ voucherForm userData tFile tTicket tStamp =>
      let name :=
        default "" (VoucherScreen.voucherFile voucherForm
                      ≫= VoucherScreen.name) in
      VoucherScreen.voucherFields w userData
        (downloadURL
           (VoucherScreen.storageFileName w tFile
              (VoucherScreen.fileExtension name)))
        (VoucherScreen.description voucherForm) tTicket tStamp
  | UploadPaidPDF voucher _ userData _ tFile tStamp =>
      PublisherScreen.paidFields w userData
        (downloadURL (PublisherScreen.fileName voucher tFile)) tStamp
  end.

End Transition.

(** ** The super-user screen *)

Module SuperUserScreen.

Record UserForm := mkUserForm {
  company : string;
  role : string;
  userType : string
}.

(** The [updates] object [updateUser] builds from the form: the user type
    is handled first and the role second, so the role's fields stand on the
    left of the union. *)
Definition updates (userForm : UserForm) : Doc :=
  (if bool_decide (role userForm = "") then ∅
   else {[ "designation" := VStr (role userForm);
           "pending" := VBool false;
           "approved" := VBool true ]})
  ∪ (if bool_decide (userType userForm = "company")
        && negb (bool_decide (company userForm = ""))
     then {[ "company" := VStr (company userForm); "bank" := VNull ]}
     else if bool_decide (userType userForm = "finance")
             || bool_decide (userType userForm = "zoompay")
     then {[ "company" := VNull; "bank" := VNull ]}
     else ∅).

(** [{ ...updates, updatedAt, updatedBy }]. *)
Definition userFields (w : World) (userForm : UserForm) (now : N) : Doc :=
  {[ "updatedAt" := VStr (toISOString now);
     "updatedBy" := VStr (uid_or w "unknown") ]}
  ∪ updates userForm.

(** [updateUser]. *)
Definition updateUser (selectedUser : option Doc) (userForm : UserForm)
    (now : N) : World → Outcome * World :=
  match selectedUser with
  | None => λ w, (Returned, w)
  | Some user =>
      handle
        (w <~ get ;;
         updateDoc "users" (id_of user) (userFields w userForm now) ;;;
         ret (Alert "Success" "User updated successfully"))
        (λ _, Alert "Error" "Could not update user. Please try again.")
  end.

(** The buttons of the confirmation dialog. *)
Inductive Button := Cancel | Delete.

(** The Firestore calls of [deleteCompany] as computations. *)
Definition deleteDoc (c id : string) : M unit :=
  λ w, (Ok (), set_db (Firestore.deleteDoc c id (db w)) w).

Definition getDocs_where (c f : string) (v : Value)
    : M (list (string * Doc)) :=
  λ w, (Ok (Firestore.getDocs_where (Firestore.collection (db w) c) f v), w).

Definition commit (c : string) (batch : list (string * Doc)) : M unit :=
  λ w, match Firestore.commit c batch (db w) with
       | Some d => (Ok (), set_db d w)
       | None =>
           let missing :=
             filter (λ id, Firestore.collection (db w) c !! id = None)
               batch.*1 in
           (Throw (Firestore.notFound c (default "" (head missing))), w)
       end.

(** [deleteCompany]: the work is done by the [Delete] button. *)
Definition deleteCompany (companyId companyName : string) (pressed : Button)
    : World → Outcome * World :=
  match pressed with
  | Cancel => λ w, (Returned, w)
  | Delete =>
      handle
        (deleteDoc "companies" companyId ;;;
         querySnapshot <~ getDocs_where "users" "company" (VStr companyId) ;;
         commit "users"
           ((λ docSnapshot : string * Doc,
               (docSnapshot.1, {[ "company" := VNull ]} : Doc))
              <$> querySnapshot) ;;;
         ret (Alert "Success" "Company deleted successfully"))
        (λ _, Alert "Error" "Could not delete company. Please try again.")
  end.

End SuperUserScreen.

(** ** The authentication context *)

Module AuthContext.

(** The state the provider keeps and hands to the screens. *)
Record Session := mkSession {
  currentUser : option AuthUser;
  userData : option Doc;
  isLoading : bool;
  error : option string
}.

Definition setError (e : option string) (s : Session) : Session :=
  mkSession (currentUser s) (userData s) (isLoading s) e.

Definition setUserData (d : option Doc) (s : Session) : Session :=
  mkSession (currentUser s) d (isLoading s) (error s).

(** [fetchUserData]: the profile stored under the user's uid, [null] when
    there is none. *)
Definition fetchUserData (user : AuthUser) (w : World) : option Doc :=
  Firestore.collection (db w) "users" !! uid user.

(** The [onAuthStateChanged] listener. *)
Definition onAuthStateChanged (user : option AuthUser) (w : World)
    (s : Session) : Session :=
  match user with
  | Some u => mkSession (Some u) (fetchUserData u w) false (error s)
  | None => mkSession None None false (error s)
  end.

(** [auth().signInWithEmailAndPassword]. *)
Definition signInWithEmailAndPassword (email password : string) (w : World)
    : option AuthUser :=
  match accounts w !! email with
  | Some (p, user) => if bool_decide (p = password) then Some user else None
  | None => None
  end.

(** [auth().signOut()], with the listener it fires. *)
Definition signOut (s : Session) (w : World) : Session * World :=
  (onAuthStateChanged None w s, set_authUser None w).

(** The profile is held back: [userData.pending || !userData.designation]. *)
Definition heldBack (data : Doc) : bool :=
  truthy (data !! "pending") || negb (truthy (data !! "designation")).

Definition pendingMessage : string :=
  "Your account is pending approval. Please wait for a SuperUser to assign you a role.".

(** The [catch] clause of [signIn]: record the message, throw again. *)
Definition rethrow (message : string) (s : Session) (w : World)
    : Result Doc * Session * World :=
  (Throw message,
   setError (Some (if bool_decide (message = "")
                   then "An error occurred during sign in" else message)) s,
   w).

Definition signIn (email password : string) (s : Session) (w : World)
    : Result Doc * Session * World :=
  let s := setError None s in
  match signInWithEmailAndPassword email password w with
  | None => rethrow "auth/invalid-credential" s w
  | Some user =>
      let w := set_authUser (Some user) w in
      let s := onAuthStateChanged (Some user) w s in
      match fetchUserData user w with
      | None => rethrow "Failed to fetch user data after login" s w
      | Some data =>
          let s := setUserData (Some data) s in
          if heldBack data
          then let '(s, w) := signOut s w in rethrow pendingMessage s w
          else (Ok data, s, w)
      end
  end.

(** [logout]. *)
Definition logout (s : Session) (w : World) : Session * World :=
  signOut (setError None s) w.

End AuthContext.

(** ** The routing screen *)

Module AuthLoadingScreen.

Import AuthContext.

(** What the effect of the screen does. *)
Inductive Action :=
  | Wait                            (* nothing yet *)
  | Replace (screen : string)       (* [navigation.replace(screen)] *)
  | LogoutThenLogin.                (* [logout()], the alert, then Login *)

Definition screenOf (designation : option Value) : string :=
  match designation with
  | Some (VStr "superuser") => "SuperUser"
  | Some (VStr "admin") => "Admin"
  | Some (VStr "finance") => "Finance"
  | Some (VStr "voucher_create") => "Voucher"
  | Some (VStr "checker") => "Checker"
  | Some (VStr "initiator") => "InitiatorScreen"
  | Some (VStr "payment_releaser") => "PaymentReleasorScreen"
  | Some (VStr "payee") => "PayeeScreen"
  | _ => "Home"
  end.

Definition route (s : Session) : Action :=
  if isLoading s then Wait
  else match currentUser s with
       | Some _ =>
           match userData s with
           | None => Wait
           | Some data =>
               if heldBack data then LogoutThenLogin
               else Replace (screenOf (data !! "designation"))
           end
       | None => Replace "Splash"
       end.

(** The effect: the action and the state it leaves. *)
Definition effect (s : Session) (w : World) : Action * Session * World :=
  match route s with
  | LogoutThenLogin => let '(s', w') := logout s w in (LogoutThenLogin, s', w')
  | a => (a, s, w)
  end.

End AuthLoadingScreen.

(** ** Executions *)

(** One step of an execution: some handler runs to its end. *)
Inductive step : World → World → Prop :=
  | step_submitVoucher sel form userData tFile tTicket tStamp w :
      step w (VoucherScreen.submitVoucher sel form userData
                tFile tTicket tStamp w).2
  | step_addComment sel comment userData now w :
      step w (VoucherScreen.addComment sel comment userData now w).2
  | step_uploadPaidPDF voucher result userData tCallback tFile tStamp w :
      step w (PublisherScreen.uploadPaidPDF voucher result userData
                tCallback tFile tStamp w).2
  | step_fetchVouchers w :
      step w (PublisherScreen.fetchVouchers w).2
  | step_updateUser sel form now w :
      step w (SuperUserScreen.updateUser sel form now w).2
  | step_deleteCompany companyId companyName pressed w :
      step w (SuperUserScreen.deleteCompany companyId companyName pressed w).2
  | step_signIn email password s w :
      step w (AuthContext.signIn email password s w).2
  | step_logout s w :
      step w (AuthContext.logout s w).2.

(** ** The properties the specification words *)

Module Spec.

(** The attachment reference [v] is that of an object Storage holds. *)
Definition stored (w : World) (v : option Value) : Prop :=
  ∃ path, v = Some (VStr (downloadURL path)) ∧ is_Some (storage w !! path).

(** A status that requires an attachment is only held by records whose
    attachment is stored. *)
Definition attachments_stored (w : World) : Prop :=
  ∀ c id d, Firestore.collection (db w) c !! id = Some d →
    (d !! "status" = Some (VStr "voucher_created") →
       stored w (d !! "voucherUrl"))
    ∧ (d !! "status" = Some (VStr "payment_done") →
         stored w (d !! "paidPdfUrl")).

(** The run [r] from [w] either leaves the database as it was, or changes
    it by one update of one record of collection [c] that writes the
    status together with the reference of an object Storage holds. *)
Definition one_commit (c status ref : string) (w : World)
    (r : Outcome * World) : Prop :=
  db r.2 = db w
  ∨ ∃ id d fields path,
      Firestore.collection (db w) c !! id = Some d
      ∧ db r.2 = <[c := <[id := fields ∪ d]> (Firestore.collection (db w) c)]>
                   (db w)
      ∧ fields !! "status" = Some (VStr status)
      ∧ fields !! ref = Some (VStr (downloadURL path))
      ∧ is_Some (storage r.2 !! path).

(** The upload of the file at [uri] cannot succeed in [w]. *)
Definition upload_fails (uri : option string) (w : World) : Prop :=
  online w = false ∨ uri ≫= (files w !!.) = None.

(** The rows are in reverse chronological order of last status change,
    [changedAt] giving the time each record last changed status. *)
Definition changed (changedAt : gmap string N) (row : Doc) : N :=
  default 0%N (id_of row ≫= (changedAt !!.)).

Definition by_last_status_change (changedAt : gmap string N)
    (rows : list Doc) : Prop :=
  StronglySorted
    (λ r1 r2, (changed changedAt r2 ≤ changed changedAt r1)%N) rows.

(** The rows are in reverse order of their [createdAt] field, ties in
    reverse order of document id. *)
Definition by_createdAt (rows : list (string * Doc)) : Prop :=
  StronglySorted (Firestore.desc "createdAt") rows.



(** No user that has a role is still marked pending. *)
Definition role_not_pending (w : World) : Prop :=
  ∀ u d, Firestore.collection (db w) "users" !! u = Some d →
    truthy (d !! "designation") = true → truthy (d !! "pending") = false.

(** No user profile names a company that does not exist. *)
Definition companies_exist (w : World) : Prop :=
  ∀ u d c, Firestore.collection (db w) "users" !! u = Some d →
    d !! "company" = Some (VStr c) →
    is_Some (Firestore.collection (db w) "companies" !! c).

End Spec.

(** ** Sample data *)

Module Sample.

Definition creator : AuthUser :=
  {| uid := "uid-creator"; email := Some "creator@zoompay.test" |}.
Definition publisher : AuthUser :=
  {| uid := "uid-publisher"; email := Some "publisher@zoompay.test" |}.

Definition profile (n : string) : Doc := {[ "name" := VStr n ]}.

Definition approved (t : string) : Doc :=
  {[ "status" := VStr "approved"; "createdAt" := VStr t;
     "approvedAt" := VStr t; "receiptUrl" := VStr "https://img/receipt" ]}.

Definition initiated (t : string) : Doc :=
  {[ "status" := VStr "payment_initiated"; "createdAt" := VStr t;
     "ticketNumber" := VStr "VOC000042" ]}.

Definition vouchers : Collection :=
  {[ "V1" := approved "2024-05-01T09:00:00.000Z";
     "V2" := approved "2024-05-02T09:00:00.000Z" ]}.

(** [R1] was submitted in January and reached [payment_initiated] in
    March; [R2] was submitted in February and reached it the same month. *)
Definition receipts : Collection :=
  {[ "R1" := initiated "2024-01-10T08:00:00.000Z";
     "R2" := initiated "2024-02-05T08:00:00.000Z";
     "R3" := approved "2024-02-20T08:00:00.000Z" ]}.

Definition changedAt : gmap string N :=
  {[ "R1" := 1709280000000%N;     (* 2024-03-01 *)
     "R2" := 1707984000000%N ]}.  (* 2024-02-15 *)

Definition users : Collection :=
  {[ "uid-payee" :=
       {[ "name" := VStr "Pat"; "company" := VStr "C1";
          "designation" := VStr "payee"; "pending" := VBool false ]};
     "uid-new" :=
       {[ "name" := VStr "Noor"; "pending" := VBool true;
          "approved" := VBool false ]} ]}.

Definition companies : Collection :=
  {[ "C1" := {[ "name" := VStr "Acme" ]};
     "C2" := {[ "name" := VStr "Globex" ]} ]}.

Definition world : World :=
  {| db := {[ "vouchers" := vouchers; "receipts" := receipts;
              "users" := users; "companies" := companies ]};
     storage := ∅;
     files := {[ "file:///voucher.pdf" := "%PDF-voucher";
                 "file:///paid.pdf" := "%PDF-paid" ]};
     online := true;
     accounts := {[ "pat@acme.test" :=
                      ("secret", {| uid := "uid-payee";
                                    email := Some "pat@acme.test" |});
                    "noor@acme.test" :=
                      ("secret", {| uid := "uid-new";
                                    email := Some "noor@acme.test" |}) ]};
     authUser := Some creator |}.


Definition form : VoucherScreen.VoucherForm :=
  {| VoucherScreen.description := "May invoice";
     VoucherScreen.voucherFile :=
       Some {| VoucherScreen.uri := Some "file:///voucher.pdf";
               VoucherScreen.mimeType := Some "application/pdf";
               VoucherScreen.name := Some "voucher.pdf" |} |}.

Definition picked : PublisherScreen.PickerResult :=
  {| PublisherScreen.didCancel := false;
     PublisherScreen.errorCode := None;
     PublisherScreen.assets :=
       Some [ {| PublisherScreen.uri := Some "file:///paid.pdf" |} ] |}.

Definition staffForm : SuperUserScreen.UserForm :=
  {| SuperUserScreen.company := ""; SuperUserScreen.role := "checker";
     SuperUserScreen.userType := "zoompay" |}.

Definition signedOut : AuthContext.Session :=
  {| AuthContext.currentUser := None; AuthContext.userData := None;
     AuthContext.isLoading := false; AuthContext.error := None |}.

(** The stored record, empty when there is none. *)
Definition doc (c id : string) (w : World) : Doc :=
  default ∅ (Firestore.collection (db w) c !! id).

(** A comment a checker recorded on [V1]. *)
Definition earlier : Comment :=
  {| text := "Please check the amount";
     createdAt := "2024-05-01T10:00:00.000Z";
     createdBy := "uid-checker";
     createdByName := "Chris";
     role := "checker" |}.

(** The world once that comment is recorded. *)
Definition commented : World :=
  set_db (<["vouchers" :=
              <["V1" := <["comments" := VComments [earlier]]>
                          (approved "2024-05-01T09:00:00.000Z")]> vouchers]>
            (db world)) world.

(** The row a screen holds for a stored record. *)
Definition row_of (c id : string) (w : World) : Doc :=
  Firestore.row (id, default ∅ (Firestore.collection (db w) c !! id)).

(** A field of a stored record. *)
Definition field (c id k : string) (w : World) : option Value :=
  Firestore.collection (db w) c !! id ≫= (.!! k).

End Sample.

(** ** The rest of the authentication context *)

(** A listed document after [fields] were written to the document [id]. *)
Definition written (id : string) (fields : Doc) (x : string * Doc)
    : string * Doc :=
  (x.1, if decide (x.1 = id) then fields ∪ x.2 else x.2).

(** The document of the pair has this status. *)
Definition has_status (status : string) (x : string * Doc) : Prop :=
  x.2 !! "status" = Some (VStr status).

Global Instance has_status_dec status x : Decision (has_status status x).
Proof. unfold has_status. apply _. Defined.

Module AuthProvider.

Import AuthContext.

(** The [data] argument of [signUp]; the other fields of its type are not
    read. *)
Record SignUpData := mkSignUpData {
  name : string;
  designation : option string;
  company : option string;
  bank : option string;
  contact : string
}.

Definition set_accounts (a : gmap string (string * AuthUser)) (w : World)
    : World :=
  mkWorld (db w) (storage w) (files w) (online w) a (authUser w).

(** [auth().createUserWithEmailAndPassword]: [assigned] is the uid the
    service assigns, [None] when it turns the request down for a reason of
    its own (malformed e-mail, weak password); an e-mail that has an
    account is turned down in any case.  The new user is signed in. *)
Definition createUserWithEmailAndPassword (email password : string)
    (assigned : option string) (w : World) : Result (AuthUser * World) :=
  match accounts w !! email, assigned with
  | Some _, _ => Throw "auth/email-already-in-use"
  | None, None => Throw "auth/invalid-email"
  | None, Some newUid =>
      let user := {| uid := newUid; email := Some email |} in
      Ok (user,
          set_authUser (Some user)
            (set_accounts (<[email := (password, user)]> (accounts w)) w))
  end.

(** The object [signUp] builds, field by field; a field that is
    [undefined] has no value. *)
Definition userData (user : AuthUser) (email : string) (data : SignUpData)
    (now : N) : list (string * option Value) :=
  [ ("uid", Some (VStr (uid user)));
    ("email", Some (VStr email));
    ("name", Some (VStr (name data)));
    ("designation", VStr <$> designation data);
    ("company", VStr <$> company data);
    ("bank", VStr <$> bank data);
    ("contact", Some (VStr (contact data)));
    ("pending", Some (VBool true));
    ("approved", Some (VBool false));
    ("createdAt", Some (VStr (toISOString now))) ].

(** The fields of an object that have a value. *)
Definition defined (fields : list (string * option Value)) : Doc :=
  list_to_map (omap (λ kv, (kv.1,.) <$> kv.2) fields).

(** [docRef.set(object)]: the document becomes the object.  With the
    Firestore setting [ignoreUndefinedProperties] off, an object that has an
    undefined field is refused; with it on, such fields are left out. *)
Definition set (ignoreUndefinedProperties : bool) (c id : string)
    (fields : list (string * option Value)) (w : World) : option World :=
  if negb ignoreUndefinedProperties
     && bool_decide (Exists (λ kv, kv.2 = None) fields)
  then None
  else Some (set_db (<[c := <[id := defined fields]>
                             (Firestore.collection (db w) c)]> (db w)) w).

(** The [catch] clause of [signUp]. *)
Definition rethrow (message : string) (s : Session) (w : World)
    : Result Doc * Session * World :=
  (Throw message,
   setError (Some (if bool_decide (message = "")
                   then "An error occurred during sign up" else message)) s,
   w).

(** [signUp].  Creating the account signs the new user in, which fires
    the [onAuthStateChanged] listener; the listener fetches the profile on
    its own, and nothing orders its [setUserData] and the one of [signUp].
    [listenerLast] tells which of the two the session ends with: when it
    is set, the listener read before the profile was written and its
    [setUserData] is the last to land; otherwise the session ends with the
    profile [signUp] has written (which is also what a listener that read
    after the write sets). *)
Definition signUp (email password : string) (data : SignUpData)
    (assigned : option string) (ignoreUndefinedProperties : bool)
    (listenerLast : bool) (now : N)
    (s : Session) (w : World) : Result Doc * Session * World :=
  let s := setError None s in
  match createUserWithEmailAndPassword email password assigned w with
  | Throw message => rethrow message s w
  | Ok (user, w) =>
      let heard := onAuthStateChanged (Some user) w s in
      let fields := userData user email data now in
      match set ignoreUndefinedProperties "users" (uid user) fields w with
      | None => rethrow "Unsupported field value: undefined" heard w
      | Some w =>
          (Ok (defined fields),
           if listenerLast then heard
           else setUserData (Some (defined fields)) heard,
           w)
      end
  end.

(** The counters of [getReceiptCounts]. *)
Record Counts := mkCounts {
  pending : nat;
  approved : nat;
  rejected : nat
}.

(** The body of the [forEach]. *)
Definition count (counts : Counts) (doc : string * Doc) : Counts :=
  if bool_decide (doc.2 !! "status" = Some (VStr "pending"))
  then mkCounts (S (pending counts)) (approved counts) (rejected counts)
  else if bool_decide (doc.2 !! "status" = Some (VStr "approved"))
  then mkCounts (pending counts) (S (approved counts)) (rejected counts)
  else if bool_decide (doc.2 !! "status" = Some (VStr "rejected"))
  then mkCounts (pending counts) (approved counts) (S (rejected counts))
  else counts.

(** [getReceiptCounts]. *)
Definition getReceiptCounts (s : Session) (w : World) : Counts :=
  match currentUser s with
  | None => mkCounts 0 0 0
  | Some user =>
      foldl count (mkCounts 0 0 0)
        (Firestore.getDocs_where (Firestore.collection (db w) "receipts")
           "createdBy" (VStr (uid user)))
  end.

End AuthProvider.

(** ** The splash screen and the header *)

Module SplashScreen.


End SplashScreen.

Module AppHeader.


End AppHeader.

(** ** The rest of the super-user screen *)

Module SuperUserLists.

(** [getDocs(query(c, orderBy(o, 'desc')))]. *)
Definition getDocs_desc (c : Collection) (o : string)
    : list (string * Doc) :=
  merge_sort (Firestore.desc o) (filter (Firestore.hasField o) (map_to_list c)).

(** [getDocs(c)]. *)
Definition getDocs (c : Collection) : list (string * Doc) :=
  merge_sort Firestore.by_id (map_to_list c).

(** The user type [fetchUsers] shows for a profile. *)
Definition userType (userData : Doc) : string :=
  if truthy (userData !! "company") then "Company"
  else if bool_decide (userData !! "designation" = Some (VStr "finance"))
          || bool_decide (userData !! "designation"
                          = Some (VStr "voucher_create"))
  then "Finance"
  else "ZoomPay".

(** [{ id: doc.id, ...userData, userType }]. *)
Definition userRow (x : string * Doc) : Doc :=
  <["userType" := VStr (userType x.2)]> (Firestore.row x).

(** [fetchUsers]. *)
Definition fetchUsers (w : World) : list Doc :=
  userRow <$> getDocs_desc (Firestore.collection (db w) "users") "createdAt".

(** [fetchCompanies]. *)
Definition fetchCompanies (w : World) : list Doc :=
  Firestore.row <$> getDocs (Firestore.collection (db w) "companies").

Record CompanyForm := mkCompanyForm {
  name : string;
  address : string;
  contactPerson : string;
  contactEmail : string;
  contactPhone : string
}.

(** [{ ...companyForm, createdAt, createdBy }]. *)
Definition companyFields (w : World) (companyForm : CompanyForm) (now : N)
    : Doc :=
  {[ "name" := VStr (name companyForm);
     "address" := VStr (address companyForm);
     "contactPerson" := VStr (contactPerson companyForm);
     "contactEmail" := VStr (contactEmail companyForm);
     "contactPhone" := VStr (contactPhone companyForm);
     "createdAt" := VStr (toISOString now);
     "createdBy" := VStr (uid_or w "unknown") ]}.

(** [addDoc(collection(db, c), fields)]; [newId] is the id Firestore
    generates for the document. *)
Definition addDoc (c newId : string) (fields : Doc) : M unit :=
  λ w, (Ok (),
        set_db (<[c := <[newId := fields]> (Firestore.collection (db w) c)]>
                  (db w)) w).

(** [addCompany]. *)
Definition addCompany (companyForm : CompanyForm) (newId : string) (now : N)
    : World → Outcome * World :=
  if bool_decide (name companyForm = "")
     || bool_decide (contactPerson companyForm = "")
     || bool_decide (contactEmail companyForm = "")
  then λ w, (Alert "Error" "Please fill in all required fields", w)
  else
    handle
      (w <~ get ;;
       addDoc "companies" newId (companyFields w companyForm now) ;;;
       ret (Alert "Success" "Company added successfully"))
      (λ _, Alert "Error" "Could not add company. Please try again.").

(** The roles the edit dialog offers for a user type. *)
Definition roleOptions (userType : string) : list string :=
  if bool_decide (userType = "company") then ["admin"; "payee"]
  else if bool_decide (userType = "finance") then ["finance"; "voucher_create"]
  else ["checker"; "initiator"; "payment_releaser"].

(** The status [renderUserItem] shows. *)
Definition userStatus (item : Doc) : string :=
  let isPending :=
    truthy (item !! "pending") || negb (truthy (item !! "designation")) in
  if isPending then "Pending"
  else if truthy (item !! "designation") then "Active" else "Inactive".

End SuperUserLists.

(** ** The rest of the voucher-creator screen *)

Module VoucherLists.

(** [data.receiptUrl || data.imageUrl]. *)
Definition js_or (a b : option Value) : option Value :=
  if truthy a then a else b.

(** [{ id, imageUrl: data.receiptUrl || data.imageUrl, ...data }]; an
    [imageUrl] that comes out [undefined] is no field. *)
Definition receiptRow (x : string * Doc) : Doc :=
  x.2 ∪ (match js_or (x.2 !! "receiptUrl") (x.2 !! "imageUrl") with
         | Some v => {[ "imageUrl" := v ]}
         | None => ∅
         end)
      ∪ {[ "id" := VStr x.1 ]}.

(** [fetchApprovedReceipts]. *)
Definition fetchApprovedReceipts (w : World) : list Doc :=
  receiptRow <$>
    Firestore.getDocs_where_desc (Firestore.collection (db w) "vouchers")
      "status" (VStr "approved") "approvedAt".

(** [fetchCreatedVouchers]. *)
Definition fetchCreatedVouchers (w : World) : list Doc :=
  Firestore.row <$>
    Firestore.getDocs_where_desc (Firestore.collection (db w) "vouchers")
      "createdBy" (VStr (uid_or w "")) "createdAt".

(** The argument of [viewImage] on a list item:
    [item.imageUrl || item.receiptUrl]. *)
Definition viewedImage (item : Doc) : option Value :=
  js_or (item !! "imageUrl") (item !! "receiptUrl").

End VoucherLists.

Module VoucherFormState.

Import VoucherScreen.

(** The state of the screen that [submitVoucher] reads. *)
Record State := mkState {
  selectedReceipt : option Doc;
  voucherForm : VoucherForm;
  voucherFormErrors : gmap string string
}.

(** The state the screen starts in. *)
Definition initial : State :=
  mkState None (mkVoucherForm "" None) ∅.

(** [handleCreateVoucher]. *)
Definition handleCreateVoucher (receipt : Doc) (st : State) : State :=
  mkState (Some receipt) (mkVoucherForm "" None) ∅.

(** [onChangeText] of the description input. *)
Definition onChangeText (text : string) (st : State) : State :=
  mkState (selectedReceipt st)
    (mkVoucherForm text (voucherFile (voucherForm st)))
    (delete "description" (voucherFormErrors st)).

(** The callback of [pickVoucherDocument]: the file kept is [{ uri }]. *)
Definition pickVoucherDocument (response : PublisherScreen.PickerResult)
    (st : State) : State :=
  if PublisherScreen.didCancel response then st
  else if truthy (VStr <$> PublisherScreen.errorCode response) then st
  else
    mkState (selectedReceipt st)
      (mkVoucherForm (description (voucherForm st))
         (Some {| uri := match PublisherScreen.assets response with
                         | Some (first :: _) => PublisherScreen.uri first
                         | _ => None
                         end;
                  mimeType := None;
                  name := None |}))
      (delete "voucherFile" (voucherFormErrors st)).

(** What [submitVoucher] does to this state: it shows the form errors when
    it stops at the validation. *)
Definition stopped (st : State) : State :=
  if blank (description (voucherForm st))
     || negb (bool_decide (is_Some (voucherFile (voucherForm st))))
  then mkState (selectedReceipt st) (voucherForm st)
         (formErrors (voucherForm st))
  else st.

(** What the user can do to the form. *)
Inductive Event :=
  | Opened (receipt : Doc)
  | Typed (text : string)
  | Picked (response : PublisherScreen.PickerResult)
  | Submitted.

Definition apply (st : State) (e : Event) : State :=
  match e with
  | Opened receipt => handleCreateVoucher receipt st
  | Typed text => onChangeText text st
  | Picked response => pickVoucherDocument response st
  | Submitted => stopped st
  end.

(** The state after a sequence of events. *)
Definition after (events : list Event) : State := foldl apply initial events.

End VoucherFormState.

(** ** Further sample data *)

Module Scenario.

Import Sample.

(** A sign-up that passes a company and no designation. *)
Definition newcomer : AuthProvider.SignUpData :=
  {| AuthProvider.name := "Sam"; AuthProvider.designation := None;
     AuthProvider.company := Some "C1"; AuthProvider.bank := None;
     AuthProvider.contact := "555-0100" |}.

Definition sam : AuthUser :=
  {| uid := "uid-sam"; email := Some "sam@acme.test" |}.

Definition samProfile : Doc :=
  AuthProvider.defined
    (AuthProvider.userData sam "sam@acme.test" newcomer 1700000000000).

Definition signedUp : Result Doc * AuthContext.Session * World :=
  AuthProvider.signUp "sam@acme.test" "secret" newcomer (Some "uid-sam") true
    false 1700000000000 signedOut world.

(** The same sign-up when the listener is the last to set the profile. *)
Definition signedUpLate : Result Doc * AuthContext.Session * World :=
  AuthProvider.signUp "sam@acme.test" "secret" newcomer (Some "uid-sam") true
    true 1700000000000 signedOut world.

(** A sign-up that passes a designation. *)
Definition applicant : AuthProvider.SignUpData :=
  {| AuthProvider.name := "Ada"; AuthProvider.designation := Some "payee";
     AuthProvider.company := Some "C1"; AuthProvider.bank := None;
     AuthProvider.contact := "555-0101" |}.

Definition applied : Result Doc * AuthContext.Session * World :=
  AuthProvider.signUp "ada@acme.test" "secret" applicant (Some "uid-ada") true
    false 1700000000000 signedOut world.

Definition pat : AuthUser :=
  {| uid := "uid-payee"; email := Some "pat@acme.test" |}.

(** The world in which the profile of [pat] is gone and the account is
    not. *)
Definition unprofiled : World :=
  set_db (<["users" := delete "uid-payee" users]> (db world)) world.

(** Receipts of two creators in four statuses. *)
Definition receipt (by_ status : string) : Doc :=
  {[ "createdBy" := VStr by_; "status" := VStr status ]}.

Definition ownReceipts : Collection :=
  {[ "R1" := receipt "uid-creator" "pending";
     "R2" := receipt "uid-creator" "approved";
     "R3" := receipt "uid-creator" "payment_done";
     "R4" := receipt "uid-creator2" "pending" ]}.

Definition counted : World :=
  set_db (<["receipts" := ownReceipts]> (db world)) world.

Definition signedIn : AuthContext.Session :=
  {| AuthContext.currentUser := Some creator;
     AuthContext.userData := Some (profile "Vic");
     AuthContext.isLoading := false; AuthContext.error := None |}.

Definition companyForm : SuperUserLists.CompanyForm :=
  {| SuperUserLists.name := "Initech";
     SuperUserLists.address := "1 Main St";
     SuperUserLists.contactPerson := "Bill";
     SuperUserLists.contactEmail := "bill@initech.test";
     SuperUserLists.contactPhone := "" |}.

Definition payeeForm : SuperUserScreen.UserForm :=
  {| SuperUserScreen.company := "C2"; SuperUserScreen.role := "payee";
     SuperUserScreen.userType := "company" |}.

(** Profiles that carry the [createdAt] the user list orders by. *)
Definition listedUsers : Collection :=
  <["createdAt" := VStr "2024-04-01T08:00:00.000Z"]> <$> users.

Definition listed : World :=
  set_db (<["users" := listedUsers]> (db world)) world.

End Scenario.

(** * Properties *)

(** ** Strings and dates *)

Example toISOString_epoch : toISOString 0 = "1970-01-01T00:00:00.000Z".
Proof. vm_compute. reflexivity. Qed.

Example toISOString_2023 :
  toISOString 1700000000000 = "2023-11-14T22:13:20.000Z".
Proof. vm_compute. reflexivity. Qed.

Example toISOString_leap :
  toISOString 1709210096789 = "2024-02-29T12:34:56.789Z".
Proof. vm_compute. reflexivity. Qed.

Example split_pop_ext : split_pop "scan.final.PDF" "" = "PDF".
Proof. reflexivity. Qed.

(** A text of an ASCII space, a no-break space (U+00A0) and an
    ideographic space (U+3000) is blank; an accented letter is not. *)
Example blank_unicode :
  blank (String " " (String "194" (String "160"
          (String "227" (String "128" (String "128" ""))))))
  = true.
Proof. reflexivity. Qed.

Example blank_letter : blank (String "195" (String "169" "")) = false.
Proof. reflexivity. Qed.

Example slice_last_short : slice_last 6 "123" = "123".
Proof. reflexivity. Qed.

(** ** The document store *)

Section firestore_order.
Import Firestore.

Global Instance value_le_total : Total value_le.
Proof.
  intros [|[]| |s1|] [|[]| |s2|]; simpl; try (by auto); try lia.
  apply (total String.le).
Qed.

Global Instance value_le_trans : Transitive value_le.
Proof.
  intros [|[]| |s1|] [|[]| |s2|] [|[]| |s3|]; simpl; try done; try lia.
  apply (transitivity (R := String.le)).
Qed.

Lemma lex_total {A B} (RA : relation A) (RB : relation B)
    `{!RelDecision RA, !Total RA, !Total RB} : Total (lex RA RB).
Proof.
  intros x y. unfold lex.
  destruct (decide (RA x.2 y.2)) as [Hxy|Hxy], (decide (RA y.2 x.2)) as [Hyx|Hyx].
  - destruct (total RB x.1 y.1); [left | right]; auto.
  - left; split; [done | by intros].
  - right; split; [done | by intros].
  - destruct (total RA x.2 y.2); contradiction.
Qed.

Lemma lex_trans {A B} (RA : relation A) (RB : relation B)
    `{!Transitive RA, !Transitive RB} : Transitive (lex RA RB).
Proof.
  intros x y z [Hxy Hxy'] [Hyz Hyz']. split; [by etrans|].
  intros Hzx. trans (y.1).
  - apply Hxy'. by etrans.
  - apply Hyz'. by etrans.
Qed.

Global Instance asc_total f : Total (asc f).
Proof.
  unfold asc. apply lex_total; try apply _.
  - intros d1 d2. apply _.
  - intros d1 d2. apply (total value_le).
Qed.

Global Instance asc_trans f : Transitive (asc f).
Proof.
  unfold asc. apply lex_trans; try apply _.
  intros d1 d2 d3. apply (transitivity (R := value_le)).
Qed.

Global Instance desc_total f : Total (desc f).
Proof. intros x y. unfold desc, flip. apply (total (asc f)). Qed.

Global Instance desc_trans f : Transitive (desc f).
Proof. intros x y z ??. unfold desc, flip in *. by etrans. Qed.

Global Instance by_id_total : Total by_id.
Proof. intros x y. apply (total String.le). Qed.

Global Instance by_id_trans : Transitive by_id.
Proof. intros x y z. unfold by_id. apply (transitivity (R := String.le)). Qed.

End firestore_order.

Section firestore_facts.
Import Firestore.

Lemma collection_insert_eq (db : Database) c col :
  collection (<[c := col]> db) c = col.
Proof. unfold collection. by rewrite lookup_insert_eq. Qed.

Lemma collection_insert_ne (db : Database) c c' col :
  c ≠ c' → collection (<[c := col]> db) c' = collection db c'.
Proof. intros. unfold collection. by rewrite lookup_insert_ne. Qed.

Lemma updateDoc_Some c id fields (db db' : Database) :
  updateDoc c id fields db = Some db' →
  ∃ d, collection db c !! id = Some d
       ∧ db' = <[c := <[id := fields ∪ d]> (collection db c)]> db.
Proof.
  unfold updateDoc. destruct (collection db c !! id) as [d|] eqn:E; [|done].
  intros [= <-]. eauto.
Qed.

Lemma updateDoc_exists c id fields (db : Database) d :
  collection db c !! id = Some d →
  updateDoc c id fields db
  = Some (<[c := <[id := fields ∪ d]> (collection db c)]> db).
Proof. intros E. unfold updateDoc. by rewrite E. Qed.

Lemma updateDoc_missing c id fields (db : Database) :
  collection db c !! id = None → updateDoc c id fields db = None.
Proof. intros E. unfold updateDoc. by rewrite E. Qed.

(** Reading any document of any collection after an update. *)
Lemma updateDoc_lookup c id fields (db db' : Database) c' id' :
  updateDoc c id fields db = Some db' →
  collection db' c' !! id'
  = if decide (c = c' ∧ id = id')
    then (fields ∪.) <$> collection db c !! id
    else collection db c' !! id'.
Proof.
  intros (d & Hd & ->)%updateDoc_Some.
  destruct (decide (c = c')) as [<-|Hc].
  - rewrite collection_insert_eq.
    destruct (decide (id = id')) as [<-|Hi].
    + rewrite lookup_insert_eq, decide_True by done. by rewrite Hd.
    + rewrite lookup_insert_ne, decide_False by naive_solver. done.
  - rewrite collection_insert_ne, decide_False by naive_solver. done.
Qed.

(** A written field reads back; a field that is not written keeps its
    value. *)
Lemma union_written (fields d : Doc) k v :
  fields !! k = Some v → (fields ∪ d) !! k = Some v.
Proof. intros. by apply lookup_union_Some_l. Qed.

Lemma union_frame (fields d : Doc) k :
  fields !! k = None → (fields ∪ d) !! k = d !! k.
Proof. intros. by rewrite lookup_union_r. Qed.

Lemma elem_of_getDocs_where (col : Collection) f v id d :
  (id, d) ∈ getDocs_where col f v ↔ col !! id = Some d ∧ d !! f = Some v.
Proof.
  unfold getDocs_where. rewrite merge_sort_Permutation.
  rewrite list_elem_of_filter, elem_of_map_to_list. unfold whereEq. naive_solver.
Qed.

Lemma elem_of_getDocs_where_desc (col : Collection) f v o id d :
  (id, d) ∈ getDocs_where_desc col f v o
  ↔ col !! id = Some d ∧ d !! f = Some v ∧ is_Some (d !! o).
Proof.
  unfold getDocs_where_desc. rewrite merge_sort_Permutation.
  rewrite !list_elem_of_filter, elem_of_map_to_list.
  unfold whereEq, hasField. naive_solver.
Qed.

Lemma NoDup_getDocs_where_desc (col : Collection) f v o :
  NoDup (getDocs_where_desc col f v o).
Proof.
  unfold getDocs_where_desc. rewrite merge_sort_Permutation.
  do 2 apply NoDup_filter. apply NoDup_map_to_list.
Qed.

Lemma sorted_getDocs_where_desc (col : Collection) f v o :
  StronglySorted (desc o) (getDocs_where_desc col f v o).
Proof. apply StronglySorted_merge_sort; apply _. Qed.

End firestore_facts.

(** ** Running the handlers *)

Section runs.
Import VoucherScreen.

(** The conditions under which the upload of [submitVoucher] and its
    update both go through. *)
Lemma submitVoucher_run receipt form userData tFile tTicket tStamp w
    id d file n u bytes :
  id_of receipt = Some id →
  blank (description form) = false →
  voucherFile form = Some file →
  name file = Some n →
  uri file = Some u →
  files w !! u = Some bytes →
  online w = true →
  Firestore.collection (db w) "vouchers" !! id = Some d →
  let path := storageFileName w tFile (fileExtension n) in
  let w1 := set_storage (<[path := bytes]> (storage w)) w in
  submitVoucher (Some receipt) form userData tFile tTicket tStamp w
  = (Alert "Success" "Voucher created successfully!",
     set_db (<["vouchers" :=
                 <[id := voucherFields w1 userData (downloadURL path)
                           (description form) tTicket tStamp ∪ d]>
                   (Firestore.collection (db w) "vouchers")]> (db w)) w1).
Proof.
  intros Hid Hdesc Hfile Hname Huri Hbytes Hon Hd path w1.
  unfold submitVoucher. rewrite Hdesc, Hfile. simpl.
  unfold handle, bind, get, ret, uploadVoucherFile, catch, bind, fetch,
    uploadBytes, getDownloadURL, updateDoc.
  rewrite Hname, Huri. simpl. rewrite Hbytes, Hon. simpl. rewrite Hon.
  rewrite lookup_insert_eq. rewrite Hid. simpl.
  rewrite (updateDoc_exists _ _ _ _ _ Hd). done.
Qed.

(** Every run of [submitVoucher]: the attachment store only grows, and
    the database is either left as it was or changed by the one update,
    written after the upload returned the reference of a stored object. *)
Lemma submitVoucher_cases sel form userData tFile tTicket tStamp w :
  let r := submitVoucher sel form userData tFile tTicket tStamp w in
  (∀ p, is_Some (storage w !! p) → is_Some (storage r.2 !! p))
  ∧ ((db r.2 = db w ∧ r.1 ≠ Alert "Success" "Voucher created successfully!")
     ∨ ∃ receipt id d path,
         sel = Some receipt ∧ id_of receipt = Some id
         ∧ Firestore.collection (db w) "vouchers" !! id = Some d
         ∧ is_Some (storage r.2 !! path)
         ∧ r.1 = Alert "Success" "Voucher created successfully!"
         ∧ db r.2 = <["vouchers" :=
                        <[id := voucherFields w userData (downloadURL path)
                                  (description form) tTicket tStamp ∪ d]>
                          (Firestore.collection (db w) "vouchers")]> (db w)).
Proof.
  unfold submitVoucher, handle, bind, get, ret, throw, uploadVoucherFile,
    catch, bind, fetch, uploadBytes, getDownloadURL, updateDoc, throw.
  repeat (case_match; simplify_eq/=);
    (split; [intros p Hp; rewrite ?lookup_insert_is_Some'; by auto |]);
    try (left; done).
  right.
  match goal with H : Firestore.updateDoc _ _ _ _ = Some _ |- _ =>
    apply updateDoc_Some in H as (d & Hd & ->) end.
  eexists _, _, d, _. repeat split; try done.
Qed.

Import PublisherScreen.

(** Every run of [uploadPaidPDF], in the same terms. *)
Lemma uploadPaidPDF_cases voucher result userData tCallback tFile tStamp w :
  let r := uploadPaidPDF voucher result userData tCallback tFile tStamp w in
  (∀ p, is_Some (storage w !! p) → is_Some (storage r.2 !! p))
  ∧ ((db r.2 = db w
      ∧ r.1 ≠ Alert "Success" "Paid PDF uploaded and status updated!")
     ∨ ∃ id d path,
         id_of voucher = Some id
         ∧ Firestore.collection (db w) "receipts" !! id = Some d
         ∧ is_Some (storage r.2 !! path)
         ∧ r.1 = Alert "Success" "Paid PDF uploaded and status updated!"
         ∧ db r.2 = <["receipts" :=
                        <[id := paidFields w userData (downloadURL path)
                                  tStamp ∪ d]>
                          (Firestore.collection (db w) "receipts")]> (db w)).
Proof.
  unfold uploadPaidPDF, pickerCallback, handle, bind, get, ret, throw,
    catch, bind, fetch, uploadBytes, getDownloadURL, updateDoc, ret.
  repeat (case_match; simplify_eq/=);
    (split; [intros p Hp; rewrite ?lookup_insert_is_Some'; by auto |]);
    try (left; done).
  all: right.
  all: match goal with H : Firestore.updateDoc _ _ _ _ = Some _ |- _ =>
    apply updateDoc_Some in H as (d & Hd & ->) end.
  all: eexists _, d, _; repeat split; try done.
Qed.

End runs.

(** ** Voucher creation *)

Section voucher_creation.
Import VoucherScreen Sample.




End voucher_creation.

(** ** The ticket number keeps the last six digits of the clock *)

Section ticket_digits.
Import VoucherScreen.

Lemma pretty_N_go_suffix n s : ∃ p, pretty_N_go n s = p +:+ s.
Proof.
  revert s. induction (N.lt_wf_0 n) as [n _ IH]; intros s.
  destruct (decide (n = 0%N)) as [->|Hn].
  - exists "". by rewrite pretty_N_go_0.
  - rewrite pretty_N_go_step by lia.
    destruct (IH (n / 10)%N) with (s := String (pretty_N_char (n mod 10)) s)
      as [p Hp]; [apply N.div_lt; lia|].
    exists (p +:+ String (pretty_N_char (n mod 10)) "").
    rewrite Hp. clear. induction p as [|c p IHp]; simpl; [done|].
    unfold String.app in *. simpl. by rewrite IHp.
Qed.

Lemma substring_suffix p s :
  String.substring (String.length p) (String.length s) (p +:+ s) = s.
Proof.
  induction p as [|c p IH]; simpl.
  - unfold String.app. simpl. induction s as [|c s IHs]; simpl; [done|].
    by rewrite IHs.
  - exact IH.
Qed.

Lemma slice_last_suffix p s :
  String.length s = 6 → slice_last 6 (p +:+ s) = s.
Proof.
  intros Hs. unfold slice_last.
  assert (String.length (p +:+ s) = String.length p + 6) as ->.
  { rewrite <-Hs. clear. induction p; simpl; [done|].
    unfold String.app in *. simpl. by f_equal. }
  replace (String.length p + 6 - 6) with (String.length p) by lia.
  rewrite <-Hs. apply substring_suffix.
Qed.

(** From six digits on, the decimal rendering ends with [digits6]. *)
Lemma pretty_digits6 n :
  (100000 ≤ n)%N → ∃ p, pretty n = p +:+ digits6 n.
Proof.
  intros Hn. unfold pretty, pretty_N. rewrite decide_False by lia.
  unfold digits6, digit.
  change (10 ^ 0)%N with 1%N. change (10 ^ 1)%N with 10%N.
  change (10 ^ 2)%N with (10 * 10)%N.
  change (10 ^ 3)%N with (10 * 10 * 10)%N.
  change (10 ^ 4)%N with (10 * 10 * 10 * 10)%N.
  change (10 ^ 5)%N with (10 * 10 * 10 * 10 * 10)%N.
  rewrite <-!N.Div0.div_div, N.div_1_r.
  assert (0 < n / 10 / 10 / 10 / 10 / 10)%N as H5.
  { rewrite !N.Div0.div_div. apply N.div_str_pos. lia. }
  assert (∀ a, 0 < a / 10 → 0 < a)%N as Hpos.
  { intros a Ha. destruct (decide (a = 0%N)) as [->|]; [|lia].
    by rewrite N.Div0.div_0_l in Ha. }
  do 6 (rewrite pretty_N_go_step by auto 6).
  apply pretty_N_go_suffix.
Qed.

Lemma ticketNumber_digits6 n :
  (100000 ≤ n)%N → ticketNumber n = "VOC" +:+ digits6 n.
Proof.
  intros Hn. unfold ticketNumber.
  destruct (pretty_digits6 n Hn) as [p ->].
  by rewrite slice_last_suffix.
Qed.

Lemma digit_shift n k c m :
  (c ≠ 0)%N → (((n + m * 10 * c * k) / c) mod 10 = (n / c) mod 10)%N.
Proof.
  intros Hc.
  replace (m * 10 * c * k)%N with (m * k * 10 * c)%N by lia.
  rewrite N.div_add by done. by rewrite N.Div0.mod_add.
Qed.

Lemma digit_period n k i :
  (i ≤ 5)%N → digit (n + 1000000 * k) i = digit n i.
Proof.
  intros Hi. unfold digit. f_equal.
  assert (i = 0 ∨ i = 1 ∨ i = 2 ∨ i = 3 ∨ i = 4 ∨ i = 5)%N
    as [->|[->|[->|[->|[->| ->]]]]] by lia.
  - apply (digit_shift n k 1 100000). lia.
  - apply (digit_shift n k 10 10000). lia.
  - apply (digit_shift n k 100 1000). lia.
  - apply (digit_shift n k 1000 100). lia.
  - apply (digit_shift n k 10000 10). lia.
  - apply (digit_shift n k 100000 1). lia.
Qed.

(** Clock readings that differ by a multiple of 1000 seconds give the
    same ticket number. *)
Lemma ticketNumber_period n k :
  (100000 ≤ n)%N → ticketNumber (n + 1000000 * k) = ticketNumber n.
Proof.
  intros Hn. rewrite !ticketNumber_digits6 by lia.
  unfold digits6. by rewrite !digit_period by lia.
Qed.

End ticket_digits.

(** ** Batches *)

Section batches.
Import Firestore.

(** A batch that writes the same fields [f] to documents that all exist
    is committed, and rewrites exactly those documents. *)
Lemma commit_lookup c (batch : list (string * Doc)) (f : Doc) (db : Database) :
  (∀ x, x ∈ batch → is_Some (collection db c !! x.1)) →
  ∃ db', commit c ((λ x : string * Doc, (x.1, f)) <$> batch) db = Some db'
         ∧ ∀ c' id,
             collection db' c' !! id
             = if decide (c = c' ∧ id ∈ batch.*1)
               then (f ∪.) <$> collection db c !! id
               else collection db c' !! id.
Proof.
  revert db. induction batch as [|x rest IH]; intros db Hex.
  - exists db. split; [done|]. intros c' id.
    rewrite decide_False; [done|]. intros [_ H]. by apply elem_of_nil in H.
  - destruct (Hex x) as [d Hd]; [by left|].
    simpl. rewrite (updateDoc_exists _ _ _ _ _ Hd).
    set (db1 := <[c := <[x.1 := f ∪ d]> (collection db c)]> db).
    assert (Hdb1 : updateDoc c x.1 f db = Some db1)
      by apply (updateDoc_exists _ _ _ _ _ Hd).
    destruct (IH db1) as (db' & Hcommit & Hlookup).
    { intros y Hy. rewrite (updateDoc_lookup _ _ _ _ _ _ _ Hdb1).
      case_decide as Hc.
      - rewrite Hd. by eexists.
      - apply Hex. by right. }
    exists db'. split; [done|]. intros c' id.
    rewrite Hlookup, !(updateDoc_lookup _ _ _ _ _ _ _ Hdb1).
    destruct (decide (c = c')) as [<-|Hc].
    + repeat case_decide; destruct_and?; simplify_eq; try done;
        try (exfalso; set_solver).
      rewrite Hd. simpl. by rewrite (assoc_L (∪)), (idemp_L (∪)).
    + rewrite !decide_False by naive_solver. done.
Qed.

End batches.

(** ** Comments, users and companies: what each handler writes *)

Section writes.
Import VoucherScreen SuperUserScreen.

(** Every run of [addComment]: nothing changes, or the one update writes
    the [comments] field of the selected record. *)
Lemma addComment_cases sel comment userData now w :
  let r := addComment sel comment userData now w in
  storage r.2 = storage w
  ∧ (db r.2 = db w
     ∨ ∃ voucher id d,
         sel = Some voucher ∧ id_of voucher = Some id
         ∧ blank comment = false
         ∧ Firestore.collection (db w) "vouchers" !! id = Some d
         ∧ r.1 = Alert "Success" "Comment added successfully"
         ∧ db r.2
           = <["vouchers" :=
                 <[id := {[ "comments" :=
                              VComments (comments_of voucher
                                ++ [newComment w userData comment now]) ]}
                         ∪ d]> (Firestore.collection (db w) "vouchers")]> (db w)).
Proof.
  unfold addComment, handle, bind, get, ret, updateDoc.
  repeat (case_match; simplify_eq/=); (split; [done|]); try (left; done).
  right.
  match goal with H : Firestore.updateDoc _ _ _ _ = Some _ |- _ =>
    apply updateDoc_Some in H as (d & Hd & ->) end.
  eexists _, _, d. repeat split; done.
Qed.

(** Every run of [updateUser]. *)
Lemma updateUser_cases sel form now w :
  let r := updateUser sel form now w in
  storage r.2 = storage w
  ∧ (db r.2 = db w
     ∨ ∃ user id d,
         sel = Some user ∧ id_of user = Some id
         ∧ Firestore.collection (db w) "users" !! id = Some d
         ∧ r.1 = Alert "Success" "User updated successfully"
         ∧ db r.2
           = <["users" := <[id := userFields w form now ∪ d]>
                            (Firestore.collection (db w) "users")]> (db w)).
Proof.
  unfold updateUser, handle, bind, get, ret, updateDoc.
  repeat (case_match; simplify_eq/=); (split; [done|]); try (left; done).
  right.
  match goal with H : Firestore.updateDoc _ _ _ _ = Some _ |- _ =>
    apply updateDoc_Some in H as (d & Hd & ->) end.
  eexists _, _, d. repeat split; done.
Qed.

(** What [updateUser] writes, field by field. *)
Lemma updates_role form :
  role form ≠ "" →
  updates form !! "designation" = Some (VStr (role form))
  ∧ updates form !! "pending" = Some (VBool false)
  ∧ updates form !! "approved" = Some (VBool true).
Proof.
  intros Hrole. unfold updates. rewrite bool_decide_false by done.
  repeat split; apply lookup_union_Some_l; by simplify_map_eq.
Qed.

Lemma updates_no_role form :
  role form = "" →
  updates form !! "designation" = None ∧ updates form !! "pending" = None.
Proof.
  intros Hrole. unfold updates. rewrite bool_decide_true by done.
  split; apply lookup_union_None; (split; [done|]);
    repeat case_match; by simplify_map_eq.
Qed.

Lemma updates_staff form :
  userType form = "finance" ∨ userType form = "zoompay" →
  updates form !! "company" = Some VNull
  ∧ updates form !! "bank" = Some VNull.
Proof.
  intros Htype. unfold updates.
  assert (bool_decide (userType form = "company") = false) as ->.
  { apply bool_decide_eq_false. destruct Htype as [-> | ->]; done. }
  assert (bool_decide (userType form = "finance")
          || bool_decide (userType form = "zoompay") = true) as ->.
  { destruct Htype as [-> | ->]; done. }
  simpl. split; (rewrite lookup_union_r; [by simplify_map_eq|]);
    case_match; by simplify_map_eq.
Qed.

(** [deleteCompany] with the confirmation given: the company document is
    gone, the users that named it have a null company, and nothing else
    is touched. *)
Lemma deleteCompany_run companyId companyName w :
  ∃ db',
    deleteCompany companyId companyName Delete w
    = (Alert "Success" "Company deleted successfully", set_db db' w)
    ∧ Firestore.collection db' "companies"
      = delete companyId (Firestore.collection (db w) "companies")
    ∧ (∀ u, Firestore.collection db' "users" !! u
            = (λ d : Doc, if decide (d !! "company" = Some (VStr companyId))
                          then {[ "company" := VNull ]} ∪ d else d)
                <$> Firestore.collection (db w) "users" !! u)
    ∧ (∀ c, c ≠ "companies" → c ≠ "users" →
            Firestore.collection db' c = Firestore.collection (db w) c).
Proof.
  set (db0 := Firestore.deleteDoc "companies" companyId (db w)).
  set (qs := Firestore.getDocs_where (Firestore.collection db0 "users") "company"
               (VStr companyId)).
  assert (Husers : Firestore.collection db0 "users" = Firestore.collection (db w) "users").
  { unfold db0, Firestore.deleteDoc. by rewrite collection_insert_ne. }
  destruct (commit_lookup "users" qs {[ "company" := VNull ]} db0)
    as (db' & Hcommit & Hlookup).
  { intros [id d] [Hd _]%elem_of_getDocs_where. simpl. by rewrite Hd. }
  exists db'. split; [|split; [|split]].
  - unfold deleteCompany, handle, bind, ret, deleteDoc, getDocs_where, commit.
    simpl. fold db0. fold qs. by rewrite Hcommit.
  - apply map_eq. intros i. rewrite Hlookup.
    rewrite decide_False by naive_solver.
    unfold db0, Firestore.deleteDoc. by rewrite collection_insert_eq.
  - intros u. rewrite Hlookup, Husers.
    destruct (Firestore.collection (db w) "users" !! u) as [d|] eqn:Hu; simpl.
    + case_decide as Hin; case_decide as Hco; try done.
      * exfalso. destruct Hin as [_ Hin].
        apply list_elem_of_fmap in Hin as ([u' d'] & -> & Hin).
        apply elem_of_getDocs_where in Hin as [Hd' ?].
        rewrite Husers in Hd'. simpl in *. naive_solver.
      * exfalso. apply Hin. split; [done|].
        apply list_elem_of_fmap. exists (u, d). split; [done|].
        apply elem_of_getDocs_where. by rewrite Husers.
    + by case_decide.
  - intros c Hc1 Hc2. apply map_eq. intros i. rewrite Hlookup.
    rewrite decide_False by naive_solver.
    unfold db0, Firestore.deleteDoc. by rewrite collection_insert_ne.
Qed.

End writes.

(** ** Checking a property of every stored document *)

Section every_document.

Lemma every_document (P : string → string → Doc → Prop) (d : Database) :
  map_Forall (λ c col, map_Forall (λ id x, P c id x) (col : Collection)) d →
  ∀ c id x, Firestore.collection d c !! id = Some x → P c id x.
Proof.
  intros Hall c id x. unfold Firestore.collection.
  destruct (d !! c) as [col|] eqn:Hc; simpl; [|by rewrite lookup_empty].
  intros Hx. exact (Hall c col Hc id x Hx).
Qed.

Lemma every_document_of (c : string) (P : string → Doc → Prop)
    (d : Database) :
  map_Forall P (Firestore.collection d c) →
  ∀ id x, Firestore.collection d c !! id = Some x → P id x.
Proof. intros Hall id x Hx. exact (Hall id x Hx). Qed.

End every_document.

(** ** Users and companies *)

Section users_and_companies.
Import SuperUserScreen Sample.

(** C9 (as the code has it).  When [updateUser] is given a non-empty role
    for a stored user, the one update it writes carries the designation
    together with [pending = false] and [approved = true], so the user
    comes out with that role and not pending; with user type finance or
    zoompay the same update sets both [company] and [bank] to null.
    Whatever the form, [updateUser] keeps the property that no user with a
    role is pending, where it holds.  It does not hold of every user:
    [signUp] stores the designation it is given beside [pending = true]. *)
Theorem updateUser_role_approves user id d form now w :
  id_of user = Some id →
  Firestore.collection (db w) "users" !! id = Some d →
  role form ≠ "" →
  let r := updateUser (Some user) form now w in
  r.1 = Alert "Success" "User updated successfully"
  ∧ db r.2 = <["users" := <[id := userFields w form now ∪ d]>
                            (Firestore.collection (db w) "users")]> (db w)
  ∧ (∃ d', Firestore.collection (db r.2) "users" !! id = Some d'
           ∧ d' !! "designation" = Some (VStr (role form))
           ∧ d' !! "pending" = Some (VBool false)
           ∧ d' !! "approved" = Some (VBool true)
           ∧ (userType form = "finance" ∨ userType form = "zoompay" →
              d' !! "company" = Some VNull ∧ d' !! "bank" = Some VNull))
  ∧ (∀ sel form' now', Spec.role_not_pending w →
       Spec.role_not_pending (updateUser sel form' now' w).2)
  ∧ (∀ email password data newUid ignoreUndefined listenerLast now' s w'
       d' s1 w1,
       AuthProvider.signUp email password data (Some newUid) ignoreUndefined
         listenerLast now' s w'
       = (Ok d', s1, w1) →
       Firestore.collection (db w1) "users" !! newUid = Some d'
       ∧ d' !! "designation" = VStr <$> AuthProvider.designation data
       ∧ d' !! "pending" = Some (VBool true)).
Proof.
  intros Hid Hd Hrole r.
  assert (Hr : r = (Alert "Success" "User updated successfully",
                    set_db (<["users" := <[id := userFields w form now ∪ d]>
                      (Firestore.collection (db w) "users")]> (db w)) w)).
  { unfold r, updateUser, handle, bind, get, ret, updateDoc.
    rewrite Hid. simpl. by rewrite (updateDoc_exists _ _ _ _ _ Hd). }
  rewrite Hr. simpl. split; [done|]. split; [done|]. split; [|split].
  - exists (userFields w form now ∪ d).
    rewrite collection_insert_eq, lookup_insert_eq.
    destruct (updates_role form Hrole) as (Hdes & Hpen & Happ).
    unfold userFields. split; [done|].
    repeat split;
      try (apply union_written; rewrite lookup_union_r; by simplify_map_eq).
    all: destruct (updates_staff form ltac:(assumption)) as [Hco Hba];
      apply union_written; rewrite lookup_union_r; by simplify_map_eq.
  - clear. intros sel form' now' Hinv.
    destruct (updateUser_cases sel form' now' w) as [_ [Hdb|Hupd]].
    { unfold Spec.role_not_pending. by rewrite Hdb. }
    destruct Hupd as (user & id & d & -> & Hid & Hd & _ & Hdb).
    intros u x. rewrite Hdb, collection_insert_eq.
    destruct (decide (id = u)) as [<-|Hne].
    + rewrite lookup_insert_eq. intros [= <-]. unfold userFields.
      rewrite <-!(assoc_L (∪)).
      rewrite !(union_frame {[ "updatedAt" := _; "updatedBy" := _ ]})
        by by simplify_map_eq.
      destruct (decide (role form' = "")) as [Hrole|Hrole].
      * destruct (updates_no_role form' Hrole) as [Hdes Hpen].
        rewrite !union_frame by done. exact (Hinv id d Hd).
      * destruct (updates_role form' Hrole) as (Hdes & Hpen & _).
        intros _. by rewrite (union_written _ _ _ _ Hpen).
    + rewrite lookup_insert_ne by done. apply Hinv.
  - clear. intros email password data newUid ignoreUndefined listenerLast
      now' s w' d' s1 w1.
    unfold AuthProvider.signUp, AuthProvider.createUserWithEmailAndPassword,
      AuthProvider.rethrow, AuthProvider.set. cbv zeta.
    destruct (accounts w' !! email); [intros; simplify_eq|].
    destruct (negb ignoreUndefined && _); [intros; simplify_eq|].
    intros [= <- <- <-]. cbn [db set_db set_authUser uid].
    rewrite collection_insert_eq, lookup_insert_eq. split; [done|].
    unfold AuthProvider.defined, AuthProvider.userData.
    destruct (AuthProvider.designation data), (AuthProvider.company data),
      (AuthProvider.bank data); simpl; by simplify_map_eq.
Qed.

Lemma updateUser_role_approves_witness :
  let user := row_of "users" "uid-new" world in
  let r := updateUser (Some user) staffForm 1700000000000 world in
  (id_of user = Some "uid-new"
   ∧ is_Some (Firestore.collection (db world) "users" !! "uid-new")
   ∧ role staffForm ≠ "")
  ∧ r.1 = Alert "Success" "User updated successfully"
  ∧ ∃ d', Firestore.collection (db r.2) "users" !! "uid-new" = Some d'
          ∧ d' !! "designation" = Some (VStr "checker")
          ∧ d' !! "pending" = Some (VBool false)
          ∧ d' !! "approved" = Some (VBool true).
Proof.
  intros user r.
  assert (H1 : id_of user = Some "uid-new") by (vm_compute; reflexivity).
  assert (H2 : Firestore.collection (db world) "users" !! "uid-new"
               = Some {[ "name" := VStr "Noor"; "pending" := VBool true;
                         "approved" := VBool false ]})
    by (vm_compute; reflexivity).
  assert (H3 : role staffForm ≠ "") by (simpl; discriminate).
  split; [split; [exact H1 | split; [by eexists | exact H3]]|].
  destruct (updateUser_role_approves user "uid-new" _ staffForm
              1700000000000 world H1 H2 H3)
    as (Hout & _ & (d' & Hd' & Hdes & Hpen & Happ & _) & _).
  split; [exact Hout|]. exists d'. auto.
Defined.

(** C9 (as the specification words it) fails: a user can hold a
    designation while still marked pending.  In a database where no user
    with a role is pending, a sign-up that passes a designation stores a
    profile with that designation and [pending = true]. *)
Lemma signUp_role_while_pending :
  let d := doc "users" "uid-ada" Scenario.applied.2 in
  Spec.role_not_pending world
  ∧ Scenario.applied.1.1 = Ok d
  ∧ Firestore.collection (db Scenario.applied.2) "users" !! "uid-ada" = Some d
  ∧ d !! "designation" = Some (VStr "payee")
  ∧ d !! "pending" = Some (VBool true)
  ∧ ¬ Spec.role_not_pending Scenario.applied.2.
Proof.
  intros d.
  assert (Hd : Firestore.collection (db Scenario.applied.2) "users"
                 !! "uid-ada" = Some d) by (vm_compute; reflexivity).
  split.
  { intros u x. change (Firestore.collection (db world) "users") with users.
    unfold users. intros Hx.
    apply lookup_insert_Some in Hx as [[_ <-]|[_ Hx]]; [vm_compute; done|].
    apply lookup_singleton_Some in Hx as [_ <-]. vm_compute. done. }
  split; [vm_compute; reflexivity|]. split; [exact Hd|].
  split; [vm_compute; reflexivity|]. split; [vm_compute; reflexivity|].
  intros Hinv. specialize (Hinv "uid-ada" d Hd). revert Hinv.
  vm_compute. intros Hinv. discriminate (Hinv eq_refl).
Qed.

(** C10.  [deleteCompany], once confirmed, removes the company document
    and sets [company] to null on every user that named the deleted id:
    afterwards the company is gone, no user names it, and if every company
    named by a user existed before, every company named by a user exists
    after. *)
Theorem deleteCompany_clears_references companyId companyName w :
  Spec.companies_exist w →
  let r := deleteCompany companyId companyName Delete w in
  r.1 = Alert "Success" "Company deleted successfully"
  ∧ Firestore.collection (db r.2) "companies" !! companyId = None
  ∧ (∀ u d, Firestore.collection (db r.2) "users" !! u = Some d →
            d !! "company" ≠ Some (VStr companyId))
  ∧ (∀ u d, Firestore.collection (db w) "users" !! u = Some d →
            d !! "company" = Some (VStr companyId) →
            Firestore.collection (db r.2) "users" !! u
            = Some ({[ "company" := VNull ]} ∪ d))
  ∧ Spec.companies_exist r.2.
Proof.
  intros Hinv r.
  destruct (deleteCompany_run companyId companyName w)
    as (db' & Hrun & Hcompanies & Husers & _).
  unfold r. rewrite Hrun. cbn [fst snd db set_db].
  split; [done|]. split; [|split; [|split]].
  - rewrite Hcompanies. apply lookup_delete_eq.
  - intros u d. rewrite Husers.
    destruct (Firestore.collection (db w) "users" !! u) as [d0|]; [|done].
    simpl. intros [= <-]. case_decide as Hco; [|done].
    rewrite union_written with (v := VNull); [done | by simplify_map_eq].
  - intros u d Hu Hco. rewrite Husers, Hu. simpl. by rewrite decide_True.
  - intros u d c. cbn [db set_db]. rewrite Husers, Hcompanies.
    destruct (Firestore.collection (db w) "users" !! u) as [d0|] eqn:Hu;
      [|done].
    simpl. intros [= <-]. case_decide as Hco.
    + rewrite union_written with (v := VNull); [done | by simplify_map_eq].
    + intros Hc. rewrite lookup_delete_ne by congruence. by eapply Hinv.
Qed.

Lemma sample_companies_exist : Spec.companies_exist world.
Proof.
  intros u d c Hu. revert c.
  refine (every_document_of "users"
            (λ _ x, ∀ c, x !! "company" = Some (VStr c) →
               is_Some (Firestore.collection (db world) "companies" !! c))
            (db world) _ u d Hu).
  clear. intros id x Hx.
  assert (x !! "company" = None ∨ x !! "company" = Some (VStr "C1"))
    as [-> | ->].
  { revert Hx. change (Firestore.collection (db world) "users") with users.
    unfold users. intros Hx.
    apply lookup_insert_Some in Hx as [[_ <-]|[_ Hx]]; [by right|].
    apply lookup_singleton_Some in Hx as [_ <-]. by left. }
  - done.
  - intros c [= <-]. by eexists.
Qed.

Lemma deleteCompany_clears_references_witness :
  let r := deleteCompany "C1" "Acme" Delete world in
  Spec.companies_exist world
  ∧ Firestore.collection (db world) "users" !! "uid-payee" ≫= (.!! "company")
    = Some (VStr "C1")
  ∧ r.1 = Alert "Success" "Company deleted successfully"
  ∧ Firestore.collection (db r.2) "companies" !! "C1" = None
  ∧ Firestore.collection (db r.2) "users" !! "uid-payee" ≫= (.!! "company")
    = Some VNull
  ∧ Spec.companies_exist r.2.
Proof.
  intros r.
  destruct (deleteCompany_clears_references "C1" "Acme" world
              sample_companies_exist) as (Hout & Hgone & _ & _ & Hinv).
  split; [exact sample_companies_exist|].
  split; [vm_compute; reflexivity|].
  split; [exact Hout|]. split; [exact Hgone|].
  split; [vm_compute; reflexivity | exact Hinv].
Defined.

End users_and_companies.

(** ** Attachments are stored before the status says so *)

Section attachments.
Import VoucherScreen PublisherScreen SuperUserScreen AuthContext Spec.

Lemma stored_mono w w' v :
  (∀ p, is_Some (storage w !! p) → is_Some (storage w' !! p)) →
  stored w v → stored w' v.
Proof. intros Hmono (path & -> & Hp). exists path. auto. Qed.

Lemma single_update_lookup (d : Database) c id x c' id' :
  Firestore.collection (<[c := <[id := x]> (Firestore.collection d c)]> d) c'
    !! id'
  = if decide (c = c' ∧ id = id') then Some x
    else Firestore.collection d c' !! id'.
Proof.
  destruct (decide (c = c')) as [<-|Hc].
  - rewrite collection_insert_eq. destruct (decide (id = id')) as [<-|Hi].
    + by rewrite lookup_insert_eq, decide_True.
    + rewrite lookup_insert_ne by done. by rewrite decide_False by naive_solver.
  - rewrite collection_insert_ne by done. by rewrite decide_False by naive_solver.
Qed.

(** The invariant is kept by a change that leaves the status and the two
    references of a document alone, or writes them consistently. *)
Lemma attachments_stored_frame w w' :
  attachments_stored w →
  (∀ p, is_Some (storage w !! p) → is_Some (storage w' !! p)) →
  (∀ c id d',
     Firestore.collection (db w') c !! id = Some d' →
     (∃ d, Firestore.collection (db w) c !! id = Some d
           ∧ d' !! "status" = d !! "status"
           ∧ d' !! "voucherUrl" = d !! "voucherUrl"
           ∧ d' !! "paidPdfUrl" = d !! "paidPdfUrl")
     ∨ ((d' !! "status" = Some (VStr "voucher_created") →
           stored w' (d' !! "voucherUrl"))
        ∧ (d' !! "status" = Some (VStr "payment_done") →
             stored w' (d' !! "paidPdfUrl")))) →
  attachments_stored w'.
Proof.
  intros Hinv Hmono Hdocs c id d' Hd'.
  destruct (Hdocs c id d' Hd') as [(d & Hd & -> & -> & ->)|?]; [|done].
  destruct (Hinv c id d Hd) as [H1 H2].
  split; intros Hs; eapply stored_mono; eauto.
Qed.

(** One update whose fields do not include the status or a reference. *)
Lemma attachments_stored_other_fields w w' c id d fields :
  attachments_stored w →
  (∀ p, is_Some (storage w !! p) → is_Some (storage w' !! p)) →
  Firestore.collection (db w) c !! id = Some d →
  db w' = <[c := <[id := fields ∪ d]> (Firestore.collection (db w) c)]> (db w) →
  fields !! "status" = None → fields !! "voucherUrl" = None →
  fields !! "paidPdfUrl" = None →
  attachments_stored w'.
Proof.
  intros Hinv Hmono Hd Hdb Hs Hv Hp.
  apply (attachments_stored_frame w w' Hinv Hmono).
  intros c' id' d'. rewrite Hdb, single_update_lookup.
  case_decide as Heq.
  - destruct Heq as [<- <-]. intros [= <-]. left. exists d.
    by rewrite !union_frame.
  - intros Hd'. left. by exists d'.
Qed.

Lemma signIn_world email password s w :
  db (signIn email password s w).2 = db w
  ∧ storage (signIn email password s w).2 = storage w.
Proof.
  unfold signIn, rethrow, signOut.
  repeat (case_match; simplify_eq/=); done.
Qed.

Lemma step_attachments_stored w w' :
  step w w' → attachments_stored w → attachments_stored w'.
Proof.
  intros Hstep Hinv.
  destruct Hstep as [sel form ud tFile tTicket tStamp w
                    |sel comment ud now w
                    |voucher result ud tCallback tFile tStamp w
                    |w
                    |sel form now w
                    |companyId companyName pressed w
                    |email password s w
                    |s w].
  - (* submitVoucher *)
    destruct (submitVoucher_cases sel form ud tFile tTicket tStamp w)
      as [Hmono [[Hdb _]|(receipt & id & d & path & _ & _ & Hd & Hp & _ & Hdb)]].
    + apply (attachments_stored_frame w _ Hinv Hmono).
      intros c id d'. rewrite Hdb. left. by exists d'.
    + apply (attachments_stored_frame w _ Hinv Hmono).
      intros c' id' d'. rewrite Hdb, single_update_lookup.
      case_decide as Heq; [|intros ?; left; by exists d'].
      intros [= <-]. right. split.
      * intros _. exists path. split; [|done].
        apply union_written. unfold voucherFields. by simplify_map_eq.
      * rewrite union_written with (v := VStr "voucher_created"); [done|].
        unfold voucherFields. by simplify_map_eq.
  - (* addComment *)
    destruct (addComment_cases sel comment ud now w)
      as [Hst [Hdb|(voucher & id & d & _ & _ & _ & Hd & _ & Hdb)]].
    + apply (attachments_stored_frame w _ Hinv); [by rewrite Hst|].
      intros c id d'. rewrite Hdb. left. by exists d'.
    + eapply (attachments_stored_other_fields w _ _ _ _ _ Hinv);
        [by rewrite Hst | exact Hd | exact Hdb | done..].
  - (* uploadPaidPDF *)
    destruct (uploadPaidPDF_cases voucher result ud tCallback tFile
                tStamp w)
      as [Hmono [[Hdb _]|(id & d & path & _ & Hd & Hp & _ & Hdb)]].
    + apply (attachments_stored_frame w _ Hinv Hmono).
      intros c id d'. rewrite Hdb. left. by exists d'.
    + apply (attachments_stored_frame w _ Hinv Hmono).
      intros c' id' d'. rewrite Hdb, single_update_lookup.
      case_decide as Heq; [|intros ?; left; by exists d'].
      intros [= <-]. right. split.
      * rewrite union_written with (v := VStr "payment_done"); [done|].
        unfold paidFields. by simplify_map_eq.
      * intros _. exists path. split; [|done].
        apply union_written. unfold paidFields. by simplify_map_eq.
  - (* fetchVouchers *) done.
  - (* updateUser *)
    destruct (updateUser_cases sel form now w)
      as [Hst [Hdb|(user & id & d & _ & _ & Hd & _ & Hdb)]].
    + apply (attachments_stored_frame w _ Hinv); [by rewrite Hst|].
      intros c id d'. rewrite Hdb. left. by exists d'.
    + eapply (attachments_stored_other_fields w _ _ _ _ _ Hinv);
        [by rewrite Hst | exact Hd | exact Hdb | ..].
      all: unfold userFields, updates;
        apply lookup_union_None; split; [by simplify_map_eq|];
        apply lookup_union_None; split; repeat case_match; by simplify_map_eq.
  - (* deleteCompany *)
    destruct pressed; [done|].
    destruct (deleteCompany_run companyId companyName w)
      as (db' & Hrun & Hcompanies & Husers & Hothers).
    rewrite Hrun. cbn [snd].
    apply (attachments_stored_frame w _ Hinv); [done|].
    intros c id d'. cbn [db set_db].
    destruct (decide (c = "companies")) as [->|Hc1].
    { rewrite Hcompanies. intros [_ Hd]%lookup_delete_Some. left. by exists d'. }
    destruct (decide (c = "users")) as [->|Hc2].
    { rewrite Husers.
      destruct (Firestore.collection (db w) "users" !! id) as [d|] eqn:Hd;
        [|done].
      simpl. intros [= <-]. left. exists d. split; [done|].
      case_decide; [|done]. by rewrite !union_frame by by simplify_map_eq. }
    rewrite Hothers by done. intros Hd. left. by exists d'.
  - (* signIn *)
    destruct (signIn_world email password s w) as [Hdb Hst].
    apply (attachments_stored_frame w _ Hinv); [by rewrite Hst|].
    intros c id d'. rewrite Hdb. left. by exists d'.
  - (* logout *)
    apply (attachments_stored_frame w _ Hinv); [done|].
    intros c id d'. left. by exists d'.
Qed.

Lemma submitVoucher_upload_fails receipt form file ud tFile tTicket tStamp w :
  voucherFile form = Some file →
  upload_fails (VoucherScreen.uri file) w →
  let r := submitVoucher (Some receipt) form ud tFile tTicket tStamp w in
  db r.2 = db w ∧ r.1 ≠ Alert "Success" "Voucher created successfully!".
Proof.
  intros Hfile Hfail.
  unfold submitVoucher, handle, bind, get, ret, throw, uploadVoucherFile,
    catch, bind, fetch, uploadBytes, getDownloadURL, updateDoc, throw.
  rewrite Hfile.
  destruct Hfail as [Hoff|Hnone]; [rewrite ?Hoff | rewrite ?Hnone];
    repeat (case_match; simplify_eq/=); try done; congruence.
Qed.

Lemma uploadPaidPDF_upload_fails voucher result first rest ud
    tCallback tFile tStamp w :
  assets result = Some (first :: rest) →
  upload_fails (PublisherScreen.uri first) w →
  let r := uploadPaidPDF voucher result ud tCallback tFile tStamp w in
  db r.2 = db w ∧ r.1 = Alert "Error" "Failed to upload paid PDF".
Proof.
  intros Hassets Hfail.
  unfold uploadPaidPDF, pickerCallback, handle, bind, get, ret, throw,
    catch, bind, fetch, uploadBytes, getDownloadURL, updateDoc, ret.
  rewrite Hassets. simpl.
  destruct Hfail as [Hoff|Hnone]; [rewrite ?Hoff | rewrite ?Hnone];
    repeat (case_match; simplify_eq/=); try done; congruence.
Qed.

(** C2.  Along every execution, a record whose status is
    [voucher_created] holds in [voucherUrl] the reference of an object the
    attachment store holds, and a record whose status is [payment_done]
    holds such a reference in [paidPdfUrl].  Each of the two handlers that
    set these statuses changes the database, if at all, by one update that
    writes the status together with the reference the upload returned; and
    when the upload cannot succeed the database is left as it was and no
    success is reported. *)
Theorem attachment_stored_before_status :
  (∀ w w', rtc step w w' → attachments_stored w → attachments_stored w')
  ∧ (∀ sel form ud tFile tTicket tStamp w,
       one_commit "vouchers" "voucher_created" "voucherUrl" w
         (submitVoucher sel form ud tFile tTicket tStamp w))
  ∧ (∀ voucher result ud tCallback tFile tStamp w,
       one_commit "receipts" "payment_done" "paidPdfUrl" w
         (uploadPaidPDF voucher result ud tCallback tFile tStamp w))
  ∧ (∀ receipt form file ud tFile tTicket tStamp w,
       voucherFile form = Some file →
       upload_fails (VoucherScreen.uri file) w →
       let r := submitVoucher (Some receipt) form ud tFile tTicket tStamp w in
       db r.2 = db w ∧ r.1 ≠ Alert "Success" "Voucher created successfully!")
  ∧ (∀ voucher result first rest ud tCallback tFile tStamp w,
       assets result = Some (first :: rest) →
       upload_fails (PublisherScreen.uri first) w →
       let r := uploadPaidPDF voucher result ud tCallback tFile tStamp w in
       db r.2 = db w ∧ r.1 = Alert "Error" "Failed to upload paid PDF").
Proof.
  split; [|split; [|split; [|split]]].
  - intros w w' Hsteps. induction Hsteps as [|w w1 w' Hstep _ IH]; [done|].
    intros Hinv. apply IH. by eapply step_attachments_stored.
  - intros sel form ud tFile tTicket tStamp w.
    destruct (submitVoucher_cases sel form ud tFile tTicket tStamp w)
      as [_ [[Hdb _]|(receipt & id & d & path & _ & _ & Hd & Hp & _ & Hdb)]];
      [by left|].
    right. exists id, d, (voucherFields w ud (downloadURL path)
                           (VoucherScreen.description form) tTicket tStamp), path.
    repeat split; try done; unfold voucherFields; by simplify_map_eq.
  - intros voucher result ud tCallback tFile tStamp w.
    destruct (uploadPaidPDF_cases voucher result ud tCallback tFile tStamp w)
      as [_ [[Hdb _]|(id & d & path & _ & Hd & Hp & _ & Hdb)]]; [by left|].
    right. exists id, d, (paidFields w ud (downloadURL path) tStamp), path.
    repeat split; try done; unfold paidFields; by simplify_map_eq.
  - intros. by apply submitVoucher_upload_fails with (file := file).
  - intros. by eapply uploadPaidPDF_upload_fails.
Qed.

Lemma sample_attachments_stored : attachments_stored Sample.world.
Proof.
  intros c id d Hd.
  assert (d !! "status" ≠ Some (VStr "voucher_created")
          ∧ d !! "status" ≠ Some (VStr "payment_done")) as [H1 H2]; [|done].
  refine (every_document
            (λ _ _ x, x !! "status" ≠ Some (VStr "voucher_created")
                      ∧ x !! "status" ≠ Some (VStr "payment_done"))
            (db Sample.world) _ c id d Hd).
  apply (bool_decide_unpack _). vm_compute. exact I.
Qed.

Lemma attachment_stored_before_status_witness :
  let w1 := (submitVoucher (Some (Sample.row_of "vouchers" "V1" Sample.world))
               Sample.form (Some (Sample.profile "Vic"))
               1700000123456 1700000123999 1700000124000 Sample.world).2 in
  let w2 := (uploadPaidPDF (Sample.row_of "receipts" "R1" w1) Sample.picked
               (Some (Sample.profile "Pub"))
               1700000200000 1700000200001 1700000200002 w1).2 in
  attachments_stored Sample.world
  ∧ Sample.field "vouchers" "V1" "status" w2 = Some (VStr "voucher_created")
  ∧ Sample.field "receipts" "R1" "status" w2 = Some (VStr "payment_done")
  ∧ attachments_stored w2.
Proof.
  intros w1 w2.
  split; [exact sample_attachments_stored|].
  split; [vm_compute; reflexivity|]. split; [vm_compute; reflexivity|].
  apply (proj1 attachment_stored_before_status Sample.world w2);
    [|exact sample_attachments_stored].
  eapply rtc_l; [apply step_submitVoucher|].
  eapply rtc_l; [apply step_uploadPaidPDF|]. apply rtc_refl.
Defined.

End attachments.

(** ** Racing and repeated transitions *)

Section races.
Import VoucherScreen PublisherScreen Sample.

(** The conditions under which [uploadPaidPDF] goes through, whatever the
    stored record holds. *)
Lemma uploadPaidPDF_run voucher id result first rest u bytes ud
    tCallback tFile tStamp w d :
  id_of voucher = Some id →
  assets result = Some (first :: rest) →
  PublisherScreen.uri first = Some u →
  files w !! u = Some bytes →
  online w = true →
  Firestore.collection (db w) "receipts" !! id = Some d →
  let r := uploadPaidPDF voucher result ud tCallback tFile tStamp w in
  r.1 = Alert "Success" "Paid PDF uploaded and status updated!"
  ∧ db r.2 = <["receipts" :=
                 <[id := paidFields w ud (downloadURL (fileName voucher tFile))
                           tStamp ∪ d]>
                   (Firestore.collection (db w) "receipts")]> (db w)
  ∧ files r.2 = files w ∧ online r.2 = online w
  ∧ authUser r.2 = authUser w
  ∧ storage r.2 !! fileName voucher tFile = Some bytes.
Proof.
  intros Hid Hassets Huri Hbytes Hon Hd.
  unfold uploadPaidPDF, pickerCallback, handle, bind, get, ret, throw,
    catch, bind, fetch, uploadBytes, getDownloadURL, updateDoc, ret.
  rewrite Hassets.
  destruct (negb (didCancel result) && negb (truthy (VStr <$> errorCode result)));
    simpl;
    repeat (first [ rewrite Huri | rewrite Hbytes | rewrite Hon | rewrite Hid
                  | rewrite lookup_insert_eq
                  | rewrite (updateDoc_exists _ _ _ _ _ Hd) ]; simpl);
    done.
Qed.






End races.

Section retries.
Import VoucherScreen Sample.




End retries.

(** ** Comments *)

Section comments.
Import VoucherScreen Sample.

Lemma comments_of_written (d : Doc) l :
  comments_of ({[ "comments" := VComments l ]} ∪ d) = l.
Proof.
  unfold comments_of.
  by rewrite (union_written _ d "comments" (VComments l))
    by by simplify_map_eq.
Qed.

(** No run of [addComment] changes a field other than [comments], of any
    record, or the attachment store. *)
Lemma addComment_frame sel comment ud now w c id k :
  k ≠ "comments" →
  let r := addComment sel comment ud now w in
  Firestore.collection (db r.2) c !! id ≫= (.!! k)
  = Firestore.collection (db w) c !! id ≫= (.!! k).
Proof.
  intros Hk r.
  destruct (addComment_cases sel comment ud now w)
    as [_ [Hdb|(voucher & id' & d & _ & _ & _ & Hd & _ & Hdb)]];
    fold r in Hdb; rewrite Hdb; [done|].
  rewrite single_update_lookup. case_decide as Heq; [|done].
  destruct Heq as [<- <-]. rewrite Hd. simpl.
  apply union_frame. by simplify_map_eq.
Qed.

(** C7 (as the code has it).  For a selected record that is stored, a
    comment that is not blank, and a row whose comments are those of the
    stored record: [addComment] succeeds, the stored comments become the
    previous ones, unchanged and in order, followed by the one new entry,
    and every other field of the record (status, receipt, voucher and
    paid-proof references among them) keeps its value.  Whatever the
    arguments, [addComment] changes no field other than [comments] and
    leaves the attachment store alone; and with a blank text (white space
    only, in ASCII or not) it changes nothing and reports no success. *)
Theorem addComment_appends_one voucher id d comment ud now w :
  id_of voucher = Some id →
  blank comment = false →
  Firestore.collection (db w) "vouchers" !! id = Some d →
  comments_of voucher = comments_of d →
  let r := addComment (Some voucher) comment ud now w in
  r.1 = Alert "Success" "Comment added successfully"
  ∧ (∃ d', Firestore.collection (db r.2) "vouchers" !! id = Some d'
           ∧ comments_of d'
             = (comments_of d ++ [newComment w ud comment now])%list
           ∧ ∀ k, k ≠ "comments" → d' !! k = d !! k)
  ∧ (∀ sel' comment' ud' now' w' c id' k,
       k ≠ "comments" →
       let r' := addComment sel' comment' ud' now' w' in
       Firestore.collection (db r'.2) c !! id' ≫= (.!! k)
       = Firestore.collection (db w') c !! id' ≫= (.!! k)
       ∧ storage r'.2 = storage w')
  ∧ (∀ sel' comment' ud' now' w',
       blank comment' = true →
       let r' := addComment sel' comment' ud' now' w' in
       r'.2 = w' ∧ r'.1 ≠ Alert "Success" "Comment added successfully").
Proof.
  intros Hid Hblank Hd Hsnap r.
  assert (Hr : r = (Alert "Success" "Comment added successfully",
                    set_db (<["vouchers" :=
                      <[id := {[ "comments" :=
                                   VComments (comments_of voucher
                                     ++ [newComment w ud comment now]) ]}
                              ∪ d]> (Firestore.collection (db w) "vouchers")]>
                      (db w)) w)).
  { unfold r, addComment, handle, bind, get, ret, updateDoc.
    rewrite Hblank, Hid. simpl. by rewrite (updateDoc_exists _ _ _ _ _ Hd). }
  split; [by rewrite Hr|]. split; [|split].
  - rewrite Hr. cbn [snd db set_db]. eexists.
    rewrite collection_insert_eq, lookup_insert_eq. split; [done|].
    split; [by rewrite comments_of_written, Hsnap|].
    intros k Hk. apply union_frame. by simplify_map_eq.
  - intros sel' comment' ud' now' w' c id' k Hk r'. split.
    + by apply addComment_frame.
    + by destruct (addComment_cases sel' comment' ud' now' w') as [? _].
  - intros sel' comment' ud' now' w' Hblank' r'. unfold r', addComment.
    destruct sel'; [rewrite Hblank'|]; done.
Qed.

Lemma addComment_appends_one_witness :
  let voucher := row_of "vouchers" "V1" commented in
  let r := addComment (Some voucher) "Looks fine" (Some (profile "Vic"))
             1700000300000 commented in
  (id_of voucher = Some "V1"
   ∧ blank "Looks fine" = false
   ∧ is_Some (Firestore.collection (db commented) "vouchers" !! "V1")
   ∧ comments_of voucher = comments_of (doc "vouchers" "V1" commented))
  ∧ r.1 = Alert "Success" "Comment added successfully"
  ∧ comments_of (doc "vouchers" "V1" r.2)
    = [earlier; newComment commented (Some (profile "Vic")) "Looks fine"
                  1700000300000]
  ∧ field "vouchers" "V1" "status" r.2 = Some (VStr "approved").
Proof.
  intros voucher r.
  assert (H1 : id_of voucher = Some "V1") by (vm_compute; reflexivity).
  assert (H2 : Firestore.collection (db commented) "vouchers" !! "V1"
               = Some (doc "vouchers" "V1" commented))
    by (vm_compute; reflexivity).
  assert (H3 : comments_of voucher = comments_of (doc "vouchers" "V1" commented))
    by (vm_compute; reflexivity).
  split; [split; [exact H1 | split; [reflexivity | split; [by eexists | exact H3]]]|].
  destruct (addComment_appends_one voucher "V1" _ "Looks fine"
              (Some (profile "Vic")) 1700000300000 commented
              H1 eq_refl H2 H3) as (Hout & (d' & Hd' & Hcomments & Hframe) & _).
  split; [exact Hout|]. fold r in Hd'. unfold doc at 1, field.
  rewrite Hd'. simpl. split.
  - rewrite Hcomments. vm_compute. reflexivity.
  - rewrite Hframe by done. vm_compute. reflexivity.
Defined.

(** C7 (as the specification words it) fails twice.  With a blank text
    nothing is appended.  With a row fetched before the checker's comment
    was recorded, the update replaces the stored comments by the row's
    comments and the new entry: the recorded comment is lost. *)
Lemma addComment_not_append_only :
  let fresh := row_of "vouchers" "V1" commented in
  let stale := row_of "vouchers" "V1" world in
  let r := addComment (Some fresh) "   " (Some (profile "Vic"))
             1700000300000 commented in
  let r' := addComment (Some stale) "Looks fine" (Some (profile "Vic"))
              1700000300000 commented in
  comments_of (doc "vouchers" "V1" commented) = [earlier]
  ∧ (r.1 = Alert "Empty Comment" "Please enter a comment"
     ∧ comments_of (doc "vouchers" "V1" r.2) = [earlier])
  ∧ (r'.1 = Alert "Success" "Comment added successfully"
     ∧ comments_of (doc "vouchers" "V1" r'.2)
       = [newComment commented (Some (profile "Vic")) "Looks fine"
            1700000300000]
     ∧ earlier ∉ comments_of (doc "vouchers" "V1" r'.2)).
Proof.
  intros fresh stale r r'.
  assert (Hc : comments_of (doc "vouchers" "V1" r'.2)
               = [newComment commented (Some (profile "Vic")) "Looks fine"
                    1700000300000]) by (vm_compute; reflexivity).
  split; [vm_compute; reflexivity|].
  split; [split; vm_compute; reflexivity|].
  split; [vm_compute; reflexivity|]. split; [exact Hc|].
  rewrite Hc. intros [Heq|Hin]%elem_of_cons; [discriminate | by apply elem_of_nil in Hin].
Qed.

End comments.

(** ** The publisher's list *)

Section publisher_list.
Import PublisherScreen Sample.

(** C5 (as the code has it).  [fetchVouchers] only reads: it returns the
    world it was given, and the same rows when called again.  The rows
    are those of the receipts whose status is [payment_initiated] and
    that have a [createdAt] field, each once, in reverse order of
    [createdAt] (ties in reverse order of document id): a row that comes
    earlier was created no earlier. *)
Theorem fetchVouchers_by_createdAt w :
  let r := fetchVouchers w in
  r.2 = w
  ∧ fetchVouchers r.2 = r
  ∧ ∃ l, r.1 = Firestore.row <$> l
         ∧ NoDup l
         ∧ Spec.by_createdAt l
         ∧ (∀ id d, (id, d) ∈ l
              ↔ Firestore.collection (db w) "receipts" !! id = Some d
                ∧ d !! "status" = Some (VStr "payment_initiated")
                ∧ is_Some (d !! "createdAt"))
         ∧ (∀ l1 x l2 y l3, l = (l1 ++ x :: l2 ++ y :: l3)%list →
              Firestore.value_le (Firestore.key "createdAt" y.2)
                                 (Firestore.key "createdAt" x.2)).
Proof.
  intros r. split; [done|]. split; [done|].
  eexists. split; [reflexivity|]. split; [apply NoDup_getDocs_where_desc|].
  split; [apply sorted_getDocs_where_desc|].
  split; [intros id d; apply elem_of_getDocs_where_desc|].
  intros l1 x l2 y l3 Hl.
  pose proof (sorted_getDocs_where_desc
                (Firestore.collection (db w) "receipts") "status"
                (VStr "payment_initiated") "createdAt") as Hsorted.
  rewrite Hl in Hsorted.
  apply StronglySorted_app_1_r, StronglySorted_cons in Hsorted as [Hall _].
  rewrite Forall_forall in Hall.
  destruct (Hall y) as [Hle _]; [|exact Hle].
  apply elem_of_app. right. by left.
Qed.

(** C5 (as the specification words it) fails: [R1] changed status last
    but was created first, and is listed after [R2]. *)
Lemma fetchVouchers_not_by_last_status_change :
  (fetchVouchers world).1
  = [row_of "receipts" "R2" world; row_of "receipts" "R1" world]
  ∧ (Spec.changed changedAt (row_of "receipts" "R2" world)
     < Spec.changed changedAt (row_of "receipts" "R1" world))%N
  ∧ ¬ Spec.by_last_status_change changedAt (fetchVouchers world).1.
Proof.
  assert (Hrows : (fetchVouchers world).1
                  = [row_of "receipts" "R2" world;
                     row_of "receipts" "R1" world])
    by (vm_compute; reflexivity).
  split; [exact Hrows|]. split; [vm_compute; reflexivity|].
  rewrite Hrows. unfold Spec.by_last_status_change.
  intros [Hall _]%StronglySorted_cons.
  apply Forall_cons in Hall as [Hle _]. revert Hle. vm_compute. auto.
Qed.

End publisher_list.

(** ** The sign-in gate *)

Section sign_in_gate.
Import AuthContext AuthLoadingScreen Sample.

Lemma heldBack_true data :
  heldBack data = true
  ↔ truthy (data !! "pending") = true ∨ truthy (data !! "designation") = false.
Proof.
  unfold heldBack. rewrite orb_true_iff, negb_true_iff. done.
Qed.

Lemma heldBack_false data :
  heldBack data = false
  ↔ truthy (data !! "pending") = false ∧ truthy (data !! "designation") = true.
Proof.
  unfold heldBack. rewrite orb_false_iff, negb_false_iff. done.
Qed.

(** C8.  When the credentials are accepted and the profile fetched for the
    user has [pending] set or has no designation, [signIn] signs the user
    out again and throws the pending-approval error; so a [signIn] that
    returns a profile returns the stored profile of a user that is not
    pending and has a designation, and leaves that user signed in.  The
    routing screen applies the same test to a loaded profile: it logs such
    a user out, and it routes to a role screen only users that pass. *)
Theorem signIn_gate email password s w :
  let r := signIn email password s w in
  (∀ user data,
     signInWithEmailAndPassword email password w = Some user →
     fetchUserData user w = Some data →
     truthy (data !! "pending") = true
     ∨ truthy (data !! "designation") = false →
     r.1.1 = Throw pendingMessage
     ∧ authUser r.2 = None
     ∧ currentUser r.1.2 = None
     ∧ error r.1.2 = Some pendingMessage)
  ∧ (∀ data,
       r.1.1 = Ok data →
       ∃ user, signInWithEmailAndPassword email password w = Some user
               ∧ fetchUserData user w = Some data
               ∧ truthy (data !! "pending") = false
               ∧ truthy (data !! "designation") = true
               ∧ authUser r.2 = Some user)
  ∧ (∀ s' w' user data,
       isLoading s' = false → currentUser s' = Some user →
       userData s' = Some data →
       truthy (data !! "pending") = true
       ∨ truthy (data !! "designation") = false →
       let e := effect s' w' in
       e.1.1 = LogoutThenLogin ∧ authUser e.2 = None
       ∧ currentUser e.1.2 = None)
  ∧ (∀ s' screen,
       route s' = Replace screen → screen ≠ "Splash" →
       ∃ data, userData s' = Some data
               ∧ truthy (data !! "pending") = false
               ∧ truthy (data !! "designation") = true).
Proof.
  intros r. split; [|split; [|split]].
  - intros user data Hsign Hfetch Hheld%heldBack_true.
    unfold r, signIn. rewrite Hsign.
    change (fetchUserData user (set_authUser (Some user) w))
      with (fetchUserData user w).
    rewrite Hfetch, Hheld. done.
  - intros data. unfold r, signIn.
    destruct (signInWithEmailAndPassword email password w) as [user|];
      [|discriminate].
    change (fetchUserData user (set_authUser (Some user) w))
      with (fetchUserData user w).
    destruct (fetchUserData user w) as [data'|] eqn:Hfetch; [|discriminate].
    destruct (heldBack data') eqn:Hheld; [discriminate|].
    simpl. intros [= <-]. exists user.
    apply heldBack_false in Hheld as [? ?]. done.
  - intros s' w' user data Hload Huser Hdata Hheld%heldBack_true e.
    unfold e, effect, route. rewrite Hload, Huser, Hdata, Hheld. done.
  - intros s' screen. unfold route.
    destruct (isLoading s'); [discriminate|].
    destruct (currentUser s'); [|intros [= <-]; done].
    destruct (userData s') as [data|]; [|discriminate].
    destruct (heldBack data) eqn:Hheld; [discriminate|].
    intros _ _. exists data. apply heldBack_false in Hheld as [? ?]. done.
Qed.

Lemma signIn_gate_witness :
  let held := signIn "noor@acme.test" "secret" signedOut world in
  let passed := signIn "pat@acme.test" "secret" signedOut world in
  (truthy (doc "users" "uid-new" world !! "pending") = true
   ∧ truthy (doc "users" "uid-payee" world !! "pending") = false
   ∧ truthy (doc "users" "uid-payee" world !! "designation") = true)
  ∧ held.1.1 = Throw pendingMessage
  ∧ authUser held.2 = None
  ∧ passed.1.1 = Ok (doc "users" "uid-payee" world)
  ∧ ∃ user, authUser passed.2 = Some user ∧ uid user = "uid-payee".
Proof.
  intros held passed.
  split; [repeat split; vm_compute; reflexivity|].
  destruct (signIn_gate "noor@acme.test" "secret" signedOut world)
    as (Hheld & _).
  destruct (Hheld {| uid := "uid-new"; email := Some "noor@acme.test" |}
              (doc "users" "uid-new" world))
    as (Hthrow & Hout & _);
    [vm_compute; reflexivity | vm_compute; reflexivity
    | left; vm_compute; reflexivity |].
  split; [exact Hthrow|]. split; [exact Hout|].
  assert (Hok : passed.1.1 = Ok (doc "users" "uid-payee" world))
    by (vm_compute; reflexivity).
  split; [exact Hok|].
  destruct (signIn_gate "pat@acme.test" "secret" signedOut world)
    as (_ & Hpass & _).
  destruct (Hpass _ Hok) as (user & Hsign & _ & _ & _ & Hin).
  exists user. split; [exact Hin|].
  revert Hsign. vm_compute. by intros [= <-].
Defined.

End sign_in_gate.

(** * Further properties of the code *)

(** ** Signing up *)

Section sign_up.
Import AuthContext Sample Scenario.

Lemma defined_userData_pending user email data now :
  AuthProvider.defined (AuthProvider.userData user email data now) !! "pending"
  = Some (VBool true).
Proof.
  unfold AuthProvider.defined, AuthProvider.userData.
  destruct (AuthProvider.designation data), (AuthProvider.company data),
    (AuthProvider.bank data); simpl; by simplify_map_eq.
Qed.

Lemma heldBack_defined_userData user email data now :
  heldBack (AuthProvider.defined (AuthProvider.userData user email data now))
  = true.
Proof. unfold heldBack. by rewrite defined_userData_pending. Qed.

(** What a [signUp] that returns has done. *)
Lemma signUp_Ok email password data assigned ignoreUndefined listenerLast
    now s w d s1 w1 :
  AuthProvider.signUp email password data assigned ignoreUndefined
    listenerLast now s w
  = (Ok d, s1, w1) →
  ∃ newUid,
    let user := {| uid := newUid; email := Some email |} in
    assigned = Some newUid
    ∧ accounts w !! email = None
    ∧ d = AuthProvider.defined (AuthProvider.userData user email data now)
    ∧ accounts w1 = <[email := (password, user)]> (accounts w)
    ∧ authUser w1 = Some user
    ∧ db w1 = <["users" := <[newUid := d]> (Firestore.collection (db w) "users")]>
                (db w)
    ∧ currentUser s1 = Some user
    ∧ userData s1
      = (if listenerLast then Firestore.collection (db w) "users" !! newUid
         else Some d)
    ∧ isLoading s1 = false.
Proof.
  unfold AuthProvider.signUp, AuthProvider.createUserWithEmailAndPassword,
    AuthProvider.rethrow, AuthProvider.set. cbv zeta.
  destruct (accounts w !! email) eqn:Hacc; [intros; simplify_eq|].
  destruct assigned as [newUid|]; [|intros; simplify_eq].
  destruct (negb ignoreUndefined && _); [intros; simplify_eq|].
  intros [= <- <- <-]. exists newUid.
  destruct listenerLast; repeat split; done.
Qed.

(** X1.  A user that has just signed up cannot sign in: whatever was
    entered in the sign-up form, [signIn] with the same credentials throws
    the pending-approval error and leaves nobody signed in. *)
Theorem signUp_then_signIn_held_back email password data assigned
    ignoreUndefined listenerLast now s w d s1 w1 s2 :
  AuthProvider.signUp email password data assigned ignoreUndefined
    listenerLast now s w
  = (Ok d, s1, w1) →
  let r := signIn email password s2 w1 in
  r.1.1 = Throw pendingMessage ∧ authUser r.2 = None
  ∧ currentUser r.1.2 = None ∧ db r.2 = db w1.
Proof.
  intros (newUid & _ & _ & -> & Hacc & _ & Hdb & _)%signUp_Ok r.
  unfold r, signIn, signInWithEmailAndPassword.
  rewrite Hacc, lookup_insert_eq, bool_decide_true by done.
  unfold fetchUserData. cbn [db set_authUser uid]. rewrite Hdb.
  rewrite collection_insert_eq, lookup_insert_eq.
  by rewrite heldBack_defined_userData.
Qed.

Lemma signUp_then_signIn_held_back_witness :
  let r := signIn "sam@acme.test" "secret" signedOut signedUp.2 in
  signedUp = (Ok samProfile, signedUp.1.2, signedUp.2)
  ∧ r.1.1 = Throw pendingMessage ∧ authUser r.2 = None
  ∧ currentUser r.1.2 = None ∧ db r.2 = db signedUp.2.
Proof.
  assert (H : signedUp = (Ok samProfile, signedUp.1.2, signedUp.2))
    by (vm_compute; reflexivity).
  split; [exact H|].
  exact (signUp_then_signIn_held_back "sam@acme.test" "secret" newcomer
           (Some "uid-sam") true false 1700000000000 signedOut world
           samProfile signedUp.1.2 signedUp.2 signedOut H).
Defined.

(** X2.  After a [signUp] that returns, the new user is signed in and
    the profile stored is pending and not approved.  What the routing
    screen then does depends on which [setUserData] landed last.  When the
    session ends with the profile [signUp] set, the screen logs that user
    out again.  When the listener's result is the last to land, and it read
    before any profile was stored under the new uid, the session has no
    profile: the screen waits and the user stays signed in. *)
Theorem signUp_then_routed_out email password data newUid
    ignoreUndefined listenerLast now s w d s1 w1 :
  AuthProvider.signUp email password data (Some newUid) ignoreUndefined
    listenerLast now s w
  = (Ok d, s1, w1) →
  is_Some (authUser w1)
  ∧ Firestore.collection (db w1) "users" !! newUid = Some d
  ∧ d !! "pending" = Some (VBool true) ∧ d !! "approved" = Some (VBool false)
  ∧ (listenerLast = false →
     let e := AuthLoadingScreen.effect s1 w1 in
     e.1.1 = AuthLoadingScreen.LogoutThenLogin ∧ authUser e.2 = None)
  ∧ (listenerLast = true →
     Firestore.collection (db w) "users" !! newUid = None →
     AuthLoadingScreen.effect s1 w1 = (AuthLoadingScreen.Wait, s1, w1)).
Proof.
  intros (uid' & [= <-] & _ & -> & _ & Hauth & Hdb & Hcur & Hdata & Hload)
    %signUp_Ok.
  split; [by rewrite Hauth|].
  split; [by rewrite Hdb, collection_insert_eq, lookup_insert_eq|].
  split; [apply defined_userData_pending|]. split; [|split].
  - unfold AuthProvider.defined, AuthProvider.userData.
    destruct (AuthProvider.designation data), (AuthProvider.company data),
      (AuthProvider.bank data); simpl; by simplify_map_eq.
  - intros ->. unfold AuthLoadingScreen.effect, AuthLoadingScreen.route.
    by rewrite Hload, Hcur, Hdata, heldBack_defined_userData.
  - intros -> Hnone. unfold AuthLoadingScreen.effect, AuthLoadingScreen.route.
    by rewrite Hload, Hcur, Hdata, Hnone.
Qed.

Lemma signUp_then_routed_out_witness :
  let e := AuthLoadingScreen.effect signedUp.1.2 signedUp.2 in
  (signedUp = (Ok samProfile, signedUp.1.2, signedUp.2)
   ∧ signedUpLate = (Ok samProfile, signedUpLate.1.2, signedUpLate.2)
   ∧ Firestore.collection (db world) "users" !! "uid-sam" = None)
  ∧ (e.1.1 = AuthLoadingScreen.LogoutThenLogin ∧ authUser e.2 = None)
  ∧ AuthLoadingScreen.effect signedUpLate.1.2 signedUpLate.2
    = (AuthLoadingScreen.Wait, signedUpLate.1.2, signedUpLate.2)
  ∧ authUser signedUpLate.2 = Some sam.
Proof.
  assert (H : signedUp = (Ok samProfile, signedUp.1.2, signedUp.2))
    by (vm_compute; reflexivity).
  assert (H' : signedUpLate = (Ok samProfile, signedUpLate.1.2, signedUpLate.2))
    by (vm_compute; reflexivity).
  assert (Hnone : Firestore.collection (db world) "users" !! "uid-sam" = None)
    by (vm_compute; reflexivity).
  split; [by repeat split|].
  destruct (signUp_then_routed_out "sam@acme.test" "secret" newcomer
              "uid-sam" true false 1700000000000 signedOut world
              samProfile signedUp.1.2 signedUp.2 H)
    as (_ & _ & _ & _ & Hout & _).
  destruct (signUp_then_routed_out "sam@acme.test" "secret" newcomer
              "uid-sam" true true 1700000000000 signedOut world
              samProfile signedUpLate.1.2 signedUpLate.2 H')
    as (_ & _ & _ & _ & _ & Hwait).
  split; [exact (Hout eq_refl)|]. split; [exact (Hwait eq_refl Hnone)|].
  vm_compute. reflexivity.
Defined.

(** X3.  A [signUp] that throws has written nothing to the database; when
    the e-mail already has an account it has changed nothing at all and
    reports that the e-mail is in use. *)
Theorem signUp_failure email password data assigned ignoreUndefined
    listenerLast now s w :
  let r := AuthProvider.signUp email password data assigned ignoreUndefined
             listenerLast now s w in
  (∀ message, r.1.1 = Throw message →
     db r.2 = db w ∧ storage r.2 = storage w
     ∧ error r.1.2 = Some (if bool_decide (message = "")
                           then "An error occurred during sign up"
                           else message))
  ∧ (is_Some (accounts w !! email) →
     r.1.1 = Throw "auth/email-already-in-use" ∧ r.2 = w).
Proof.
  intros r. unfold r, AuthProvider.signUp,
    AuthProvider.createUserWithEmailAndPassword, AuthProvider.rethrow,
    AuthProvider.set.
  split.
  - intros message.
    repeat (case_match; simplify_eq/=); intros [= <-]; done.
  - intros [a ->]. done.
Qed.

(** X4.  [signIn] for an account that has no profile throws, but does not
    sign the user out: the user stays signed in and the routing screen
    waits. *)
Theorem signIn_without_profile email password s w user :
  signInWithEmailAndPassword email password w = Some user →
  fetchUserData user w = None →
  let r := signIn email password s w in
  r.1.1 = Throw "Failed to fetch user data after login"
  ∧ authUser r.2 = Some user
  ∧ AuthLoadingScreen.route r.1.2 = AuthLoadingScreen.Wait.
Proof.
  intros Hsign Hfetch r. unfold r, signIn. rewrite Hsign.
  change (fetchUserData user (set_authUser (Some user) w))
    with (fetchUserData user w).
  rewrite Hfetch. split; [done|]. split; [done|].
  unfold AuthLoadingScreen.route. cbn.
  change (fetchUserData user (set_authUser (Some user) w))
    with (fetchUserData user w).
  by rewrite Hfetch.
Qed.

Lemma signIn_without_profile_witness :
  let r := signIn "pat@acme.test" "secret" signedOut unprofiled in
  (signInWithEmailAndPassword "pat@acme.test" "secret" unprofiled = Some pat
   ∧ fetchUserData pat unprofiled = None)
  ∧ r.1.1 = Throw "Failed to fetch user data after login"
  ∧ authUser r.2 = Some pat
  ∧ AuthLoadingScreen.route r.1.2 = AuthLoadingScreen.Wait.
Proof.
  assert (H1 : signInWithEmailAndPassword "pat@acme.test" "secret" unprofiled
               = Some pat) by (vm_compute; reflexivity).
  assert (H2 : fetchUserData pat unprofiled = None)
    by (vm_compute; reflexivity).
  split; [by split|].
  exact (signIn_without_profile "pat@acme.test" "secret" signedOut unprofiled
           pat H1 H2).
Defined.

End sign_up.

(** ** Receipt counts *)

Section receipt_counts.
Import AuthContext Sample Scenario.

Lemma foldl_count (l : list (string * Doc)) c :
  foldl AuthProvider.count c l
  = AuthProvider.mkCounts
      (AuthProvider.pending c + length (filter (has_status "pending") l))
      (AuthProvider.approved c + length (filter (has_status "approved") l))
      (AuthProvider.rejected c + length (filter (has_status "rejected") l)).
Proof.
  revert c. induction l as [|x l IH]; intros c.
  - destruct c. simpl. f_equal; lia.
  - simpl. rewrite IH. unfold AuthProvider.count.
    rewrite !filter_cons.
    repeat case_decide; repeat case_bool_decide; simpl;
      try (unfold has_status in *; congruence); f_equal; lia.
Qed.

Lemma NoDup_getDocs_where (col : Collection) f v :
  NoDup (Firestore.getDocs_where col f v).
Proof.
  unfold Firestore.getDocs_where. rewrite merge_sort_Permutation.
  apply NoDup_filter, NoDup_map_to_list.
Qed.

Lemma length_filter_status3 (l : list (string * Doc)) :
  (length (filter (has_status "pending") l)
   + length (filter (has_status "approved") l)
   + length (filter (has_status "rejected") l) ≤ length l)%nat.
Proof.
  induction l as [|x l IH]; [done|].
  rewrite !filter_cons.
  repeat case_decide; simpl; try lia; unfold has_status in *; congruence.
Qed.

(** X5.  For a signed-in user, [getReceiptCounts] returns, for each of the
    statuses pending, approved and rejected, the number of receipts that
    user created that have this status; receipts in any other status are
    counted nowhere, so the three counts add up to at most the number of the
    user's receipts. *)
Theorem getReceiptCounts_counts s w user :
  currentUser s = Some user →
  ∃ own : list (string * Doc),
    NoDup own
    ∧ (∀ id d, (id, d) ∈ own
         ↔ Firestore.collection (db w) "receipts" !! id = Some d
           ∧ d !! "createdBy" = Some (VStr (uid user)))
    ∧ AuthProvider.getReceiptCounts s w
      = AuthProvider.mkCounts
          (length (filter (has_status "pending") own))
          (length (filter (has_status "approved") own))
          (length (filter (has_status "rejected") own))
    ∧ (AuthProvider.pending (AuthProvider.getReceiptCounts s w)
       + AuthProvider.approved (AuthProvider.getReceiptCounts s w)
       + AuthProvider.rejected (AuthProvider.getReceiptCounts s w)
       ≤ length own)%nat.
Proof.
  intros Huser. unfold AuthProvider.getReceiptCounts. rewrite Huser.
  eexists. split; [apply NoDup_getDocs_where|].
  split; [intros id d; apply elem_of_getDocs_where|].
  rewrite foldl_count. simpl. split; [done|]. apply length_filter_status3.
Qed.

Lemma getReceiptCounts_counts_witness :
  AuthProvider.getReceiptCounts signedIn counted = AuthProvider.mkCounts 1 1 0
  ∧ ∃ own : list (string * Doc),
      NoDup own
      ∧ (∀ id d, (id, d) ∈ own
           ↔ Firestore.collection (db counted) "receipts" !! id = Some d
             ∧ d !! "createdBy" = Some (VStr "uid-creator"))
      ∧ AuthProvider.mkCounts 1 1 0
        = AuthProvider.mkCounts
            (length (filter (has_status "pending") own))
            (length (filter (has_status "approved") own))
            (length (filter (has_status "rejected") own))
      ∧ (1 + 1 + 0 ≤ length own)%nat.
Proof.
  assert (H : AuthProvider.getReceiptCounts signedIn counted
              = AuthProvider.mkCounts 1 1 0) by (vm_compute; reflexivity).
  split; [exact H|]. rewrite <-H.
  exact (getReceiptCounts_counts signedIn counted creator eq_refl).
Defined.

End receipt_counts.

(** ** Navigation *)

Section navigation.
Import AuthContext AuthLoadingScreen Sample Scenario.

(** The routing screen knows nine screens. *)
Lemma screenOf_range d :
  screenOf d
  ∈ ["SuperUser"; "Admin"; "Finance"; "Voucher"; "Checker"; "InitiatorScreen";
     "PaymentReleasorScreen"; "PayeeScreen"; "Home"].
Proof.
  unfold screenOf.
  repeat case_match; apply (bool_decide_unpack _); reflexivity.
Qed.


(** The screen of a role the edit dialog offers. *)
Lemma screenOf_roleOptions userType role :
  role ∈ SuperUserLists.roleOptions userType →
  role ≠ ""
  ∧ screenOf (Some (VStr role)) ≠ "Home"
  ∧ screenOf (Some (VStr role)) ≠ "Splash"
  ∧ screenOf (Some (VStr role)) ≠ "Login".
Proof.
  unfold SuperUserLists.roleOptions.
  repeat case_bool_decide; intros Hin;
    repeat (apply elem_of_cons in Hin as [->|Hin]); try done;
    by apply elem_of_nil in Hin.
Qed.

(** X7.  Every role the edit dialog offers opens the door: once
    [updateUser] has given a stored user one of the roles offered for the
    chosen user type, that user's [signIn] returns the profile, and the
    routing screen sends the user to the screen of the role, never to the
    default screen. *)
Theorem offered_role_reaches_its_screen user id d form now w
    email password account s :
  id_of user = Some id →
  Firestore.collection (db w) "users" !! id = Some d →
  SuperUserScreen.role form
    ∈ SuperUserLists.roleOptions (SuperUserScreen.userType form) →
  accounts w !! email = Some (password, account) →
  uid account = id →
  let w1 := (SuperUserScreen.updateUser (Some user) form now w).2 in
  let r := signIn email password s w1 in
  ∃ d', r.1.1 = Ok d'
        ∧ d' !! "designation" = Some (VStr (SuperUserScreen.role form))
        ∧ authUser r.2 = Some account
        ∧ route r.1.2
          = Replace (screenOf (Some (VStr (SuperUserScreen.role form))))
        ∧ screenOf (Some (VStr (SuperUserScreen.role form))) ≠ "Home".
Proof.
  intros Hid Hd Hrole Hacc Huid w1 r.
  destruct (screenOf_roleOptions _ _ Hrole) as (Hne & Hhome & _).
  destruct (updates_role form Hne) as (Hdes & Hpen & _).
  set (d' := SuperUserScreen.userFields w form now ∪ d).
  assert (Hw1 : w1 = set_db (<["users" := <[id := d']>
                  (Firestore.collection (db w) "users")]> (db w)) w).
  { unfold w1, SuperUserScreen.updateUser, handle, bind, get, ret, updateDoc.
    rewrite Hid. simpl. by rewrite (updateDoc_exists _ _ _ _ _ Hd). }
  assert (Hdes' : d' !! "designation" = Some (VStr (SuperUserScreen.role form))).
  { unfold d', SuperUserScreen.userFields. apply union_written.
    rewrite lookup_union_r; by simplify_map_eq. }
  assert (Hpen' : d' !! "pending" = Some (VBool false)).
  { unfold d', SuperUserScreen.userFields. apply union_written.
    rewrite lookup_union_r; by simplify_map_eq. }
  assert (Hheld : heldBack d' = false).
  { unfold heldBack. rewrite Hpen', Hdes'. simpl.
    by rewrite bool_decide_false. }
  exists d'. unfold r, signIn, signInWithEmailAndPassword.
  rewrite Hw1. cbn [accounts set_db]. rewrite Hacc, bool_decide_true by done.
  unfold fetchUserData. cbn [db set_db set_authUser].
  rewrite collection_insert_eq, Huid, lookup_insert_eq, Hheld.
  cbn. unfold route. cbn. rewrite Hheld, Hdes'. done.
Qed.

Lemma offered_role_reaches_its_screen_witness :
  let user := row_of "users" "uid-new" world in
  let w1 := (SuperUserScreen.updateUser (Some user) staffForm 1700000000000
               world).2 in
  let r := signIn "noor@acme.test" "secret" signedOut w1 in
  (id_of user = Some "uid-new"
   ∧ SuperUserScreen.role staffForm
     ∈ SuperUserLists.roleOptions (SuperUserScreen.userType staffForm))
  ∧ ∃ d', r.1.1 = Ok d'
          ∧ d' !! "designation" = Some (VStr "checker")
          ∧ authUser r.2
            = Some {| uid := "uid-new"; email := Some "noor@acme.test" |}
          ∧ AuthLoadingScreen.route r.1.2
            = AuthLoadingScreen.Replace
                (AuthLoadingScreen.screenOf (Some (VStr "checker")))
          ∧ AuthLoadingScreen.screenOf (Some (VStr "checker")) ≠ "Home".
Proof.
  intros user w1 r.
  assert (H1 : id_of user = Some "uid-new") by (vm_compute; reflexivity).
  assert (H2 : Firestore.collection (db world) "users" !! "uid-new"
               = Some (doc "users" "uid-new" world))
    by (vm_compute; reflexivity).
  assert (H3 : SuperUserScreen.role staffForm
               ∈ SuperUserLists.roleOptions (SuperUserScreen.userType staffForm))
    by (apply (bool_decide_unpack _); vm_compute; reflexivity).
  assert (H4 : accounts world !! "noor@acme.test"
               = Some ("secret",
                       {| uid := "uid-new"; email := Some "noor@acme.test" |}))
    by (vm_compute; reflexivity).
  split; [by split|].
  exact (offered_role_reaches_its_screen user "uid-new" _ staffForm
           1700000000000 world "noor@acme.test" "secret" _ signedOut
           H1 H2 H3 H4 eq_refl).
Defined.

(** X8.  The status the user list shows is never "Inactive"; it is
    "Active" exactly for the profiles the sign-in gate lets through and
    "Pending" for the others, also on the rows [fetchUsers] builds. *)
Theorem userStatus_is_the_gate (item : Doc) :
  SuperUserLists.userStatus item ≠ "Inactive"
  ∧ (SuperUserLists.userStatus item = "Active" ↔ heldBack item = false)
  ∧ (SuperUserLists.userStatus item = "Pending" ↔ heldBack item = true)
  ∧ (∀ id, heldBack (SuperUserLists.userRow (id, item)) = heldBack item).
Proof.
  unfold SuperUserLists.userStatus, heldBack.
  split; [|split; [|split]].
  - destruct (truthy (item !! "pending")), (truthy (item !! "designation"));
      done.
  - destruct (truthy (item !! "pending")), (truthy (item !! "designation"));
      done.
  - destruct (truthy (item !! "pending")), (truthy (item !! "designation"));
      done.
  - intros id. unfold SuperUserLists.userRow, Firestore.row. simpl.
    rewrite !lookup_insert_ne by done.
    rewrite !lookup_union_l by by simplify_map_eq. done.
Qed.

End navigation.

Section routing_range.
Import AuthContext AuthLoadingScreen.

(** X9.  The routing screen only ever goes to the splash screen or to one
    of nine role screens; it never goes to the publisher screen, and a
    signed-in, approved user whose designation is [publisher] is sent to the
    default screen. *)
Theorem route_never_publisher s :
  route s ≠ Replace "Publisher"
  ∧ (∀ screen, route s = Replace screen →
       screen ∈ ["Splash"; "SuperUser"; "Admin"; "Finance"; "Voucher";
                 "Checker"; "InitiatorScreen"; "PaymentReleasorScreen";
                 "PayeeScreen"; "Home"])
  ∧ (∀ user data,
       isLoading s = false → currentUser s = Some user →
       userData s = Some data → heldBack data = false →
       data !! "designation" = Some (VStr "publisher") →
       route s = Replace "Home").
Proof.
  assert (Hrange : ∀ screen, route s = Replace screen →
    screen ∈ ["Splash"; "SuperUser"; "Admin"; "Finance"; "Voucher";
              "Checker"; "InitiatorScreen"; "PaymentReleasorScreen";
              "PayeeScreen"; "Home"]).
  { intros screen. unfold route.
    destruct (isLoading s); [done|].
    destruct (currentUser s); [|intros [= <-]; by left].
    destruct (userData s) as [data|]; [|done].
    destruct (heldBack data); [done|]. intros [= <-]. right.
    apply screenOf_range. }
  split; [|split; [exact Hrange|]].
  - intros Heq. apply Hrange in Heq. revert Heq.
    apply (bool_decide_unpack _). reflexivity.
  - intros user data Hload Huser Hdata Hheld Hdes. unfold route.
    by rewrite Hload, Huser, Hdata, Hheld, Hdes.
Qed.

End routing_range.

(** ** Companies and users in the super-user screen *)

Section companies_and_users.
Import SuperUserScreen Sample Scenario.

Lemma elem_of_getDocs (col : Collection) id d :
  (id, d) ∈ SuperUserLists.getDocs col ↔ col !! id = Some d.
Proof.
  unfold SuperUserLists.getDocs. rewrite merge_sort_Permutation.
  apply elem_of_map_to_list.
Qed.

Lemma length_getDocs (col : Collection) :
  length (SuperUserLists.getDocs col) = size col.
Proof.
  unfold SuperUserLists.getDocs. rewrite merge_sort_Permutation.
  apply length_map_to_list.
Qed.

Lemma elem_of_getDocs_desc (col : Collection) o id d :
  (id, d) ∈ SuperUserLists.getDocs_desc col o
  ↔ col !! id = Some d ∧ is_Some (d !! o).
Proof.
  unfold SuperUserLists.getDocs_desc. rewrite merge_sort_Permutation.
  rewrite list_elem_of_filter, elem_of_map_to_list.
  unfold Firestore.hasField. naive_solver.
Qed.

(** What a run of [addCompany] with the required fields does. *)
Lemma addCompany_run form newId now w :
  SuperUserLists.name form ≠ "" →
  SuperUserLists.contactPerson form ≠ "" →
  SuperUserLists.contactEmail form ≠ "" →
  SuperUserLists.addCompany form newId now w
  = (Alert "Success" "Company added successfully",
     set_db (<["companies" :=
                 <[newId := SuperUserLists.companyFields w form now]>
                   (Firestore.collection (db w) "companies")]> (db w)) w).
Proof.
  intros H1 H2 H3. unfold SuperUserLists.addCompany.
  by rewrite !bool_decide_false by done.
Qed.

(** X10.  [addCompany] adds a company exactly when name, contact person
    and contact e-mail are not empty (white space counts as filled in);
    otherwise it reports the missing fields and changes nothing. *)
Theorem addCompany_required_fields form newId now w :
  let r := SuperUserLists.addCompany form newId now w in
  (r.1 = Alert "Success" "Company added successfully"
   ↔ SuperUserLists.name form ≠ ""
     ∧ SuperUserLists.contactPerson form ≠ ""
     ∧ SuperUserLists.contactEmail form ≠ "")
  ∧ (r.1 ≠ Alert "Success" "Company added successfully" →
     r.1 = Alert "Error" "Please fill in all required fields" ∧ r.2 = w).
Proof.
  intros r. unfold r, SuperUserLists.addCompany.
  repeat case_bool_decide; simpl; split; try done; naive_solver.
Qed.

(** X11.  After [addCompany] with the required fields, [fetchCompanies]
    lists the new company with the fields of the form, beside the
    companies it listed before under other ids and nothing else; with a
    fresh id the list is one longer.  No other collection changes. *)
Theorem addCompany_then_listed form newId now w :
  SuperUserLists.name form ≠ "" →
  SuperUserLists.contactPerson form ≠ "" →
  SuperUserLists.contactEmail form ≠ "" →
  let w1 := (SuperUserLists.addCompany form newId now w).2 in
  let before := SuperUserLists.getDocs (Firestore.collection (db w) "companies") in
  let after := SuperUserLists.getDocs (Firestore.collection (db w1) "companies") in
  SuperUserLists.fetchCompanies w1 = Firestore.row <$> after
  ∧ (∀ id d, (id, d) ∈ after
       ↔ (id = newId ∧ d = SuperUserLists.companyFields w form now)
         ∨ (id ≠ newId ∧ (id, d) ∈ before))
  ∧ (Firestore.collection (db w) "companies" !! newId = None →
     length (SuperUserLists.fetchCompanies w1)
     = S (length (SuperUserLists.fetchCompanies w)))
  ∧ (∀ c, c ≠ "companies" →
          Firestore.collection (db w1) c = Firestore.collection (db w) c).
Proof.
  intros H1 H2 H3 w1 before after.
  assert (Hw1 : Firestore.collection (db w1) "companies"
                = <[newId := SuperUserLists.companyFields w form now]>
                    (Firestore.collection (db w) "companies")).
  { unfold w1. rewrite addCompany_run by done. cbn [snd db set_db].
    by rewrite collection_insert_eq. }
  split; [done|]. split; [|split].
  - intros id d. unfold after, before. rewrite !elem_of_getDocs, Hw1.
    rewrite lookup_insert_Some. naive_solver.
  - intros Hfresh. unfold SuperUserLists.fetchCompanies.
    rewrite !length_fmap, !length_getDocs, Hw1.
    by apply map_size_insert_None.
  - intros c Hc. unfold w1. rewrite addCompany_run by done. cbn [snd db set_db].
    by rewrite collection_insert_ne.
Qed.

Lemma addCompany_then_listed_witness :
  let w1 := (SuperUserLists.addCompany companyForm "C3" 1700000000000 world).2 in
  let before :=
    SuperUserLists.getDocs (Firestore.collection (db world) "companies") in
  let after :=
    SuperUserLists.getDocs (Firestore.collection (db w1) "companies") in
  Firestore.collection (db world) "companies" !! "C3" = None
  ∧ SuperUserLists.fetchCompanies w1 = Firestore.row <$> after
  ∧ (∀ id d, (id, d) ∈ after
       ↔ (id = "C3"
          ∧ d = SuperUserLists.companyFields world companyForm 1700000000000)
         ∨ (id ≠ "C3" ∧ (id, d) ∈ before))
  ∧ length (SuperUserLists.fetchCompanies w1) = 3.
Proof.
  intros w1 before after.
  assert (Hfresh : Firestore.collection (db world) "companies" !! "C3" = None)
    by (vm_compute; reflexivity).
  destruct (addCompany_then_listed companyForm "C3" 1700000000000 world)
    as (Hlist & Hel & Hlen & _); [done..|].
  split; [exact Hfresh|]. split; [exact Hlist|]. split; [exact Hel|].
  etrans; [exact (Hlen Hfresh) | vm_compute; reflexivity].
Defined.

(** X12.  Adding a company and deleting it again leaves every collection
    as it was, provided the id was not in use and no user named it. *)
Theorem addCompany_then_deleteCompany form newId now companyName w :
  SuperUserLists.name form ≠ "" →
  SuperUserLists.contactPerson form ≠ "" →
  SuperUserLists.contactEmail form ≠ "" →
  Firestore.collection (db w) "companies" !! newId = None →
  (∀ u d, Firestore.collection (db w) "users" !! u = Some d →
          d !! "company" ≠ Some (VStr newId)) →
  let w1 := (SuperUserLists.addCompany form newId now w).2 in
  let r := deleteCompany newId companyName Delete w1 in
  r.1 = Alert "Success" "Company deleted successfully"
  ∧ ∀ c, Firestore.collection (db r.2) c = Firestore.collection (db w) c.
Proof.
  intros H1 H2 H3 Hfresh Hnone w1 r.
  destruct (deleteCompany_run newId companyName w1)
    as (db' & Hrun & Hcompanies & Husers & Hothers).
  unfold r. rewrite Hrun. cbn [fst snd db set_db]. split; [done|].
  assert (Hc1 : ∀ c, c ≠ "companies" →
            Firestore.collection (db w1) c = Firestore.collection (db w) c).
  { intros c Hc. unfold w1. rewrite addCompany_run by done.
    cbn [snd db set_db]. by rewrite collection_insert_ne. }
  intros c. destruct (decide (c = "companies")) as [->|Hc].
  { rewrite Hcompanies. unfold w1. rewrite addCompany_run by done.
    cbn [snd db set_db]. rewrite collection_insert_eq.
    by rewrite delete_insert_id. }
  destruct (decide (c = "users")) as [->|Hu].
  { apply map_eq. intros u. rewrite Husers, Hc1 by done.
    destruct (Firestore.collection (db w) "users" !! u) as [d|] eqn:Hd; [|done].
    simpl. rewrite decide_False; [done|]. by apply (Hnone u). }
  rewrite Hothers by done. by apply Hc1.
Qed.

Lemma addCompany_then_deleteCompany_witness :
  let w1 := (SuperUserLists.addCompany companyForm "C3" 1700000000000 world).2 in
  let r := SuperUserScreen.deleteCompany "C3" "Initech" SuperUserScreen.Delete
             w1 in
  Firestore.collection (db world) "companies" !! "C3" = None
  ∧ is_Some (Firestore.collection (db w1) "companies" !! "C3")
  ∧ r.1 = Alert "Success" "Company deleted successfully"
  ∧ ∀ c, Firestore.collection (db r.2) c = Firestore.collection (db world) c.
Proof.
  intros w1 r.
  assert (Hfresh : Firestore.collection (db world) "companies" !! "C3" = None)
    by (vm_compute; reflexivity).
  assert (Husers : ∀ u d, Firestore.collection (db world) "users" !! u = Some d →
                          d !! "company" ≠ Some (VStr "C3")).
  { intros u d.
    change (Firestore.collection (db world) "users") with users.
    unfold users. intros Hu.
    apply lookup_insert_Some in Hu as [[_ <-]|[_ Hu]]; [done|].
    apply lookup_singleton_Some in Hu as [_ <-]. done. }
  split; [exact Hfresh|]. split; [by eexists|].
  exact (addCompany_then_deleteCompany companyForm "C3" 1700000000000
           "Initech" world ltac:(done) ltac:(done) ltac:(done) Hfresh Husers).
Defined.

End companies_and_users.

Section super_user_frames.
Import SuperUserScreen.

(** X13.  [deleteCompany] changes no field of any user but [company], and
    no document of any collection other than companies and users: the
    records that name the company keep naming it.  Of the companies it
    removes the one and keeps the others. *)
Theorem deleteCompany_frame companyId companyName pressed w :
  let r := deleteCompany companyId companyName pressed w in
  storage r.2 = storage w
  ∧ (∀ c id k, c ≠ "companies" → k ≠ "company" →
       Firestore.collection (db r.2) c !! id ≫= (.!! k)
       = Firestore.collection (db w) c !! id ≫= (.!! k))
  ∧ (∀ c, c ≠ "companies" → c ≠ "users" →
       Firestore.collection (db r.2) c = Firestore.collection (db w) c)
  ∧ (∀ id, id ≠ companyId →
       Firestore.collection (db r.2) "companies" !! id
       = Firestore.collection (db w) "companies" !! id).
Proof.
  intros r. destruct pressed; [done|].
  destruct (deleteCompany_run companyId companyName w)
    as (db' & Hrun & Hcompanies & Husers & Hothers).
  unfold r. rewrite Hrun. cbn [snd db set_db storage].
  split; [done|]. split; [|split; [exact Hothers|]].
  - intros c id k Hc Hk. destruct (decide (c = "users")) as [->|Hu].
    + rewrite Husers.
      destruct (Firestore.collection (db w) "users" !! id) as [d|]; [|done].
      simpl. case_decide; [|done]. apply union_frame. by simplify_map_eq.
    + by rewrite Hothers.
  - intros id Hid. rewrite Hcompanies. by apply lookup_delete_ne.
Qed.

(** X14.  Deleting a company a second time changes nothing more: every
    collection is as the first deletion left it. *)
Theorem deleteCompany_twice companyId companyName companyName' w :
  let r1 := deleteCompany companyId companyName Delete w in
  let r2 := deleteCompany companyId companyName' Delete r1.2 in
  r2.1 = Alert "Success" "Company deleted successfully"
  ∧ ∀ c, Firestore.collection (db r2.2) c = Firestore.collection (db r1.2) c.
Proof.
  intros r1 r2.
  destruct (deleteCompany_run companyId companyName w)
    as (db1 & Hrun1 & Hcompanies1 & Husers1 & Hothers1).
  assert (Hr1 : r1.2 = set_db db1 w) by (unfold r1; by rewrite Hrun1).
  destruct (deleteCompany_run companyId companyName' r1.2)
    as (db2 & Hrun2 & Hcompanies2 & Husers2 & Hothers2).
  unfold r2. rewrite Hrun2. cbn [fst snd db set_db]. split; [done|].
  intros c. destruct (decide (c = "companies")) as [->|Hc].
  { rewrite Hcompanies2, Hr1. cbn [db set_db]. rewrite Hcompanies1.
    by rewrite delete_delete_eq. }
  destruct (decide (c = "users")) as [->|Hu]; [|by apply Hothers2].
  apply map_eq. intros u. rewrite Husers2, Hr1. cbn [db set_db].
  rewrite Husers1.
  destruct (Firestore.collection (db w) "users" !! u) as [d|]; [|done].
  simpl. f_equal.
  destruct (decide (d !! "company" = Some (VStr companyId))) as [Hco|Hco].
  - rewrite decide_False; [done|].
    rewrite union_written with (v := VNull); [done | by simplify_map_eq].
  - by rewrite decide_False.
Qed.

Lemma userFields_other w form now k :
  k ∉ ["company"; "bank"; "designation"; "pending"; "approved";
       "updatedAt"; "updatedBy"] →
  userFields w form now !! k = None.
Proof.
  intros Hk. repeat (apply not_elem_of_cons in Hk as [? Hk]).
  unfold userFields, updates. rewrite !lookup_union_None.
  repeat split; repeat case_match; by simplify_map_eq.
Qed.

(** X15.  [updateUser] touches the selected user only, and of that user
    only [company], [bank], [designation], [pending], [approved],
    [updatedAt] and [updatedBy]: name, e-mail, contact and every other
    field keep their values.  When the selected user is not stored any more
    it reports an error and changes nothing. *)
Theorem updateUser_frame sel form now w :
  let r := updateUser sel form now w in
  storage r.2 = storage w
  ∧ (∀ c id, (c ≠ "users" ∨ Some id ≠ sel ≫= id_of) →
       Firestore.collection (db r.2) c !! id
       = Firestore.collection (db w) c !! id)
  ∧ (∀ c id k,
       k ∉ ["company"; "bank"; "designation"; "pending"; "approved";
            "updatedAt"; "updatedBy"] →
       Firestore.collection (db r.2) c !! id ≫= (.!! k)
       = Firestore.collection (db w) c !! id ≫= (.!! k))
  ∧ (∀ user id, sel = Some user → id_of user = Some id →
       Firestore.collection (db w) "users" !! id = None →
       r = (Alert "Error" "Could not update user. Please try again.", w)).
Proof.
  intros r.
  destruct (updateUser_cases sel form now w) as [Hst Hdb]. fold r in Hst, Hdb.
  split; [done|]. split; [|split].
  - intros c id Hne.
    destruct Hdb as [-> | (user & id' & d & -> & Hid & Hd & _ & ->)]; [done|].
    rewrite single_update_lookup. case_decide as Heq; [|done].
    destruct Heq as [<- <-]. simpl in Hne. rewrite Hid in Hne.
    by destruct Hne.
  - intros c id k Hk.
    destruct Hdb as [-> | (user & id' & d & -> & Hid & Hd & _ & ->)]; [done|].
    rewrite single_update_lookup. case_decide as Heq; [|done].
    destruct Heq as [<- <-]. rewrite Hd. simpl.
    apply union_frame. by apply userFields_other.
  - intros user id -> Hid Hnone.
    unfold r, updateUser, handle, bind, get, ret, updateDoc.
    rewrite Hid. simpl. by rewrite (updateDoc_missing _ _ _ _ Hnone).
Qed.

End super_user_frames.

(** ** Lists after an update *)

Section lists_after_update.
Import Firestore.

Lemma StronglySorted_filter {A} (R : relation A) (P : A → Prop)
    `{∀ x, Decision (P x)} l :
  StronglySorted R l → StronglySorted R (filter P l).
Proof.
  induction 1 as [|x l Hl IH Hx]; [constructor|].
  rewrite filter_cons. case_decide; [|done].
  constructor; [done|]. rewrite Forall_forall in *.
  intros y [_ Hy]%list_elem_of_filter. auto.
Qed.

(** Two sorted lists of documents with the same elements are equal. *)
Lemma query_unique o (l1 l2 : list (string * Doc)) :
  StronglySorted (desc o) l1 → StronglySorted (desc o) l2 →
  NoDup l1 → NoDup l2 → (∀ x, x ∈ l1 ↔ x ∈ l2) →
  (∀ x y, x ∈ l1 → y ∈ l1 → x.1 = y.1 → x = y) →
  l1 = l2.
Proof.
  intros Hs1 Hs2 Hn1 Hn2 Hel Hfun.
  assert (Hperm : l1 ≡ₚ l2) by by apply NoDup_Permutation.
  refine (StronglySorted_unique_strong (desc o) l1 l2 _ Hs1 Hs2 Hperm).
  intros x y Hx Hy Hxy Hyx. apply Hfun; [done|by apply Hel|].
  unfold desc, flip, asc, lex in Hxy, Hyx.
  destruct Hxy as [Hk1 Hi1], Hyx as [Hk2 Hi2].
  apply (anti_symm String.le); auto.
Qed.

Lemma query_functional (col : Collection) f v o x y :
  x ∈ getDocs_where_desc col f v o → y ∈ getDocs_where_desc col f v o →
  x.1 = y.1 → x = y.
Proof.
  destruct x as [i d], y as [j e]. simpl.
  intros [Hd _]%elem_of_getDocs_where_desc [He _]%elem_of_getDocs_where_desc <-.
  congruence.
Qed.

(** An update that makes the document fail the [where] clause removes it
    from the list and leaves the rest of the list as it was. *)
Lemma query_update_out (col : Collection) id d d' f v o :
  col !! id = Some d → d' !! f ≠ Some v →
  getDocs_where_desc (<[id := d']> col) f v o
  = filter (λ x, x.1 ≠ id) (getDocs_where_desc col f v o).
Proof.
  intros Hd Hf. apply (query_unique o).
  - apply sorted_getDocs_where_desc.
  - apply StronglySorted_filter, sorted_getDocs_where_desc.
  - apply NoDup_getDocs_where_desc.
  - apply NoDup_filter, NoDup_getDocs_where_desc.
  - intros [i e]. rewrite list_elem_of_filter, !elem_of_getDocs_where_desc.
    rewrite lookup_insert_Some. simpl. naive_solver.
  - apply query_functional.
Qed.

(** An update that writes neither the field of the [where] clause nor the
    field of the [orderBy] clause leaves the list in place, with the
    document rewritten. *)
Lemma query_update_same (col : Collection) id d fields f v o :
  col !! id = Some d → fields !! f = None → fields !! o = None →
  getDocs_where_desc (<[id := fields ∪ d]> col) f v o
  = written id fields <$> getDocs_where_desc col f v o.
Proof.
  intros Hd Hf Ho. apply (query_unique o).
  - apply sorted_getDocs_where_desc.
  - apply (StronglySorted_fmap _ (desc o) (desc o)); [|apply sorted_getDocs_where_desc].
    intros x y. unfold desc, flip, asc, lex, written, key. simpl.
    assert (∀ z : string * Doc,
              (if decide (z.1 = id) then fields ∪ z.2 else z.2) !! o = z.2 !! o)
      as Hkey by (intros z; case_decide; [by apply union_frame|done]).
    by rewrite !Hkey.
  - apply NoDup_getDocs_where_desc.
  - apply NoDup_fmap_2_strong; [|apply NoDup_getDocs_where_desc].
    intros x y Hx Hy [= Heq _]. by eapply query_functional.
  - intros [i e]. rewrite list_elem_of_fmap, elem_of_getDocs_where_desc.
    rewrite lookup_insert_Some. unfold written. split.
    + intros [[[<- <-]|[Hne He]] [Hfv Hov]].
      * exists (id, d). simpl. rewrite decide_True by done. split; [done|].
        apply elem_of_getDocs_where_desc.
        rewrite union_frame in Hfv, Hov by done. done.
      * exists (i, e). simpl. rewrite decide_False by done. split; [done|].
        by apply elem_of_getDocs_where_desc.
    + intros ([j e'] & [= -> ->] & (He' & Hfv & Hov)%elem_of_getDocs_where_desc).
      simpl. case_decide as Hj.
      * subst j. rewrite !union_frame by done.
        split; [left; split; [done|congruence]|done].
      * split; [right; done|done].
  - apply query_functional.
Qed.

Lemma written_fst id fields (l : list (string * Doc)) :
  (written id fields <$> l).*1 = l.*1.
Proof. rewrite <-list_fmap_compose. by apply list_fmap_ext. Qed.

End lists_after_update.

(** ** The voucher lists *)

Section voucher_lists.
Import VoucherScreen Sample Scenario.

Lemma voucherFields_other w ud url description tTicket tStamp k :
  k ∉ ["voucherUrl"; "status"; "processedBy"; "processedByName";
       "processedAt"; "description"; "ticketNumber"] →
  voucherFields w ud url description tTicket tStamp !! k = None.
Proof.
  intros Hk. repeat (apply not_elem_of_cons in Hk as [? Hk]).
  unfold voucherFields. by simplify_map_eq.
Qed.

Lemma paidFields_other w ud url tStamp k :
  k ∉ ["paidPdfUrl"; "status"; "publishedBy"; "publishedAt"] →
  PublisherScreen.paidFields w ud url tStamp !! k = None.
Proof.
  intros Hk. repeat (apply not_elem_of_cons in Hk as [? Hk]).
  unfold PublisherScreen.paidFields. by simplify_map_eq.
Qed.

(** X16.  A voucher creation that goes through takes the record out of
    the list of approved receipts and leaves the rest of that list as it
    was, in the same order.  The list of created vouchers keeps its
    records and its order (the creation writes neither [createdBy] nor
    [createdAt]): the record is in it afterwards only if it was in it
    before, now with the fields of the voucher. *)
Theorem submitVoucher_moves_record receipt id d form file n u bytes ud
    tFile tTicket tStamp w :
  id_of receipt = Some id →
  blank (description form) = false →
  voucherFile form = Some file →
  name file = Some n →
  VoucherScreen.uri file = Some u →
  files w !! u = Some bytes →
  online w = true →
  Firestore.collection (db w) "vouchers" !! id = Some d →
  let w1 := (submitVoucher (Some receipt) form ud tFile tTicket tStamp w).2 in
  let fields :=
    voucherFields w ud
      (downloadURL (storageFileName w tFile (fileExtension n)))
      (description form) tTicket tStamp in
  VoucherLists.fetchApprovedReceipts w1
  = VoucherLists.receiptRow <$>
      filter (λ x, x.1 ≠ id)
        (Firestore.getDocs_where_desc (Firestore.collection (db w) "vouchers")
           "status" (VStr "approved") "approvedAt")
  ∧ VoucherLists.fetchCreatedVouchers w1
    = Firestore.row <$>
        (written id fields <$>
           Firestore.getDocs_where_desc
             (Firestore.collection (db w) "vouchers")
             "createdBy" (VStr (uid_or w "")) "createdAt").
Proof.
  intros Hid Hdesc Hfile Hname Huri Hbytes Hon Hd w1 fields.
  pose proof (submitVoucher_run receipt form ud tFile tTicket tStamp w
                id d file n u bytes Hid Hdesc Hfile Hname Huri Hbytes Hon Hd)
    as Hrun.
  cbv zeta in Hrun.
  assert (Hcol : Firestore.collection (db w1) "vouchers"
                 = <[id := fields ∪ d]> (Firestore.collection (db w) "vouchers")).
  { unfold w1. rewrite Hrun. cbn [snd db set_db].
    by rewrite collection_insert_eq. }
  assert (Huid : uid_or w1 "" = uid_or w "").
  { unfold w1. by rewrite Hrun. }
  split.
  - unfold VoucherLists.fetchApprovedReceipts. rewrite Hcol.
    rewrite (query_update_out _ id d); [done..|].
    rewrite union_written with (v := VStr "voucher_created"); [done|].
    unfold fields, voucherFields. by simplify_map_eq.
  - unfold VoucherLists.fetchCreatedVouchers. rewrite Hcol, Huid.
    rewrite (query_update_same _ id d); [done..| |];
      apply voucherFields_other; apply (bool_decide_unpack _); reflexivity.
Qed.

Lemma submitVoucher_moves_record_witness :
  let receipt := row_of "vouchers" "V1" world in
  let w1 := (submitVoucher (Some receipt) form (Some (profile "Vic"))
               1700000123456 1700000123999 1700000124000 world).2 in
  (id_of receipt = Some "V1"
   ∧ files world !! "file:///voucher.pdf" = Some "%PDF-voucher"
   ∧ is_Some (Firestore.collection (db world) "vouchers" !! "V1"))
  ∧ VoucherLists.fetchApprovedReceipts world
    = VoucherLists.receiptRow <$>
        [("V2", approved "2024-05-02T09:00:00.000Z");
         ("V1", approved "2024-05-01T09:00:00.000Z")]
  ∧ VoucherLists.fetchApprovedReceipts w1
    = VoucherLists.receiptRow <$>
        [("V2", approved "2024-05-02T09:00:00.000Z")].
Proof.
  intros receipt w1.
  assert (H1 : id_of receipt = Some "V1") by (vm_compute; reflexivity).
  assert (H2 : files world !! "file:///voucher.pdf" = Some "%PDF-voucher")
    by (vm_compute; reflexivity).
  assert (H3 : Firestore.collection (db world) "vouchers" !! "V1"
               = Some (approved "2024-05-01T09:00:00.000Z"))
    by (vm_compute; reflexivity).
  split; [split; [exact H1 | split; [exact H2 | by eexists]]|].
  split; [vm_compute; reflexivity|].
  destruct (submitVoucher_moves_record receipt "V1" _ form _
              "voucher.pdf" "file:///voucher.pdf" "%PDF-voucher"
              (Some (profile "Vic"))
              1700000123456 1700000123999 1700000124000 world
              H1 eq_refl eq_refl eq_refl eq_refl H2 eq_refl H3)
    as [Happroved _].
  fold receipt w1 in Happroved. rewrite Happroved. vm_compute. reflexivity.
Defined.

(** X17.  No run of [addComment] changes which vouchers a list shows or
    their order, whatever the list filters and orders by, as long as it is
    not the comments. *)
Theorem addComment_keeps_lists sel comment ud now w f v o :
  f ≠ "comments" → o ≠ "comments" →
  let w1 := (addComment sel comment ud now w).2 in
  (Firestore.getDocs_where_desc (Firestore.collection (db w1) "vouchers") f v o).*1
  = (Firestore.getDocs_where_desc (Firestore.collection (db w) "vouchers") f v o).*1.
Proof.
  intros Hf Ho w1.
  destruct (addComment_cases sel comment ud now w)
    as [_ [Hdb|(voucher & id & d & _ & _ & _ & Hd & _ & Hdb)]];
    fold w1 in Hdb; rewrite Hdb; [done|].
  rewrite collection_insert_eq.
  rewrite (query_update_same _ id d); [|done|by simplify_map_eq..].
  apply written_fst.
Qed.

Lemma addComment_keeps_lists_witness :
  let voucher := row_of "vouchers" "V1" world in
  let w1 := (addComment (Some voucher) "Looks fine" (Some (profile "Vic"))
               1700000000000 world).2 in
  w1 ≠ world
  ∧ (Firestore.getDocs_where_desc (Firestore.collection (db w1) "vouchers")
       "status" (VStr "approved") "approvedAt").*1
    = ["V2"; "V1"].
Proof.
  intros voucher w1. split; [vm_compute; discriminate|].
  etrans; [|vm_compute; reflexivity].
  exact (addComment_keeps_lists (Some voucher) "Looks fine"
           (Some (profile "Vic")) 1700000000000 world
           "status" (VStr "approved") "approvedAt"
           ltac:(done) ltac:(done)).
Defined.

(** X18.  A voucher creation whose record is not stored any more uploads
    the file all the same: it reports the error of the update, which names
    the document, the database is as it was, and the attachment store
    holds an object that no record refers to. *)
Theorem submitVoucher_orphan_upload receipt id form file n u bytes ud
    tFile tTicket tStamp w :
  id_of receipt = Some id →
  blank (description form) = false →
  voucherFile form = Some file →
  name file = Some n →
  VoucherScreen.uri file = Some u →
  files w !! u = Some bytes →
  online w = true →
  Firestore.collection (db w) "vouchers" !! id = None →
  let r := submitVoucher (Some receipt) form ud tFile tTicket tStamp w in
  r.1 = Alert "Error"
          ("Failed to create voucher: No document to update: vouchers/"
             +:+ id)
  ∧ db r.2 = db w
  ∧ storage r.2
    = <[storageFileName w tFile (fileExtension n) := bytes]> (storage w).
Proof.
  intros Hid Hdesc Hfile Hname Huri Hbytes Hon Hnone r.
  unfold r, submitVoucher. rewrite Hdesc, Hfile. simpl.
  unfold handle, bind, get, ret, uploadVoucherFile, catch, bind, fetch,
    uploadBytes, getDownloadURL, updateDoc.
  rewrite Hname, Huri. simpl. rewrite Hbytes, Hon. simpl. rewrite Hon.
  rewrite lookup_insert_eq. rewrite Hid. simpl.
  by rewrite (updateDoc_missing _ _ _ _ Hnone).
Qed.

Lemma submitVoucher_orphan_upload_witness :
  let receipt := row_of "vouchers" "V9" world in
  let r := submitVoucher (Some receipt) form (Some (profile "Vic"))
             1700000123456 1700000123999 1700000124000 world in
  (id_of receipt = Some "V9"
   ∧ Firestore.collection (db world) "vouchers" !! "V9" = None)
  ∧ r.1 = Alert "Error"
            "Failed to create voucher: No document to update: vouchers/V9"
  ∧ db r.2 = db world
  ∧ storage r.2
    = <[storageFileName world 1700000123456 (fileExtension "voucher.pdf")
        := "%PDF-voucher"]> (storage world).
Proof.
  intros receipt r.
  assert (H1 : id_of receipt = Some "V9") by (vm_compute; reflexivity).
  assert (H2 : files world !! "file:///voucher.pdf" = Some "%PDF-voucher")
    by (vm_compute; reflexivity).
  assert (H3 : Firestore.collection (db world) "vouchers" !! "V9" = None)
    by (vm_compute; reflexivity).
  split; [by split|].
  exact (submitVoucher_orphan_upload receipt "V9" form _
           "voucher.pdf" "file:///voucher.pdf" "%PDF-voucher"
           (Some (profile "Vic"))
           1700000123456 1700000123999 1700000124000 world
           H1 eq_refl eq_refl eq_refl eq_refl H2 eq_refl H3).
Defined.

(** X19.  Whatever its arguments, [submitVoucher] changes no record but
    the selected one, and of that one only [voucherUrl], [status],
    [processedBy], [processedByName], [processedAt], [description] and
    [ticketNumber]: amount, bank details, receipt reference, [createdBy]
    and the comments keep their values. *)
Theorem submitVoucher_frame sel form ud tFile tTicket tStamp w :
  let r := submitVoucher sel form ud tFile tTicket tStamp w in
  (∀ c id, (c ≠ "vouchers" ∨ Some id ≠ sel ≫= id_of) →
     Firestore.collection (db r.2) c !! id
     = Firestore.collection (db w) c !! id)
  ∧ (∀ c id k,
       k ∉ ["voucherUrl"; "status"; "processedBy"; "processedByName";
            "processedAt"; "description"; "ticketNumber"] →
       Firestore.collection (db r.2) c !! id ≫= (.!! k)
       = Firestore.collection (db w) c !! id ≫= (.!! k)).
Proof.
  intros r.
  destruct (submitVoucher_cases sel form ud tFile tTicket tStamp w)
    as [_ Hdb]. fold r in Hdb. split.
  - intros c id Hne.
    destruct Hdb as [[-> _] | (receipt & id' & d & path & -> & Hid & Hd & _ & _ & ->)];
      [done|].
    rewrite single_update_lookup. case_decide as Heq; [|done].
    destruct Heq as [<- <-]. simpl in Hne. rewrite Hid in Hne. by destruct Hne.
  - intros c id k Hk.
    destruct Hdb as [[-> _] | (receipt & id' & d & path & -> & Hid & Hd & _ & _ & ->)];
      [done|].
    rewrite single_update_lookup. case_decide as Heq; [|done].
    destruct Heq as [<- <-]. rewrite Hd. simpl.
    apply union_frame. by apply voucherFields_other.
Qed.

End voucher_lists.

(** ** The voucher form *)

Section voucher_form.
Import VoucherScreen VoucherFormState.

(** The file the form holds never has a name. *)
Lemma foldl_apply_no_name events st :
  (∀ file, voucherFile (voucherForm st) = Some file → name file = None) →
  ∀ file, voucherFile (voucherForm (foldl apply st events)) = Some file →
          name file = None.
Proof.
  revert st. induction events as [|e events IH]; intros st Hst; [done|].
  simpl. apply IH. intros file.
  destruct e as [receipt|text|response|]; simpl.
  - done.
  - apply Hst.
  - unfold pickVoucherDocument. repeat case_match; simpl;
      try apply Hst; by intros [= <-].
  - unfold stopped. case_match; simpl; apply Hst.
Qed.

Lemma after_no_name events file :
  voucherFile (voucherForm (after events)) = Some file → name file = None.
Proof. by apply foldl_apply_no_name. Qed.

(** X20.  With a form filled in through the screen (opening the dialog,
    typing the description, picking a document, pressing the button), in
    any order and any number of times, [submitVoucher] never creates a
    voucher: the picker keeps the [uri] of the document only, so the call
    stops at the form errors or fails on the missing file name before
    anything is uploaded.  Database and attachment store are as they
    were. *)
Theorem submitVoucher_from_the_form events ud tFile tTicket tStamp w :
  let st := after events in
  let r := submitVoucher (selectedReceipt st) (voucherForm st) ud
             tFile tTicket tStamp w in
  r.2 = w
  ∧ r.1 ≠ Alert "Success" "Voucher created successfully!"
  ∧ (r.1 = Returned ∨ (∃ errors, r.1 = FormErrors errors)
     ∨ ∃ message, r.1 = Alert "Error" message).
Proof.
  intros st r. pose proof (after_no_name events) as Hname. fold st in Hname.
  unfold r, submitVoucher.
  destruct (selectedReceipt st) as [receipt|]; [|by eauto].
  destruct (voucherFile (voucherForm st)) as [file|] eqn:Hfile.
  - rewrite (Hname file eq_refl).
    destruct (blank (description (voucherForm st))); simpl; [by eauto 6|].
    unfold handle, bind, throw. simpl. by eauto 6.
  - rewrite orb_true_r. by eauto 6.
Qed.

End voucher_form.

(** ** The file extension *)

Section file_extension.
Import VoucherScreen.

Lemma no_dot_snoc cur c :
  c ≠ "."%char → (∀ p q, cur ≠ p +:+ "." +:+ q) →
  ∀ p q, cur +:+ String c "" ≠ p +:+ "." +:+ q.
Proof.
  intros Hc. unfold String.app.
  induction cur as [|a cur IH]; intros Hcur p q Heq.
  - destruct p as [|b p]; simpl in Heq; [congruence|].
    destruct p; simpl in Heq; discriminate.
  - destruct p as [|b p]; simpl in Heq.
    + injection Heq as -> _. by apply (Hcur "" cur).
    + injection Heq as -> Heq. apply (IH) in Heq; [done|].
      intros p' q' ->. by apply (Hcur (String b p') q').
Qed.

Lemma split_pop_no_dot s cur p q :
  (∀ p' q', cur ≠ p' +:+ "." +:+ q') → split_pop s cur ≠ p +:+ "." +:+ q.
Proof.
  revert cur p q. induction s as [|c s IH]; intros cur p q Hcur; simpl.
  - apply Hcur.
  - case_bool_decide as Hc.
    + apply IH. intros p' q'. by destruct p'.
    + apply IH. by apply no_dot_snoc.
Qed.

(** X21.  The extension [submitVoucher] gives the stored file is never
    empty and never contains a dot; for a name that ends in a dot followed
    by a non-empty extension without dots it is that extension, and for a
    name that ends in a dot it is [pdf]. *)
Theorem fileExtension_shape :
  (∀ n, fileExtension n ≠ "")
  ∧ (∀ n p q, fileExtension n ≠ p +:+ "." +:+ q)
  ∧ (∀ base ext, ext ≠ "" → (∀ p q, ext ≠ p +:+ "." +:+ q) →
       fileExtension (base +:+ "." +:+ ext) = ext)
  ∧ (∀ base, fileExtension (base +:+ ".") = "pdf").
Proof.
  assert (Hnil : ∀ p q, "" ≠ p +:+ "." +:+ q) by (intros [] ?; done).
  assert (Happ : ∀ s t cur, (∀ p q, t ≠ p +:+ "." +:+ q) →
            split_pop (s +:+ "." +:+ t) cur = t).
  { intros s t cur Ht. revert cur. induction s as [|c s IH]; intros cur.
    - change ("" +:+ "." +:+ t) with (String "." t). simpl.
      assert (∀ cur', split_pop t cur' = cur' +:+ t) as ->.
      { clear -Ht. induction t as [|a t IHt]; intros cur'; simpl.
        - clear. induction cur'; simpl; [done|]. unfold String.app in *.
          simpl. by f_equal.
        - rewrite bool_decide_false.
          2:{ intros ->. by apply (Ht "" t). }
          rewrite IHt.
          2:{ intros p q ->. by apply (Ht (String a p) q). }
          clear. induction cur'; simpl; [done|]. unfold String.app in *.
          simpl. by f_equal. }
      done.
    - change (String c s +:+ "." +:+ t) with (String c (s +:+ "." +:+ t)).
      simpl. case_bool_decide; apply IH. }
  unfold fileExtension. split; [|split; [|split]].
  - intros n. by case_bool_decide.
  - intros n p q. case_bool_decide as He.
    + intros Heq. unfold String.app in Heq.
      destruct p as [|? [|? [|? [|? ?]]]]; simpl in Heq; simplify_eq.
    + by apply split_pop_no_dot.
  - intros base ext Hext Hdot. rewrite Happ by done.
    by rewrite bool_decide_false.
  - intros base. replace (base +:+ ".") with (base +:+ "." +:+ "").
    + by rewrite Happ.
    + done.
Qed.

End file_extension.

(** ** The ticket numbers that collide *)

Section ticket_collisions.
Import VoucherScreen.

Lemma digit_mod n i : (i ≤ 5)%N → digit (n mod 1000000) i = digit n i.
Proof.
  intros Hi.
  transitivity (digit (n mod 1000000 + 1000000 * (n / 1000000)) i).
  - symmetry. by apply digit_period.
  - f_equal. pose proof (N.Div0.div_mod n 1000000). lia.
Qed.

Lemma digits6_inj n m :
  digits6 n = digits6 m → (n mod 1000000 = m mod 1000000)%N.
Proof.
  unfold digits6, digit. intros [= H5 H4 H3 H2 H1 H0].
  apply pretty_N_char_inj in H0, H1, H2, H3, H4, H5;
    try (apply N.mod_upper_bound; lia).
  change (10 ^ 0)%N with 1%N in *. change (10 ^ 1)%N with 10%N in *.
  change (10 ^ 2)%N with (10 * 10)%N in *.
  change (10 ^ 3)%N with (10 * (10 * 10))%N in *.
  change (10 ^ 4)%N with (10 * (10 * (10 * 10)))%N in *.
  change (10 ^ 5)%N with (10 * (10 * (10 * (10 * 10))))%N in *.
  rewrite !N.div_1_r in H0.
  change 1000000%N with (10 * (10 * (10 * (10 * (10 * 10)))))%N.
  rewrite <-!N.Div0.div_div in *.
  rewrite !N.Div0.mod_mul_r. congruence.
Qed.

(** X22.  Two clock readings give the same ticket number exactly when
    they agree in their last six digits: within any 1000 seconds, two
    vouchers created in different milliseconds get different numbers. *)
Theorem ticketNumber_same n m :
  (100000 ≤ n)%N → (100000 ≤ m)%N →
  (ticketNumber n = ticketNumber m ↔ n mod 1000000 = m mod 1000000)%N
  ∧ ((n < m < n + 1000000)%N → ticketNumber n ≠ ticketNumber m).
Proof.
  intros Hn Hm.
  assert (Hiff : ticketNumber n = ticketNumber m
                 ↔ (n mod 1000000 = m mod 1000000)%N).
  { rewrite !ticketNumber_digits6 by done. split.
    - intros Heq. unfold String.app in Heq. simpl in Heq.
      apply digits6_inj. congruence.
    - intros Heq. f_equal. unfold digits6.
      rewrite <-!(digit_mod n), <-!(digit_mod m) by lia. by rewrite Heq. }
  split; [exact Hiff|].
  intros Hlt Heq. apply Hiff in Heq.
  pose proof (N.Div0.div_mod n 1000000) as Hdn.
  pose proof (N.Div0.div_mod m 1000000) as Hdm.
  pose proof (N.mod_upper_bound n 1000000).
  pose proof (N.mod_upper_bound m 1000000).
  nia.
Qed.

Lemma ticketNumber_same_witness :
  ticketNumber 1700000123999 = ticketNumber 1700001123999
  ∧ ticketNumber 1700000123999 ≠ ticketNumber 1700000124000.
Proof.
  destruct (ticketNumber_same 1700000123999 1700001123999) as [Hiff _];
    [lia..|].
  destruct (ticketNumber_same 1700000123999 1700000124000) as [_ Hne];
    [lia..|].
  split; [apply Hiff; reflexivity | apply Hne; lia].
Defined.

End ticket_collisions.

(** ** The publisher's list *)

Section publisher_lists.
Import PublisherScreen Sample Scenario.

(** X23.  An upload of a paid document that goes through takes the record
    out of the publisher's list and leaves the rest of the list as it was,
    in the same order. *)
Theorem uploadPaidPDF_moves_record voucher id result first rest u bytes ud
    tCallback tFile tStamp w d :
  id_of voucher = Some id →
  assets result = Some (first :: rest) →
  PublisherScreen.uri first = Some u →
  files w !! u = Some bytes →
  online w = true →
  Firestore.collection (db w) "receipts" !! id = Some d →
  let w1 := (uploadPaidPDF voucher result ud tCallback tFile tStamp w).2 in
  (fetchVouchers w1).1
  = Firestore.row <$>
      filter (λ x, x.1 ≠ id)
        (Firestore.getDocs_where_desc (Firestore.collection (db w) "receipts")
           "status" (VStr "payment_initiated") "createdAt").
Proof.
  intros Hid Hassets Huri Hbytes Hon Hd w1.
  destruct (uploadPaidPDF_run voucher id result first rest u bytes ud
              tCallback tFile tStamp w d Hid Hassets Huri Hbytes Hon Hd)
    as (_ & Hdb & _).
  unfold fetchVouchers. cbn [fst]. fold w1 in Hdb. rewrite Hdb.
  rewrite collection_insert_eq.
  rewrite (query_update_out _ id d); [done..|].
  rewrite union_written with (v := VStr "payment_done"); [done|].
  unfold paidFields. by simplify_map_eq.
Qed.

Lemma uploadPaidPDF_moves_record_witness :
  let voucher := row_of "receipts" "R1" world in
  let w1 := (uploadPaidPDF voucher picked (Some (profile "Pia"))
               1700000200000 1700000200001 1700000200002 world).2 in
  (id_of voucher = Some "R1"
   ∧ files world !! "file:///paid.pdf" = Some "%PDF-paid"
   ∧ is_Some (Firestore.collection (db world) "receipts" !! "R1"))
  ∧ (fetchVouchers world).1
    = Firestore.row <$> [("R2", initiated "2024-02-05T08:00:00.000Z");
                         ("R1", initiated "2024-01-10T08:00:00.000Z")]
  ∧ (fetchVouchers w1).1
    = Firestore.row <$> [("R2", initiated "2024-02-05T08:00:00.000Z")].
Proof.
  intros voucher w1.
  assert (H1 : id_of voucher = Some "R1") by (vm_compute; reflexivity).
  assert (H2 : files world !! "file:///paid.pdf" = Some "%PDF-paid")
    by (vm_compute; reflexivity).
  assert (H3 : Firestore.collection (db world) "receipts" !! "R1"
               = Some (initiated "2024-01-10T08:00:00.000Z"))
    by (vm_compute; reflexivity).
  split; [split; [exact H1 | split; [exact H2 | by eexists]]|].
  split; [vm_compute; reflexivity|].
  etrans; [|vm_compute; reflexivity].
  exact (uploadPaidPDF_moves_record voucher "R1" picked _ _
           "file:///paid.pdf" "%PDF-paid" (Some (profile "Pia"))
           1700000200000 1700000200001 1700000200002 world _
           H1 eq_refl eq_refl H2 eq_refl H3).
Defined.

(** X24.  Whatever its arguments, [uploadPaidPDF] changes no record but
    the one of the row, and of that one only [paidPdfUrl], [status],
    [publishedBy] and [publishedAt]; when the picker hands back no asset,
    it returns without a message and nothing at all has changed. *)
Theorem uploadPaidPDF_frame voucher result ud tCallback tFile tStamp w :
  let r := uploadPaidPDF voucher result ud tCallback tFile tStamp w in
  (∀ c id, (c ≠ "receipts" ∨ Some id ≠ id_of voucher) →
     Firestore.collection (db r.2) c !! id
     = Firestore.collection (db w) c !! id)
  ∧ (∀ c id k, k ∉ ["paidPdfUrl"; "status"; "publishedBy"; "publishedAt"] →
       Firestore.collection (db r.2) c !! id ≫= (.!! k)
       = Firestore.collection (db w) c !! id ≫= (.!! k))
  ∧ (assets result = None ∨ assets result = Some [] → r = (Returned, w)).
Proof.
  intros r.
  destruct (uploadPaidPDF_cases voucher result ud tCallback tFile tStamp w)
    as [_ Hdb]. fold r in Hdb. split; [|split].
  - intros c id Hne.
    destruct Hdb as [[-> _] | (id' & d & path & Hid & Hd & _ & _ & ->)];
      [done|].
    rewrite single_update_lookup. case_decide as Heq; [|done].
    destruct Heq as [<- <-]. rewrite Hid in Hne. by destruct Hne.
  - intros c id k Hk.
    destruct Hdb as [[-> _] | (id' & d & path & Hid & Hd & _ & _ & ->)];
      [done|].
    rewrite single_update_lookup. case_decide as Heq; [|done].
    destruct Heq as [<- <-]. rewrite Hd. simpl.
    apply union_frame. by apply paidFields_other.
  - unfold r, uploadPaidPDF, pickerCallback, handle, bind, ret.
    intros [-> | ->]; simpl;
      by destruct (negb (didCancel result) && _).
Qed.

End publisher_lists.

(** ** The image a receipt row shows *)

Section receipt_rows.
Import VoucherLists.

(** X25.  The [imageUrl] that [fetchApprovedReceipts] computes for a row
    never decides which image is shown: a stored [imageUrl] stands in the
    row as it is, and the image viewed from the row is the stored
    [imageUrl] when that is set and the stored [receiptUrl] otherwise,
    though the computed field prefers [receiptUrl]. *)
Theorem viewedImage_receiptRow id (d : Doc) :
  (is_Some (d !! "imageUrl") →
   receiptRow (id, d) !! "imageUrl" = d !! "imageUrl")
  ∧ receiptRow (id, d) !! "receiptUrl" = d !! "receiptUrl"
  ∧ viewedImage (receiptRow (id, d))
    = js_or (d !! "imageUrl") (d !! "receiptUrl").
Proof.
  assert (Hr : receiptRow (id, d) !! "receiptUrl" = d !! "receiptUrl").
  { unfold receiptRow. cbn [fst snd].
    destruct (d !! "receiptUrl") as [v|] eqn:Hv.
    - apply lookup_union_Some_l, lookup_union_Some_l. done.
    - rewrite !lookup_union_None.
      repeat split; try done; case_match; by simplify_map_eq. }
  split; [|split; [exact Hr|]].
  - intros [v Hv]. unfold receiptRow. cbn [fst snd]. rewrite Hv.
    by apply lookup_union_Some_l, lookup_union_Some_l.
  - unfold viewedImage. rewrite Hr. unfold receiptRow. cbn [fst snd].
    destruct (d !! "imageUrl") as [v|] eqn:Hv.
    + rewrite (lookup_union_Some_l _ _ _ v);
        [done|by apply lookup_union_Some_l].
    + unfold js_or at 2. rewrite lookup_union_l by done.
      rewrite lookup_union_r by done.
      unfold js_or. destruct (truthy (d !! "receiptUrl")) eqn:Ht.
      * destruct (d !! "receiptUrl") as [r|]; [|done].
        rewrite lookup_singleton_eq. by rewrite Ht.
      * destruct (d !! "receiptUrl") as [r|]; by simplify_map_eq.
Qed.

End receipt_rows.

(** ** The user list after a sign-up and after an update *)

Section user_list.
Import SuperUserScreen AuthContext Sample Scenario.

Lemma updates_company form :
  userType form = "company" → company form ≠ "" →
  updates form !! "company" = Some (VStr (company form)).
Proof.
  intros Htype Hco. unfold updates. rewrite Htype.
  rewrite (bool_decide_false (company form = "")) by done. simpl.
  rewrite lookup_union_r; [by simplify_map_eq|].
  case_match; by simplify_map_eq.
Qed.

(** X26.  The user type the list shows is the one chosen in the edit
    dialog: after [updateUser] with a role offered for the chosen type
    (and, for a company user, a company), the row [fetchUsers] builds for
    the user shows [Company], [Finance] or [ZoomPay] accordingly.  The row
    is listed when the profile has a [createdAt]; a profile without it is
    not listed at all. *)
Theorem updateUser_userType_shown user id d form now w :
  id_of user = Some id →
  Firestore.collection (db w) "users" !! id = Some d →
  userType form ∈ ["company"; "finance"; "zoompay"] →
  role form ∈ SuperUserLists.roleOptions (userType form) →
  (userType form = "company" → company form ≠ "") →
  let w1 := (updateUser (Some user) form now w).2 in
  let shown := if bool_decide (userType form = "company") then "Company"
               else if bool_decide (userType form = "finance") then "Finance"
               else "ZoomPay" in
  ∃ d', Firestore.collection (db w1) "users" !! id = Some d'
        ∧ SuperUserLists.userRow (id, d') !! "userType" = Some (VStr shown)
        ∧ (is_Some (d !! "createdAt") →
           SuperUserLists.userRow (id, d') ∈ SuperUserLists.fetchUsers w1)
        ∧ (d !! "createdAt" = None →
           ∀ x, x ∈ SuperUserLists.getDocs_desc
                      (Firestore.collection (db w1) "users") "createdAt" →
                x.1 ≠ id).
Proof.
  intros Hid Hd Htype Hrole Hco w1 shown.
  set (d' := userFields w form now ∪ d).
  assert (Hcol : Firestore.collection (db w1) "users"
                 = <[id := d']> (Firestore.collection (db w) "users")).
  { unfold w1, updateUser, handle, bind, get, ret, updateDoc.
    rewrite Hid. simpl. rewrite (updateDoc_exists _ _ _ _ _ Hd).
    cbn [snd db set_db]. by rewrite collection_insert_eq. }
  assert (Hcreated : d' !! "createdAt" = d !! "createdAt").
  { apply union_frame, userFields_other.
    apply (bool_decide_unpack _). reflexivity. }
  assert (Hup : ∀ k v, updates form !! k = Some v → d' !! k = Some v).
  { intros k v Hk. apply union_written. unfold userFields.
    destruct (decide (k = "updatedAt")) as [->|?];
      [|destruct (decide (k = "updatedBy")) as [->|?]].
    - revert Hk. unfold updates. rewrite lookup_union_Some_raw.
      repeat case_match; intros [?|[? ?]]; by simplify_map_eq.
    - revert Hk. unfold updates. rewrite lookup_union_Some_raw.
      repeat case_match; intros [?|[? ?]]; by simplify_map_eq.
    - rewrite lookup_union_r; [done|by simplify_map_eq]. }
  exists d'. split; [by rewrite Hcol, lookup_insert_eq|]. split; [|split].
  - unfold SuperUserLists.userRow. rewrite lookup_insert_eq. do 2 f_equal.
    cbn [snd]. unfold SuperUserLists.userType, shown.
    assert (Hne : role form ≠ "").
    { intros Heq. rewrite Heq in Hrole. revert Hrole.
      unfold SuperUserLists.roleOptions. repeat case_bool_decide;
        apply (bool_decide_unpack _); reflexivity. }
    destruct (updates_role form Hne) as (Hdes%Hup & _).
    rewrite Hdes.
    apply elem_of_cons in Htype as [Ht|Htype].
    { rewrite (Hup _ _ (updates_company form Ht (Hco Ht))). simpl.
      rewrite (bool_decide_false (company form = "")) by auto.
      by rewrite Ht. }
    assert (Hstaff : userType form = "finance" ∨ userType form = "zoompay").
    { apply elem_of_cons in Htype as [?|Htype]; [by left|].
      apply list_elem_of_singleton in Htype. by right. }
    destruct (updates_staff form Hstaff) as [Hnull%Hup _]. rewrite Hnull.
    simpl. revert Hrole. unfold SuperUserLists.roleOptions.
    destruct Hstaff as [-> | ->]; simpl; intros Hrole;
      repeat (apply elem_of_cons in Hrole as [->|Hrole]); try done;
      by apply elem_of_nil in Hrole.
  - intros Hsome. unfold SuperUserLists.fetchUsers.
    apply list_elem_of_fmap. exists (id, d'). split; [done|].
    apply elem_of_getDocs_desc. rewrite Hcol, lookup_insert_eq, Hcreated.
    done.
  - intros Hnone [i e] [He Hsome]%elem_of_getDocs_desc Heq.
    simpl in Heq. subst i. rewrite Hcol, lookup_insert_eq in He.
    injection He as <-. rewrite Hcreated, Hnone in Hsome.
    by destruct Hsome.
Qed.

Lemma updateUser_userType_shown_witness :
  let user := row_of "users" "uid-new" listed in
  let w1 := (SuperUserScreen.updateUser (Some user) payeeForm 1700000000000
               listed).2 in
  id_of user = Some "uid-new"
  ∧ ∃ d', Firestore.collection (db w1) "users" !! "uid-new" = Some d'
          ∧ SuperUserLists.userRow ("uid-new", d') !! "userType"
            = Some (VStr "Company")
          ∧ SuperUserLists.userRow ("uid-new", d')
            ∈ SuperUserLists.fetchUsers w1.
Proof.
  intros user w1.
  assert (H1 : id_of user = Some "uid-new") by (vm_compute; reflexivity).
  assert (H2 : Firestore.collection (db listed) "users" !! "uid-new"
               = Some (doc "users" "uid-new" listed))
    by (vm_compute; reflexivity).
  split; [exact H1|].
  destruct (updateUser_userType_shown user "uid-new" _ payeeForm
              1700000000000 listed H1 H2)
    as (d' & Hd' & Hshown & Hlisted & _).
  - apply (bool_decide_unpack _). vm_compute. reflexivity.
  - apply (bool_decide_unpack _). vm_compute. reflexivity.
  - done.
  - exists d'. split; [exact Hd'|]. split; [exact Hshown|].
    apply Hlisted. vm_compute. by eexists.
Defined.

(** X27.  A user that has signed up is in the super user's list, shown
    as pending, whatever designation the sign-up passed: the designation
    is stored as given, beside [pending] set. *)
Theorem signUp_then_listed email password data newUid ignoreUndefined
    listenerLast now s w d s1 w1 :
  AuthProvider.signUp email password data (Some newUid) ignoreUndefined
    listenerLast now s w
  = (Ok d, s1, w1) →
  SuperUserLists.userRow (newUid, d) ∈ SuperUserLists.fetchUsers w1
  ∧ SuperUserLists.userStatus (SuperUserLists.userRow (newUid, d)) = "Pending"
  ∧ d !! "designation" = VStr <$> AuthProvider.designation data.
Proof.
  intros (uid' & [= <-] & _ & -> & _ & _ & Hdb & _)%signUp_Ok.
  split; [|split].
  - unfold SuperUserLists.fetchUsers. apply list_elem_of_fmap.
    eexists (newUid, _). split; [done|]. apply elem_of_getDocs_desc.
    rewrite Hdb, collection_insert_eq, lookup_insert_eq. split; [done|].
    unfold AuthProvider.defined, AuthProvider.userData.
    destruct (AuthProvider.designation data), (AuthProvider.company data),
      (AuthProvider.bank data); simpl; by simplify_map_eq.
  - unfold SuperUserLists.userStatus, SuperUserLists.userRow, Firestore.row.
    cbn [fst snd]. rewrite !lookup_insert_ne by done.
    rewrite (lookup_union_Some_l _ _ "pending" (VBool true));
      [done|apply defined_userData_pending].
  - unfold AuthProvider.defined, AuthProvider.userData.
    destruct (AuthProvider.designation data), (AuthProvider.company data),
      (AuthProvider.bank data); simpl; by simplify_map_eq.
Qed.

Lemma signUp_then_listed_witness :
  signedUp = (Ok samProfile, signedUp.1.2, signedUp.2)
  ∧ SuperUserLists.userRow ("uid-sam", samProfile)
    ∈ SuperUserLists.fetchUsers signedUp.2
  ∧ SuperUserLists.userStatus (SuperUserLists.userRow ("uid-sam", samProfile))
    = "Pending"
  ∧ samProfile !! "designation" = None.
Proof.
  assert (H : signedUp = (Ok samProfile, signedUp.1.2, signedUp.2))
    by (vm_compute; reflexivity).
  split; [exact H|].
  exact (signUp_then_listed "sam@acme.test" "secret" newcomer "uid-sam" true
           false 1700000000000 signedOut world samProfile signedUp.1.2
           signedUp.2 H).
Defined.

End user_list.
